(** * Parity UI (js/src): transport errors, dapp-registry helpers,
      the transfer wizard, the step indicator and the registry reducer.

    A shallow embedding of the JavaScript sources, one module per source
    file, followed by the properties established about them.

    Conventions of the embedding:
    - a JavaScript number that is used as an integer (JSON-RPC error code,
      wizard stage, step index) is a [Z];
    - a JavaScript string is a [string];
    - a value that may be [null]/[undefined] is an [option];
    - an object literal whose key order is observed ([Object.keys]) is an
      association list in source order;
    - a promise chain is a term of the free monad [Promise] over the calls
      made to the contract instance; running it against a backend yields
      the trace of calls, in the order in which they were issued. *)

From Stdlib Require Import ZArith String Ascii List Bool Lia DecimalString.
Import ListNotations.

Local Open Scope string_scope.
Local Open Scope Z_scope.

(* ================================================================= *)
(** ** JavaScript helpers shared by the modules *)

Module Js.

(** Template-literal / [String(n)] rendering of an integer number
    (plain decimal digits, with a leading minus sign when negative). *)
Definition number_to_string (n : Z) : string :=
  NilZero.string_of_int (Z.to_int n).

(** *** [Number::toString] on integers

    A JavaScript number is a double.  Up to [2^53] every integer is one
    and is rendered by its digits.  Beyond, an integer stands for the
    double nearest to it, which is rendered by the shortest decimal that
    reads back as the same double, in exponent notation from [10^21]
    on. *)

(** The double nearest to the integer [x >= 2^53], ties to even: its
    mantissa [m], with [2^52 <= m < 2^53], and its exponent [e >= 1];
    its value is [m * 2^e]. *)
Definition nearest_double (x : Z) : Z * Z :=
  let e := Z.log2 x - 52 in
  let q := x / 2 ^ e in
  let r := x mod 2 ^ e in
  let half := 2 ^ (e - 1) in
  let q' := if (half <? r) || ((r =? half) && Z.odd q) then q + 1 else q in
  if q' =? 2 ^ 53 then (2 ^ 52, e + 1) else (q', e).

(** Whether the decimal [y] reads back as the double [m * 2^e]: it lies
    between the midpoints to the neighbouring doubles, the midpoints
    included when [m] is even. *)
Definition rounds_to (m e y : Z) : bool :=
  let v := m * 2 ^ e in
  let lo4 := 4 * v - (if m =? 2 ^ 52 then 2 ^ e else 2 ^ (e + 1)) in
  let hi4 := 4 * v + 2 ^ (e + 1) in
  if Z.even m then (lo4 <=? 4 * y) && (4 * y <=? hi4)
  else (lo4 <? 4 * y) && (4 * y <? hi4).

(** The decimal [s * 10^p] with the fewest digits [s] that reads back as
    the double [m * 2^e], the one closest to it when there are two (the
    even [s] on a tie); searched from the exponent [p] downwards. *)
Fixpoint shortest (fuel : nat) (m e p : Z) : Z * Z :=
  let v := m * 2 ^ e in
  match fuel with
  | O => (v, 0)
  | S fuel' =>
    let s0 := v / 10 ^ p in
    let ok s := (1 <=? s) && rounds_to m e (s * 10 ^ p) in
    match ok s0, ok (s0 + 1) with
    | true, true =>
      let d0 := v - s0 * 10 ^ p in
      let d1 := (s0 + 1) * 10 ^ p - v in
      if d0 <? d1 then (s0, p)
      else if d1 <? d0 then (s0 + 1, p)
      else if Z.even s0 then (s0, p) else (s0 + 1, p)
    | true, false => (s0, p)
    | false, true => (s0 + 1, p)
    | false, false => shortest fuel' m e (p - 1)
    end
  end.

Fixpoint zeros (n : nat) : string :=
  match n with
  | O => ""
  | S n' => "0" ++ zeros n'
  end.

(** The rendering of the double nearest to the integer [x >= 2^53]. *)
Definition large_to_string (x : Z) : string :=
  let '(m, e) := nearest_double x in
  if 971 <? e then "Infinity"
  else
    let digits := String.length (number_to_string (m * 2 ^ e)) in
    let '(s, p) := shortest (S digits) m e (Z.of_nat digits) in
    let ds := number_to_string s in
    let n := Z.of_nat (String.length ds) + p in
    if n <=? 21 then ds ++ zeros (Z.to_nat p)
    else
      match ds with
      | String d "" => String d "" ++ "e+" ++ number_to_string (n - 1)
      | String d rest =>
        String d "" ++ "." ++ rest ++ "e+" ++ number_to_string (n - 1)
      | "" => ""
      end.

(** The rendering of an integer number in a template literal. *)
Definition template_number (n : Z) : string :=
  if Z.abs n <? 2 ^ 53 then number_to_string n
  else if n <? 0 then "-" ++ large_to_string (- n)
  else large_to_string n.

(** Truthiness of a possibly absent string: [null], [undefined] and the
    empty string are falsy. *)
Definition truthy (v : option string) : bool :=
  match v with
  | None => false
  | Some EmptyString => false
  | Some (String _ _) => true
  end.

(** [s.slice(0, n)] for a string [s] and [n >= 0]. *)
Definition slice0 (n : nat) (s : string) : string := String.substring 0 n s.

(** [xs.find(p)]: the first element satisfying [p], or [undefined]. *)
Definition array_find {A} (p : A -> bool) (xs : list A) : option A :=
  List.find p xs.

(** [v || ''] for the result of a [find] over strings. *)
Definition or_empty (v : option string) : string :=
  match v with
  | Some (String a s) => String a s
  | _ => ""
  end.

End Js.

(* ================================================================= *)
(** ** js/src/api/transport/error.js *)

Module Transport.

(** [ERROR_CODES], in source order. *)
Definition ERROR_CODES : list (string * Z) :=
  [ ("UNSUPPORTED_REQUEST", -32000);
    ("NO_WORK", -32001);
    ("NO_AUTHOR", -32002);
    ("NO_NEW_WORK", -32003);
    ("NOT_ENOUGH_DATA", -32006);
    ("UNKNOWN_ERROR", -32009);
    ("TRANSACTION_ERROR", -32010);
    ("EXECUTION_ERROR", -32015);
    ("ACCOUNT_LOCKED", -32020);
    ("PASSWORD_INVALID", -32021);
    ("ACCOUNT_ERROR", -32023);
    ("SIGNER_DISABLED", -32030);
    ("DAPPS_DISABLED", -32031);
    ("NETWORK_DISABLED", -32035);
    ("REQUEST_REJECTED", -32040);
    ("REQUEST_REJECTED_LIMIT", -32041);
    ("REQUEST_NOT_FOUND", -32042);
    ("COMPILATION_ERROR", -32050);
    ("ENCRYPTION_ERROR", -32055);
    ("FETCH_ERROR", -32060);
    ("INVALID_PARAMS", -32602) ].

(** [Object.keys(ERROR_CODES)]. *)
Definition keys (o : list (string * Z)) : list string := map fst o.

(** [ERROR_CODES[k]]: the value stored under [k], [undefined] when the
    key is absent. *)
Fixpoint get (o : list (string * Z)) (k : string) : option Z :=
  match o with
  | [] => None
  | (k', v) :: rest => if String.eqb k' k then Some v else get rest k
  end.

(** [ERROR_CODES[k] === code]. *)
Definition strict_eq_code (v : option Z) (code : Z) : bool :=
  match v with
  | Some c => Z.eqb c code
  | None => false
  end.

(** The fields of a constructed [TransportError]; [message] is the one
    set by the [ExtendableError] super-constructor. *)
Record TransportError : Type := mkTransportError {
  message : string;
  code : Z;
  type : string;
  method : string;
  text : string
}.

(** [new TransportError(method, code, message)]. *)
Definition new_TransportError (method0 : string) (code0 : Z) (message0 : string)
  : TransportError :=
  let m := method0 ++ ": " ++ Js.template_number code0 ++ ": " ++ message0 in
  {| message := m;
     code := code0;
     type := Js.or_empty
               (Js.array_find
                  (fun k => strict_eq_code (get ERROR_CODES k) code0)
                  (keys ERROR_CODES));
     method := method0;
     text := message0 |}.

End Transport.

(* ================================================================= *)
(** ** bignumber.js, as far as the dapp-registry helpers use it *)

Module BigNumber.

(** An arbitrary-precision decimal: [unscaled * 10^(-scale)]. *)
Record t : Type := mk { unscaled : Z; scale : nat }.

Definition of_Z (n : Z) : t := {| unscaled := n; scale := 0 |}.

(** The JavaScript number literal [1.2], converted as the library does
    (through its shortest decimal rendering). *)
Definition of_1_2 : t := {| unscaled := 12; scale := 1 |}.

(** [x.mul(y)]: exact, no rounding is applied to a product. *)
Definition mul (x y : t) : t :=
  {| unscaled := unscaled x * unscaled y; scale := (scale x + scale y)%nat |}.

(** The library's rounding modes 0..8. *)
Inductive RoundingMode : Type :=
| ROUND_UP | ROUND_DOWN | ROUND_CEIL | ROUND_FLOOR
| ROUND_HALF_UP | ROUND_HALF_DOWN | ROUND_HALF_EVEN
| ROUND_HALF_CEIL | ROUND_HALF_FLOOR.

(** The library default; the sources never reconfigure it. *)
Definition ROUNDING_MODE : RoundingMode := ROUND_HALF_UP.

(** [n / d] rounded to an integer under mode [rm], for [d > 0]. *)
Definition round_div (rm : RoundingMode) (n d : Z) : Z :=
  let q := n / d in
  let r := n mod d in
  let up := q + 1 in
  if r =? 0 then q else
  match rm with
  | ROUND_CEIL => up
  | ROUND_FLOOR => q
  | ROUND_UP => if n <? 0 then q else up
  | ROUND_DOWN => if n <? 0 then up else q
  | _ =>
    match 2 * r ?= d with
    | Lt => q
    | Gt => up
    | Eq =>
      match rm with
      | ROUND_HALF_UP => if n <? 0 then q else up
      | ROUND_HALF_DOWN => if n <? 0 then up else q
      | ROUND_HALF_EVEN => if Z.even q then q else up
      | ROUND_HALF_CEIL => up
      | _ => q
      end
    end
  end.

(** The integer nearest to [x] under the configured rounding mode. *)
Definition round0 (x : t) : Z :=
  round_div ROUNDING_MODE (unscaled x) (10 ^ Z.of_nat (scale x)).

(** [x.toFixed(0)]: plain decimal digits, never exponential notation;
    the sign of [x] is kept even when the digits are all zero. *)
Definition toFixed0 (x : t) : string :=
  if unscaled x <? 0
  then "-" ++ Js.number_to_string (Z.abs (round0 x))
  else Js.number_to_string (round0 x).

End BigNumber.

(* ================================================================= *)
(** ** js/src/dapps/dappreg/utils.js *)

Module Dappreg.

(** Values handed to and received from a contract instance. *)
Inductive Value : Type :=
| VBigNumber (b : BigNumber.t)
| VString (s : string).

(** The [options] object of a contract call; absent keys are [None]. *)
Record Options : Type := mkOptions {
  from : option Value;
  value : option Value;
  gas : option Value
}.

Definition empty_options : Options :=
  {| from := None; value := None; gas := None |}.

(** [options.value = v] and [options.gas = v]. *)
Definition set_value (o : Options) (v : Value) : Options :=
  {| from := from o; value := Some v; gas := gas o |}.

Definition set_gas (o : Options) (v : Value) : Options :=
  {| from := from o; value := value o; gas := Some v |}.

(** The three ways a contract function is invoked. *)
Inductive CallKind : Type := call | estimateGas | postTransaction.

(** [instance.fn.kind(options, values)]. *)
Record Call : Type := mkCall {
  instance : string;
  fn : string;
  kind : CallKind;
  options : Options;
  values : list Value
}.

(** Why a promise is rejected: the backend answered with an error, or a
    [then] callback threw. *)
Inductive Rejection : Type :=
| Failed (e : Transport.TransportError)
| Thrown (what : string).

(** A promise chain without [catch] handlers: either settled, or waiting
    on a call whose resolution feeds the continuation; a rejected call
    rejects the whole chain. *)
Inductive Promise (A : Type) : Type :=
| Resolve (a : A)
| Reject (e : Rejection)
| Invoke (c : Call) (k : Value -> Promise A).

Arguments Resolve {A} a.
Arguments Reject {A} e.
Arguments Invoke {A} c k.

(** [p.then(f)]. *)
Fixpoint then_ {A B : Type} (p : Promise A) (f : A -> Promise B) : Promise B :=
  match p with
  | Resolve a => f a
  | Reject e => Reject e
  | Invoke c k => Invoke c (fun v => then_ (k v) f)
  end.

Notation "p '.then' f" := (then_ p f) (at level 50, left associativity).

(** The promise returned by a contract call. *)
Definition invoke (i f : string) (k : CallKind) (o : Options) (vs : list Value)
  : Promise Value :=
  Invoke {| instance := i; fn := f; kind := k; options := o; values := vs |}
         Resolve.

(** [gas.mul(1.2)]; throws when [gas] has no [mul] method. *)
Definition mul_1_2 (gas0 : Value) : Rejection + BigNumber.t :=
  match gas0 with
  | VBigNumber g => inr (BigNumber.mul g BigNumber.of_1_2)
  | VString _ => inl (Thrown "TypeError: gas.mul is not a function")
  end.

Definition registerGHH (instance0 : string) (url hash owner : Value)
  : Promise Value :=
  let values0 := [ hash; url ] in
  let options0 := {| from := Some owner; value := None; gas := None |} in
  (invoke instance0 "hintURL" estimateGas options0 values0)
    .then (fun gas0 =>
      match mul_1_2 gas0 with
      | inl e => Reject e
      | inr g =>
        let options1 := set_gas options0 (VString (BigNumber.toFixed0 g)) in
        invoke instance0 "hintURL" postTransaction options1 values0
      end).

Definition registerDapp (dappId : Value) (dappRegInstance : string)
  : Promise Value :=
  let values0 := [ dappId ] in
  let options0 := empty_options in
  (invoke dappRegInstance "fee" call empty_options [])
    .then (fun fee =>
      let options1 := set_value options0 fee in
      (invoke dappRegInstance "register" estimateGas options1 values0)
        .then (fun gas0 =>
          match mul_1_2 gas0 with
          | inl e => Reject e
          | inr g =>
            let options2 := set_gas options1 (VString (BigNumber.toFixed0 g)) in
            invoke dappRegInstance "register" postTransaction options2 values0
          end)).

Definition deleteDapp (dappId dappOwner : Value) (dappRegInstance : string)
  : Promise Value :=
  let values0 := [ dappId ] in
  let options0 := {| from := Some dappOwner; value := None; gas := None |} in
  (invoke dappRegInstance "unregister" estimateGas options0 values0)
    .then (fun gas0 =>
      match mul_1_2 gas0 with
      | inl e => Reject e
      | inr g =>
        let options1 := set_gas options0 (VString (BigNumber.toFixed0 g)) in
        invoke dappRegInstance "unregister" postTransaction options1 values0
      end).

Definition updateDappOwner (dappId dappOwner nextOwnerAddress : Value)
                           (dappRegInstance : string) : Promise Value :=
  let options0 := {| from := Some dappOwner; value := None; gas := None |} in
  let values0 := [ dappId; nextOwnerAddress ] in
  (invoke dappRegInstance "setDappOwner" estimateGas options0 values0)
    .then (fun gas0 =>
      match mul_1_2 gas0 with
      | inl e => Reject e
      | inr g =>
        let options1 := set_gas options0 (VBigNumber g) in
        invoke dappRegInstance "setDappOwner" postTransaction options1 values0
      end).

(** *** Running a promise chain against a backend *)

(** One completed call: what was asked and how it settled. *)
Definition Event : Type := (Call * (Rejection + Value))%type.

Section Backend.

(** The backend: its state and how it settles a call. *)
Variable World : Type.
Variable respond : World -> Call -> World * (Rejection + Value).

(** The calls issued by [p], in order, the final backend state and the
    settlement of [p]. *)
Fixpoint run {A : Type} (p : Promise A) (w : World)
  : list Event * World * (Rejection + A) :=
  match p with
  | Resolve a => ([], w, inr a)
  | Reject e => ([], w, inl e)
  | Invoke c k =>
    match respond w c with
    | (w1, inl e) => ([(c, inl e)], w1, inl e)
    | (w1, inr v) =>
      let '(tr, w2, res) := run (k v) w1 in
      ((c, inr v) :: tr, w2, res)
    end
  end.

Definition trace {A : Type} (p : Promise A) (w : World) : list Event :=
  fst (fst (run p w)).

Definition outcome {A : Type} (p : Promise A) (w : World) : Rejection + A :=
  snd (run p w).

End Backend.

(** *** The write helpers and what is asked of their traces *)

(** An invocation of one of the four write helpers. *)
Inductive WriteHelper : Type :=
| RegisterGHH (instance0 : string) (url hash owner : Value)
| RegisterDapp (dappId : Value) (dappRegInstance : string)
| DeleteDapp (dappId dappOwner : Value) (dappRegInstance : string)
| UpdateDappOwner (dappId dappOwner nextOwnerAddress : Value)
                  (dappRegInstance : string).

Definition promise_of (h : WriteHelper) : Promise Value :=
  match h with
  | RegisterGHH i url hash owner => registerGHH i url hash owner
  | RegisterDapp dappId i => registerDapp dappId i
  | DeleteDapp dappId dappOwner i => deleteDapp dappId dappOwner i
  | UpdateDappOwner dappId dappOwner next i =>
    updateDappOwner dappId dappOwner next i
  end.

(** The value [v] stands for the integer [n]: as its decimal rendering,
    or as a decimal number equal to it. *)
Definition denotes_integer (v : Value) (n : Z) : Prop :=
  match v with
  | VString s => s = Js.number_to_string n
  | VBigNumber b =>
    BigNumber.unscaled b = n * 10 ^ Z.of_nat (BigNumber.scale b)
  end.

(** [ceil(g * 1.2)]. *)
Definition ceil_1_2 (g : Z) : Z := - ((- (12 * g)) / 10).

(** [g * 1.2] rounded to the nearest integer; [g * 1.2] is never half
    way between two integers. *)
Definition nearest_1_2 (g : Z) : Z := (12 * g + 5) / 10.

(** Every gas estimate [g] that resolves in the trace is immediately
    followed by the submission of the same contract function, whose
    [gas] option is related to [g] by [rule]. *)
Definition gas_limit_rule (rule : Z -> Value -> Prop) (tr : list Event) : Prop :=
  forall pre c g post,
    tr = (pre ++ (c, inr (VBigNumber (BigNumber.of_Z g))) :: post)%list ->
    kind c = estimateGas ->
    0 <= g ->
    exists c' r post',
      post = (c', r) :: post' /\
      kind c' = postTransaction /\
      instance c' = instance c /\ fn c' = fn c /\
      exists v, gas (options c') = Some v /\ rule g v.

(** Every submission in the trace comes right after the resolved gas
    estimate of the same contract function. *)
Definition estimate_before_submit (tr : list Event) : Prop :=
  forall pre c r post,
    tr = (pre ++ (c, r) :: post)%list ->
    kind c = postTransaction ->
    exists pre' ce g,
      pre = (pre' ++ [(ce, inr g)])%list /\
      kind ce = estimateGas /\
      instance ce = instance c /\ fn ce = fn c.

(** A rejected gas estimate ends the chain: no call follows it, nothing
    is ever submitted, and the helper's promise is rejected with the
    same error. *)
Definition failed_estimate_stops (tr : list Event) (res : Rejection + Value)
  : Prop :=
  forall pre ce e post,
    tr = (pre ++ (ce, inl e) :: post)%list ->
    kind ce = estimateGas ->
    post = [] /\ res = inl e /\
    forall c r, In (c, r) tr -> kind c <> postTransaction.

(** The submitted limit is the decimal rendering of [g * 1.2] rounded to
    the nearest integer. *)
Definition rounded_limit (g : Z) (v : Value) : Prop :=
  v = VString (Js.number_to_string (nearest_1_2 g)).

(** The submitted limit stands for [ceil(g * 1.2)]. *)
Definition ceil_limit (g : Z) (v : Value) : Prop :=
  denotes_integer v (ceil_1_2 g).

(** The submitted limit is the product [g * 1.2] itself, not rounded. *)
Definition unrounded_limit (g : Z) (v : Value) : Prop :=
  v = VBigNumber (BigNumber.mul (BigNumber.of_Z g) BigNumber.of_1_2).

(** *** Two small backends to run the helpers against *)

(** A stateless backend that resolves every gas estimate with the
    integer [g] and every other call with [v]. *)
Definition resolve_estimates (g : Z) (v : Value) (w : unit) (c : Call)
  : unit * (Rejection + Value) :=
  match kind c with
  | estimateGas => (w, inr (VBigNumber (BigNumber.of_Z g)))
  | _ => (w, inr v)
  end.

(** A stateless backend that rejects every gas estimate with the error
    built from [code0] and resolves every other call with [v]. *)
Definition reject_estimates (code0 : Z) (v : Value) (w : unit) (c : Call)
  : unit * (Rejection + Value) :=
  match kind c with
  | estimateGas =>
    (w, inl (Failed (Transport.new_TransportError (fn c) code0 "rejected")))
  | _ => (w, inr v)
  end.

End Dappreg.

(* ================================================================= *)
(** ** The transfer wizard: the [Transfer] component of
       js/src/ui/Portal/portal.js (second part of the file) *)

Module Transfer.

(** [this.store.gasStore], as far as the component reads it. *)
Record GasStore : Type := mkGasStore {
  histogram : option (list Z);
  errorEstimated : option string
}.

(** The observable fields of the [TransferStore] read by the component. *)
Record Store : Type := mkStore {
  stage : Z;
  extras : bool;
  sending : bool;
  rejected : bool;
  isValid : bool;
  txhash : option string;
  busyState : option string;
  operation : option string;
  gasStore : GasStore;
  recipient : string;
  recipientError : option string;
  sender : string;
  senderError : option string;
  valueAll : bool;
  tag : string;
  total : string;
  totalError : option string;
  value : string;
  valueError : option string;
  isEth : bool;
  data : string;
  dataError : option string
}.

(** [this.props]: the account the wizard was opened for.  The remaining
    props are handed to [Details] untouched and play no part below. *)
Record Props : Type := mkProps {
  address : string;
  name : option string
}.

(** What a button does when clicked. *)
Inductive Handler : Type := handleClose | onNext | onPrev | onSend.

Inductive Icon : Type :=
| ContentClear
| NavigationArrowForward
| NavigationArrowBack
| IdentityIcon (address0 : string)
| ActionDoneAll.

(** [<Button disabled=.. icon=.. label=.. onClick=.. />]; a button
    without a [disabled] prop is enabled. *)
Record Button : Type := mkButton {
  disabled : bool;
  icon : Icon;
  label : string;
  onClick : Handler
}.

Record DetailsProps : Type := mkDetailsProps {
  d_address : string;
  d_all : bool;
  d_extras : bool;
  d_recipient : string;
  d_recipientError : option string;
  d_sender : string;
  d_senderError : option string;
  d_tag : string;
  d_total : string;
  d_totalError : option string;
  d_value : string;
  d_valueError : option string
}.

Record ExtrasProps : Type := mkExtrasProps {
  e_isEth : bool;
  e_data : string;
  e_dataError : option string;
  e_total : string;
  e_totalError : option string;
  e_gasStore : GasStore
}.

(** The children of a [<CompletedStep>]: the transaction hash display
    and the notice shown for a multi-owner wallet, whose read-only
    [Input] carries the operation hash. *)
Inductive Child : Type :=
| TxHash (hash : option string)
| OperationNotice (notice : string) (input_value : string) (input_label : string).

(** The element trees the page renderers produce. *)
Inductive Element : Type :=
| BusyStep (title : string) (state : option string)
| CompletedStep (children : list Child)
| Details (p : DetailsProps)
| Extras (p : ExtrasProps).

Definition renderCompletePage (s : Store) : option Element :=
  if rejected s then
    Some (BusyStep "The transaction has been rejected"
            (Some "You can safely close this window, the transfer will not occur."))
  else if sending s then
    Some (BusyStep "The transaction is in progress" (busyState s))
  else
    Some (CompletedStep
            (TxHash (txhash s) ::
             match operation s with
             | Some (String a op) =>
               [ OperationNotice
                   "This transaction needs confirmation from other owners."
                   (String a op) "operation hash" ]
             | _ => []
             end)).

Definition renderDetailsPage (p : Props) (s : Store) : option Element :=
  Some (Details
    {| d_address := address p;
       d_all := valueAll s;
       d_extras := extras s;
       d_recipient := recipient s;
       d_recipientError := recipientError s;
       d_sender := sender s;
       d_senderError := senderError s;
       d_tag := tag s;
       d_total := total s;
       d_totalError := totalError s;
       d_value := value s;
       d_valueError := valueError s |}).

Definition renderExtrasPage (s : Store) : option Element :=
  match histogram (gasStore s) with
  | None => None
  | Some _ =>
    Some (Extras
      {| e_isEth := isEth s;
         e_data := data s;
         e_dataError := dataError s;
         e_total := total s;
         e_totalError := totalError s;
         e_gasStore := gasStore s |})
  end.

Definition renderPage (p : Props) (s : Store) : option Element :=
  if stage s =? 0 then renderDetailsPage p s
  else if (stage s =? 1) && extras s then renderExtrasPage s
  else renderCompletePage s.

Definition cancelBtn : Button :=
  {| disabled := false; icon := ContentClear; label := "Cancel";
     onClick := handleClose |}.

Definition nextBtn (s : Store) : Button :=
  {| disabled := negb (isValid s); icon := NavigationArrowForward;
     label := "Next"; onClick := onNext |}.

Definition prevBtn : Button :=
  {| disabled := false; icon := NavigationArrowBack; label := "Back";
     onClick := onPrev |}.

Definition sendBtn (p : Props) (s : Store) : Button :=
  {| disabled := negb (isValid s) || sending s;
     icon := IdentityIcon (address p); label := "Send"; onClick := onSend |}.

Definition doneBtn : Button :=
  {| disabled := false; icon := ActionDoneAll; label := "Close";
     onClick := handleClose |}.

Definition renderDialogActions (p : Props) (s : Store) : list Button :=
  match stage s with
  | 0 => if extras s then [cancelBtn; nextBtn s] else [cancelBtn; sendBtn p s]
  | 1 => if extras s then [cancelBtn; prevBtn; sendBtn p s] else [doneBtn]
  | _ => [doneBtn]
  end.

(** The handlers a user can actually trigger: those of the buttons that
    are rendered and not disabled. *)
Definition enabled_handlers (p : Props) (s : Store) : list Handler :=
  map onClick (filter (fun b => negb (disabled b)) (renderDialogActions p s)).

(** Modelled from the spec: the effect of the store's handlers on the
    stage ([TransferStore], ./store, is not among the sources).  Next and
    send advance to the following stage, back retreats to the previous
    one, and closing abandons the wizard ([None]). *)
Definition stage_after (h : Handler) (stage0 : Z) : option Z :=
  match h with
  | handleClose => None
  | onNext => Some (stage0 + 1)
  | onPrev => Some (stage0 - 1)
  | onSend => Some (stage0 + 1)
  end.

(** Exactly one of three propositions holds. *)
Definition exactly_one (A B C : Prop) : Prop :=
  (A /\ ~ B /\ ~ C) \/ (~ A /\ B /\ ~ C) \/ (~ A /\ ~ B /\ C).

(** A store in the given wizard state whose form fields are all empty
    and whose gas histogram is loaded. *)
Definition blank_store (stage0 : Z) (extras0 sending0 rejected0 isValid0 : bool)
           (txhash0 operation0 : option string) : Store :=
  {| stage := stage0; extras := extras0; sending := sending0;
     rejected := rejected0; isValid := isValid0;
     txhash := txhash0; busyState := None; operation := operation0;
     gasStore := {| histogram := Some []; errorEstimated := None |};
     recipient := ""; recipientError := None;
     sender := ""; senderError := None;
     valueAll := false; tag := "ETH";
     total := "0"; totalError := None;
     value := "0"; valueError := None;
     isEth := true; data := ""; dataError := None |}.

Definition some_account : Props :=
  {| address := "0x00a329c0648769a73afac7f9381e08fb43dbea72"; name := None |}.

End Transfer.

(* ================================================================= *)
(** ** The step indicator: the [Steps] component of
       js/src/api/transport/error.js (third part of the file) *)

Module StepsView.

(** A step label: a node that may carry a [key]. *)
Record Label : Type := mkLabel {
  label_key : option string;
  label_node : string
}.

(** [label.key || index]. *)
Inductive Key : Type :=
| KeyOfLabel (k : string)
| KeyOfIndex (index : Z).

(** One rendered [<Step>]. *)
Record Step : Type := mkStep {
  completed : bool;
  active : bool;
  key : Key;
  title : Label
}.

(** [xs.map((x, index) => f x index)], the index counted from [from]. *)
Fixpoint map_indexed {A B : Type} (f : A -> Z -> B) (from : Z) (xs : list A)
  : list B :=
  match xs with
  | [] => []
  | x :: rest => f x from :: map_indexed f (from + 1) rest
  end.

(** [Steps({ activeStep, steps })]: [None] is the [null] rendering. *)
Definition Steps (activeStep : Z) (steps : option (list Label))
  : option (list Step) :=
  match steps with
  | None => None
  | Some labels =>
    if (length labels <? 2)%nat then None
    else
      Some (map_indexed
              (fun label0 index =>
                 {| completed := activeStep >? index;
                    active := activeStep =? index;
                    key := match label_key label0 with
                           | Some (String a k) => KeyOfLabel (String a k)
                           | _ => KeyOfIndex index
                           end;
                    title := label0 |})
              0 labels)
  end.

End StepsView.

(* ================================================================= *)
(** ** js/src/dapps/registry/reducers.js *)

Module Registry.

Section Reducers.

(** The slices owned by the four sub-reducers, and the type of the
    values carried by actions and stored in the plain fields. *)
Variables Accounts Lookup Events Register Payload : Type.

(** [null] and [undefined]. *)
Variables null undefined : Payload.

(** An action: its [type], the properties the root reducer reads, and
    whatever else the action carries ([rest]) for the sub-reducers. *)
Record Action : Type := mkAction {
  type : string;
  contract_of : Payload;
  fee_of : Payload;
  owner_of : Payload;
  rest : list (string * Payload)
}.

(** [{ type: '' }]. *)
Definition empty_action : Action :=
  {| type := ""; contract_of := undefined; fee_of := undefined;
     owner_of := undefined; rest := [] |}.

(** The imported sub-reducers (./accounts, ./Lookup, ./events,
    ./register); their first argument is [undefined] on initialisation. *)
Variable accountsReducer : option Accounts -> Action -> Accounts.
Variable lookupReducer : option Lookup -> Action -> Lookup.
Variable eventsReducer : option Events -> Action -> Events.
Variable registerReducer : option Register -> Action -> Register.

Record State : Type := mkState {
  accounts : Accounts;
  contract : Payload;
  fee : Payload;
  owner : Payload;
  lookup : Lookup;
  events : Events;
  register : Register
}.

Definition initialState : State :=
  {| accounts := accountsReducer None empty_action;
     contract := null;
     fee := null;
     owner := null;
     lookup := lookupReducer None empty_action;
     events := eventsReducer None empty_action;
     register := registerReducer None empty_action |}.

(** The body of the root reducer, once [state] has its value. *)
Definition reduce (state : State) (action : Action) : State :=
  if String.eqb (Js.slice0 8 (type action)) "accounts" then
    {| accounts := accountsReducer (Some (accounts state)) action;
       contract := contract state; fee := fee state; owner := owner state;
       lookup := lookup state; events := events state;
       register := register state |}
  else if String.eqb (type action) "set contract" then
    {| accounts := accounts state;
       contract := contract_of action; fee := fee state; owner := owner state;
       lookup := lookup state; events := events state;
       register := register state |}
  else if String.eqb (type action) "set fee" then
    {| accounts := accounts state;
       contract := contract state; fee := fee_of action; owner := owner state;
       lookup := lookup state; events := events state;
       register := register state |}
  else if String.eqb (type action) "set owner" then
    {| accounts := accounts state;
       contract := contract state; fee := fee state; owner := owner_of action;
       lookup := lookup state; events := events state;
       register := register state |}
  else if String.eqb (Js.slice0 6 (type action)) "lookup" then
    {| accounts := accounts state;
       contract := contract state; fee := fee state; owner := owner state;
       lookup := lookupReducer (Some (lookup state)) action;
       events := events state; register := register state |}
  else if String.eqb (Js.slice0 6 (type action)) "events" then
    {| accounts := accounts state;
       contract := contract state; fee := fee state; owner := owner state;
       lookup := lookup state;
       events := eventsReducer (Some (events state)) action;
       register := register state |}
  else if String.eqb (Js.slice0 8 (type action)) "register" then
    {| accounts := accounts state;
       contract := contract state; fee := fee state; owner := owner state;
       lookup := lookup state; events := events state;
       register := registerReducer (Some (register state)) action |}
  else state.

(** The exported root reducer: [(state = initialState, action) => ...]. *)
Definition reducer (state : option State) (action : Action) : State :=
  reduce (match state with Some st => st | None => initialState end) action.

End Reducers.

Arguments type {Payload} a.
Arguments contract_of {Payload} a.
Arguments fee_of {Payload} a.
Arguments owner_of {Payload} a.
Arguments rest {Payload} a.
Arguments accounts {Accounts Lookup Events Register Payload} s.
Arguments contract {Accounts Lookup Events Register Payload} s.
Arguments fee {Accounts Lookup Events Register Payload} s.
Arguments owner {Accounts Lookup Events Register Payload} s.
Arguments lookup {Accounts Lookup Events Register Payload} s.
Arguments events {Accounts Lookup Events Register Payload} s.
Arguments register {Accounts Lookup Events Register Payload} s.

(** Sub-reducers that count the actions routed to them, to run the root
    reducer on concrete states whose payloads are strings. *)
Definition counting (slice : option nat) (action : Action string) : nat :=
  match slice with
  | None => 0%nat
  | Some n => S n
  end.

Definition counting_reducer
  : option (State nat nat nat nat string) -> Action string ->
    State nat nat nat nat string :=
  reducer nat nat nat nat string "null" "undefined"
          counting counting counting counting.

End Registry.

(* ================================================================= *)
(** ** The environment module: second part of
       js/src/api/transport/error.js *)

Module Environment.

(** What the module reads: two build-time variables, either of which may
    be undefined, and [window.location.host]. *)
Record Env : Type := mkEnv {
  PARITY_URL : option string;
  NODE_ENV : option string;
  location_host : string
}.

(** [v || d] for a possibly undefined string [v]. *)
Definition or_else (v : option string) (d : string) : string :=
  match v with
  | Some (String a s) => String a s
  | _ => d
  end.

(** [v === s] for a possibly undefined string [v]. *)
Definition strict_eq (v : option string) (s : string) : bool :=
  match v with
  | Some x => String.eqb x s
  | None => false
  end.

Definition parityDapps (e : Env) : string :=
  or_else (PARITY_URL e)
          (if strict_eq (NODE_ENV e) "production" then "127.0.0.1:8080" else "").

Definition parityUrl (e : Env) : string :=
  or_else (PARITY_URL e)
          (if strict_eq (NODE_ENV e) "production" then location_host e
           else "127.0.0.1:8180").

End Environment.

(* ================================================================= *)
(** ** More that is asked of the write helpers' traces *)

Module DappregRules.

Import Dappreg.

(** A submission that directly follows a resolved estimate asks for the
    same thing: same instance, function, values, sender and value; the
    estimate carries no [gas] option and the submission carries one. *)
Definition same_request_but_gas (tr : list Event) : Prop :=
  forall pre ce g cp r post,
    tr = (pre ++ (ce, inr g) :: (cp, r) :: post)%list ->
    kind ce = estimateGas ->
    kind cp = postTransaction ->
    instance cp = instance ce /\ fn cp = fn ce /\ values cp = values ce /\
    from (options cp) = from (options ce) /\
    value (options cp) = value (options ce) /\
    gas (options ce) = None /\ gas (options cp) <> None.

(** A submission is the last call of a run and its settlement is the
    settlement of the helper's promise. *)
Definition submission_settles (tr : list Event) (res : Rejection + Value)
  : Prop :=
  forall pre c r post,
    tr = (pre ++ (c, r) :: post)%list ->
    kind c = postTransaction ->
    post = [] /\ res = r.

(** A gas estimate that resolves with something that is not a number
    ends the chain with a thrown error. *)
Definition unusable_estimate_stops (tr : list Event) (res : Rejection + Value)
  : Prop :=
  forall pre ce s post,
    tr = (pre ++ (ce, inr (VString s)) :: post)%list ->
    kind ce = estimateGas ->
    post = [] /\ exists what, res = inl (Thrown what).

(** The number of submissions in a trace. *)
Definition submissions (tr : list Event) : nat :=
  length (filter (fun ev => match kind (fst ev) with
                            | postTransaction => true
                            | _ => false
                            end) tr).

(** The call by which [registerDapp] reads the registration fee. *)
Definition fee_call (dappRegInstance : string) : Call :=
  {| instance := dappRegInstance; fn := "fee"; kind := call;
     options := empty_options; values := [] |}.

(** The submitted limit renders an integer that is at least the
    estimate, above it from an estimate of 3 on, and at most half a unit
    above [g * 1.2]. *)
Definition margin_limit (g : Z) (v : Value) : Prop :=
  exists n, v = VString (Js.number_to_string n) /\
            g <= n /\ (3 <= g -> g < n) /\ 10 * n <= 12 * g + 5.

(** The submitted limit is the decimal [12 g / 10], which stands for an
    integer only when [g] is a multiple of 5. *)
Definition fractional_limit (g : Z) (v : Value) : Prop :=
  v = VBigNumber (BigNumber.mk (g * 12) 1) /\
  ((exists n, denotes_integer v n) <-> g mod 5 = 0).

(** A stateless backend that resolves every call with the string [s]. *)
Definition always_string (s : string) (w : unit) (c : Call)
  : unit * (Rejection + Value) :=
  (w, inr (VString s)).

End DappregRules.

(* ================================================================= *)
(** ** The transfer wizard: [render] and [renderWarning] *)

Module TransferView.

Import Transfer.

(** [renderWarning]: the text shown in the warning box, [None] when
    nothing is rendered. *)
Definition renderWarning (s : Store) : option string :=
  match errorEstimated (gasStore s) with
  | Some (String a m) => Some (String a m)
  | _ => None
  end.

(** The [<Modal>] element returned by [render]: its props and its two
    children. *)
Record Modal : Type := mkModal {
  actions : list Button;
  current : Z;
  steps : list string;
  waiting : list Z;
  visible : bool;
  warning : option string;
  page : option Element
}.

(** [render]; [steps0] is the store's [steps], handed over as it is. *)
Definition render (steps0 : list string) (p : Props) (s : Store) : Modal :=
  {| actions := renderDialogActions p s;
     current := stage s;
     steps := steps0;
     waiting := if extras s then [2] else [1];
     visible := true;
     warning := renderWarning s;
     page := renderPage p s |}.

End TransferView.

(* ================================================================= *)
(** ** JavaScript objects with string keys *)

Module JsObject.

(** An object as its own properties in insertion order.  Objects built
    from [empty] with [set] have no repeated key. *)
Definition Obj (A : Type) : Type := list (string * A).

Definition empty {A : Type} : Obj A := [].

(** [o[k]], [None] standing for [undefined]. *)
Fixpoint get {A : Type} (o : Obj A) (k : string) : option A :=
  match o with
  | [] => None
  | (k', v) :: rest => if String.eqb k' k then Some v else get rest k
  end.

(** [o[k] = v]: an existing key keeps its place, a new one goes last. *)
Fixpoint set {A : Type} (o : Obj A) (k : string) (v : A) : Obj A :=
  match o with
  | [] => [(k, v)]
  | (k', v') :: rest =>
    if String.eqb k' k then (k, v) :: rest else (k', v') :: set rest k v
  end.

(** [Object.keys(o)] and [Object.values(o)]. *)
Definition keys {A : Type} (o : Obj A) : list string := map fst o.
Definition values {A : Type} (o : Obj A) : list A := map snd o.

(** [xs.includes(x)] on an array of strings. *)
Definition includes (xs : list string) (x : string) : bool :=
  existsb (String.eqb x) xs.

(** lodash [pick(o, ks)], for keys that are plain property names: the
    properties of [o] named in [ks], in the order of [ks]. *)
Definition pick {A : Type} (o : Obj A) (ks : list string) : Obj A :=
  fold_left (fun acc k => match get o k with
                          | Some v => set acc k v
                          | None => acc
                          end) ks empty.

End JsObject.

(* ================================================================= *)
(** ** The transfer wizard: [mapStateToProps] *)

Module TransferProps.

Import JsObject.

(** [initProps.account]: its address and whether its [wallet] flag is
    truthy. *)
Record Account : Type := mkAccount {
  address : string;
  wallet : bool
}.

(** An entry of [state.personal.accounts]. *)
Record PersonalAccount : Type := mkPersonalAccount {
  pa_address : string;
  pa_name : string
}.

(** An entry of [state.wallet.wallets]. *)
Record Wallet : Type := mkWallet {
  owners : list string
}.

(** The parts of the initial state that are read. *)
Record InitState : Type := mkInitState {
  wallets : Obj Wallet;
  accounts : Obj PersonalAccount
}.

(** A [TypeError] thrown while evaluating an expression. *)
Inductive Thrown : Type := TypeError (what : string).

Section Props.

(** The node's gas limit and an account balance are handed over as they
    are. *)
Variables GasLimit Balance : Type.

(** The parts of a later state that the returned mapper reads. *)
Record State : Type := mkState {
  gasLimit : GasLimit;
  balances : Obj Balance
}.

(** The props computed for the component; [None] is [null] (or
    [undefined], for a wallet that is not in the state). *)
Record StateProps : Type := mkStateProps {
  p_gasLimit : GasLimit;
  p_wallet : option Wallet;
  p_senders : option (Obj PersonalAccount);
  p_sendersBalances : option (Obj Balance)
}.

(** [wallet.owners.includes(account.address)]; throws on a missing
    wallet. *)
Definition is_owner (w : option Wallet) (a : PersonalAccount) : Thrown + bool :=
  match w with
  | Some w0 => inr (includes (owners w0) (pa_address a))
  | None => inl (TypeError "Cannot read property 'owners' of undefined")
  end.

(** [xs.filter(f)] for a callback that may throw. *)
Fixpoint filter_throwing {A : Type} (f : A -> Thrown + bool) (xs : list A)
  : Thrown + list A :=
  match xs with
  | [] => inr []
  | x :: rest =>
    match f x with
    | inl e => inl e
    | inr b =>
      match filter_throwing f rest with
      | inl e => inl e
      | inr ys => inr (if b then x :: ys else ys)
      end
    end
  end.

(** The [reduce] that keys the accounts by their address. *)
Definition by_address (xs : list PersonalAccount) : Obj PersonalAccount :=
  fold_left (fun accs a => set accs (pa_address a) a) xs empty.

(** [mapStateToProps(initState, initProps)]: the wallet and its senders
    are computed once; the returned function maps every later state. *)
Definition mapStateToProps (initState : InitState) (account : option Account)
  : Thrown + (State -> StateProps) :=
  match account with
  | None => inl (TypeError "Cannot destructure property 'address' of undefined")
  | Some acc =>
    let isWallet := wallet acc in
    let wallet0 := if isWallet then get (wallets initState) (address acc)
                   else None in
    let senders :=
      if isWallet then
        match filter_throwing (is_owner wallet0) (values (accounts initState)) with
        | inl e => inl e
        | inr owned => inr (Some (by_address owned))
        end
      else inr None in
    match senders with
    | inl e => inl e
    | inr senders0 =>
      inr (fun state =>
             {| p_gasLimit := gasLimit state;
                p_wallet := wallet0;
                p_senders := senders0;
                p_sendersBalances :=
                  match senders0 with
                  | Some ss => Some (pick (balances state) (keys ss))
                  | None => None
                  end |})
    end
  end.

End Props.

Arguments gasLimit {GasLimit Balance} s.
Arguments balances {GasLimit Balance} s.
Arguments p_gasLimit {GasLimit Balance} s.
Arguments p_wallet {GasLimit Balance} s.
Arguments p_senders {GasLimit Balance} s.
Arguments p_sendersBalances {GasLimit Balance} s.

End TransferProps.

(* ================================================================= *)
(** ** The chain middleware (a source file whose name is not known):
       [ChainMiddleware.toMiddleware] *)

Module ChainMiddleware.

(** Reload the page on network switch after 5 seconds. *)
Definition RELOAD_TIMEOUT : Z := 5000.

(** [Math.round(n / d)] for integers [n] and [d > 0]: the nearest
    integer, a half going up. *)
Definition math_round_div (n d : Z) : Z := (2 * n + d) / (2 * d).

(** [action.collection], as far as it is read. *)
Record Collection : Type := mkCollection {
  netChain : option string
}.

Record Action : Type := mkAction {
  type : string;
  collection : option Collection
}.

(** [store.getState().nodeStatus], as far as it is read. *)
Record NodeStatus : Type := mkNodeStatus {
  currentChain : string
}.

(** What the middleware does, in the order in which it does it. *)
Inductive Effect : Type :=
| DispatchSnackbar (message : string) (timeout : Z)
| ScheduleReload (delay : Z)
| FetchAllBalances (changedNetwork : bool)
| Next (action : Action).

Section Middleware.

(** The constant imported from ./statusReducer. *)
Variable DEFAULT_NETCHAIN : string.

(** The function [(action) => ...] for a store whose state has the node
    status [nodeStatus]. *)
Definition middleware (nodeStatus : NodeStatus) (action : Action)
  : list Effect :=
  (if String.eqb (type action) "statusCollection" then
     match collection action with
     | Some c =>
       match netChain c with
       | Some (String a rest) =>
         let newChain := String a rest in
         if negb (String.eqb newChain (currentChain nodeStatus))
            && negb (String.eqb (currentChain nodeStatus) DEFAULT_NETCHAIN)
         then
           let timeoutStr :=
             Js.number_to_string (math_round_div RELOAD_TIMEOUT 1000) in
           [ DispatchSnackbar
               ("Switched to " ++ newChain ++ ". The UI will reload in "
                ++ timeoutStr ++ " seconds...")
               RELOAD_TIMEOUT;
             ScheduleReload (RELOAD_TIMEOUT - 250);
             FetchAllBalances true ]
         else []
       | _ => []
       end
     | None => []
     end
   else [])
  ++ [ Next action ].

End Middleware.

End ChainMiddleware.

(* ================================================================= *)
(** ** js/src/dapps/dappreg/utils.js: [urlToHash] and [updateDapp] *)

Module DappregUpdate.

Import Dappreg.

Definition INVALID_URL_HASH : string :=
  "0xc5d2460186f7233c927e7db2dcc703c0e500b653ca82273b7bfad8045d85a470".

Definition ZERO_ADDRESS : string :=
  "0x0000000000000000000000000000000000000000".

(** The double quote character. *)
Definition dquote : string := String "034"%char "".

(** The object [urlToHash] resolves with. *)
Record HashResult : Type := mkHashResult {
  hash : string;
  registered : bool
}.

(** [{ id, name }], the description of a posted request. *)
Record Request : Type := mkRequest {
  id : Value;
  name : string
}.

(** A promise chain that, besides the contract calls of the write
    helpers, asks the node for a content hash, reads the GithubHint
    entries, and reads and writes the [options] object that the chains
    of one [updateDapp] call share.  What lies between two questions is
    one callback and runs without interruption. *)
Inductive Task (A : Type) : Type :=
| Done (a : A)
| Fail (e : Rejection)
| AskHash (url : string) (k : string -> Task A)
| AskEntries (instance0 : string) (contentHash : string)
             (k : list Value -> Task A)
| AskContract (c : Call) (k : Value -> Task A)
| ReadOptions (k : Options -> Task A)
| SetGas (v : Value) (k : Task A).

Arguments Done {A} a.
Arguments Fail {A} e.
Arguments AskHash {A} url k.
Arguments AskEntries {A} instance0 contentHash k.
Arguments AskContract {A} c k.
Arguments ReadOptions {A} k.
Arguments SetGas {A} v k.

(** [p.then(f)]. *)
Fixpoint and_then {A B : Type} (p : Task A) (f : A -> Task B) : Task B :=
  match p with
  | Done a => f a
  | Fail e => Fail e
  | AskHash url k => AskHash url (fun h => and_then (k h) f)
  | AskEntries i h k => AskEntries i h (fun items => and_then (k items) f)
  | AskContract c k => AskContract c (fun v => and_then (k v) f)
  | ReadOptions k => ReadOptions (fun o => and_then (k o) f)
  | SetGas v k => SetGas v (and_then k f)
  end.

(** A chain of the write helpers, as a task. *)
Fixpoint lift {A : Type} (p : Promise A) : Task A :=
  match p with
  | Resolve a => Done a
  | Reject e => Fail e
  | Invoke c k => AskContract c (fun v => lift (k v))
  end.

(** [contentHashOwner !== ZERO_ADDRESS], for the third item of the
    entry, which is [undefined] when the entry is shorter. *)
Definition is_registered (items : list Value) : bool :=
  match nth_error items 2 with
  | Some (VString owner0) => negb (String.eqb owner0 ZERO_ADDRESS)
  | _ => true
  end.

(** [urlToHash(api, instance, url)]; the console output is left out. *)
Definition urlToHash (instance0 : string) (url : option string)
  : Task (option HashResult) :=
  match url with
  | Some (String a rest) =>
    let url0 := String a rest in
    AskHash url0 (fun contentHash =>
      if String.eqb contentHash INVALID_URL_HASH
      then Fail (Thrown (dquote ++ url0 ++ dquote ++ " is not a valid URL"))
      else
        AskEntries instance0 contentHash (fun items =>
          Done (Some {| hash := contentHash;
                        registered := is_registered items |})))
  | _ => Done None
  end.

(** The three kinds of metadata and the keys they are stored under. *)
Definition types : list (string * string) :=
  [ ("content", "CONTENT"); ("image", "IMG"); ("manifest", "MANIFEST") ].

(** What one chain of [updateDapp] resolves with: the GithubHint
    registration request, when one was needed, and the update request. *)
Definition ChainResult : Type := (option Request * Request)%type.

(** The body of the [map] callback of [updateDapp], for the metadata
    kind [type0] stored under [key] and the URL [url]. *)
Definition update_chain (dappId : string) (dappOwner : Value)
           (dappRegInstance ghhRegInstance : string)
           (type0 key : string) (url : option string) : Task ChainResult :=
  and_then
    (and_then (urlToHash ghhRegInstance url)
       (fun ghhResult =>
          match ghhResult, url with
          | Some r, Some url0 =>
            if negb (registered r) then
              and_then
                (lift (registerGHH ghhRegInstance (VString url0)
                         (VString (hash r)) dappOwner))
                (fun requestId =>
                   Done (Some {| id := requestId;
                                 name := "Registering " ++ url0 |},
                         hash r))
            else Done (None, hash r)
          | _, _ =>
            Fail (Thrown "TypeError: Cannot destructure property 'hash' of null")
          end))
    (fun '(ghhRequest, hash0) =>
       let values0 := [ VString dappId; VString key; VString hash0 ] in
       and_then
         (ReadOptions (fun options0 =>
            AskContract
              {| instance := dappRegInstance; fn := "setMeta";
                 kind := estimateGas; options := options0;
                 values := values0 |}
              (fun gas0 =>
                 match mul_1_2 gas0 with
                 | inl e => Fail e
                 | inr g =>
                   SetGas (VString (BigNumber.toFixed0 g))
                     (ReadOptions (fun options1 =>
                        AskContract
                          {| instance := dappRegInstance; fn := "setMeta";
                             kind := postTransaction; options := options1;
                             values := values0 |}
                          Done))
                 end)))
         (fun requestId =>
            Done (ghhRequest,
                  {| id := requestId;
                     name := "Updating " ++ type0 ++ " of " ++ dappId |}))).

(** [updateDappOwner(x)], called with one argument: [dappRegInstance]
    is undefined, so reading [dappRegInstance.setDappOwner] throws
    before any call is made. *)
Definition updateDappOwner_one_argument (dappId : string)
  : Rejection + Promise Value :=
  inl (Thrown "TypeError: Cannot read property 'setDappOwner' of undefined").

(** What a call of [updateDapp] does before it returns or throws: the
    chains it has started, and the error it throws, if any; without an
    error the started chains are the array it returns. *)
Record Started : Type := mkStarted {
  promises : list (Task ChainResult);
  thrown : option Rejection
}.

(** Truthiness of [updates[k]]. *)
Definition given (updates : JsObject.Obj string) (k : string) : bool :=
  Js.truthy (JsObject.get updates k).

Definition updateDapp (dappId : string) (dappOwner : Value)
           (updates : JsObject.Obj string)
           (dappRegInstance ghhRegInstance : string) : Started :=
  let promises0 :=
    map (fun '(type0, key) =>
           update_chain dappId dappOwner dappRegInstance ghhRegInstance
                        type0 key (JsObject.get updates type0))
        (filter (fun '(type0, _) => given updates type0) types) in
  if given updates "owner" then
    match JsObject.get updates "owner" with
    | Some owner0 =>
      match updateDappOwner_one_argument owner0 with
      | inl e => {| promises := promises0; thrown := Some e |}
      | inr p =>
        {| promises :=
             (promises0 ++
              [ and_then (lift p) (fun reqId =>
                  Done (None,
                        {| id := reqId;
                           name := "Updating owner of " ++ dappId |})) ])%list;
           thrown := None |}
      end
    | None => {| promises := promises0; thrown := None |}
    end
  else {| promises := promises0; thrown := None |}.

(** *** Running one chain while the others run too *)

(** One settled question. *)
Inductive Event : Type :=
| EvHash (url : string) (r : Rejection + string)
| EvEntries (instance0 contentHash : string) (r : Rejection + list Value)
| EvContract (c : Call) (r : Rejection + Value).

Section Backend.

(** The node and the contracts: their state and how they settle each
    kind of question. *)
Variable World : Type.
Variable respondHash : World -> string -> World * (Rejection + string).
Variable respondEntries
  : World -> string -> string -> World * (Rejection + list Value).
Variable respond : World -> Call -> World * (Rejection + Value).

(** The other chains of the same [updateDapp] call: the gas limit they
    have written into the shared [options] while this chain was waiting
    for an answer, if any.  Writing [options.gas] is all they do to the
    object. *)
Variable interfere : World -> option Value.

Definition disturbed (o : Options) (w : World) : Options :=
  match interfere w with
  | Some g => set_gas o g
  | None => o
  end.

(** The questions asked by [p], in order, with the final state of the
    backend and of the shared options, and the settlement of [p]. *)
Fixpoint run {A : Type} (p : Task A) (w : World) (o : Options)
  : list Event * World * Options * (Rejection + A) :=
  match p with
  | Done a => ([], w, o, inr a)
  | Fail e => ([], w, o, inl e)
  | AskHash url k =>
    match respondHash w url with
    | (w1, inl e) => ([EvHash url (inl e)], w1, disturbed o w1, inl e)
    | (w1, inr h) =>
      let '(tr, w2, o2, res) := run (k h) w1 (disturbed o w1) in
      (EvHash url (inr h) :: tr, w2, o2, res)
    end
  | AskEntries i h k =>
    match respondEntries w i h with
    | (w1, inl e) => ([EvEntries i h (inl e)], w1, disturbed o w1, inl e)
    | (w1, inr items) =>
      let '(tr, w2, o2, res) := run (k items) w1 (disturbed o w1) in
      (EvEntries i h (inr items) :: tr, w2, o2, res)
    end
  | AskContract c k =>
    match respond w c with
    | (w1, inl e) => ([EvContract c (inl e)], w1, disturbed o w1, inl e)
    | (w1, inr v) =>
      let '(tr, w2, o2, res) := run (k v) w1 (disturbed o w1) in
      (EvContract c (inr v) :: tr, w2, o2, res)
    end
  | ReadOptions k => run (k o) w o
  | SetGas v k => run k w (set_gas o v)
  end.

Definition trace {A : Type} (p : Task A) (w : World) (o : Options)
  : list Event :=
  fst (fst (fst (run p w o))).

Definition outcome {A : Type} (p : Task A) (w : World) (o : Options)
  : Rejection + A :=
  snd (run p w o).

End Backend.

(** *** Small backends to run a chain against *)

(** A node that returns the hash [h] for every URL. *)
Definition node_hash (h : string) (w : unit) (url : string)
  : unit * (Rejection + string) :=
  (w, inr h).

(** A GithubHint contract whose every entry is [items]. *)
Definition ghh_entries (items : list Value) (w : unit) (i h : string)
  : unit * (Rejection + list Value) :=
  (w, inr items).

(** Sibling chains that keep writing the gas limit [v] into the shared
    options, and sibling chains that write nothing. *)
Definition sibling_gas (v : Value) (w : unit) : option Value := Some v.
Definition no_sibling (w : unit) : option Value := None.

(** The shared options object as [updateDapp] creates it. *)
Definition initial_options (dappOwner : Value) : Options :=
  {| from := Some dappOwner; value := None; gas := None |}.

End DappregUpdate.

(* ================================================================= *)
(** ** The transfer wizard: the three pages *)

Module TransferPages.

Import Transfer.

Inductive PageKind : Type := DetailsPage | ExtrasPage | CompletionPage.

(** Which page an element is: the completion page shows a busy or a
    completed step. *)
Definition kind_of (e : Element) : PageKind :=
  match e with
  | Details _ => DetailsPage
  | Extras _ => ExtrasPage
  | BusyStep _ _ => CompletionPage
  | CompletedStep _ => CompletionPage
  end.

(** The page that belongs to a stage: Details first, Extras second when
    extras are enabled, the completion page otherwise. *)
Definition page_of_stage (stage0 : Z) (extras0 : bool) : PageKind :=
  match stage0, extras0 with
  | 0, _ => DetailsPage
  | 1, true => ExtrasPage
  | _, _ => CompletionPage
  end.

(** A store on the Extras stage whose gas price histogram has not been
    loaded yet. *)
Definition store_without_histogram : Store :=
  {| stage := 1; extras := true; sending := false; rejected := false;
     isValid := true; txhash := None; busyState := None; operation := None;
     gasStore := {| histogram := None; errorEstimated := None |};
     recipient := ""; recipientError := None; sender := "";
     senderError := None; valueAll := false; tag := "ETH";
     total := "0"; totalError := None; value := "0"; valueError := None;
     isEth := true; data := ""; dataError := None |}.

End TransferPages.

(* ================================================================= *)
(** * Properties *)

(* ----------------------------------------------------------------- *)
(** ** Transport errors *)

Section TransportFacts.

Import Transport.

Lemma get_In_pair (o : list (string * Z)) (k : string) (c : Z) :
  get o k = Some c -> In (k, c) o.
Proof.
  induction o as [|[k' v] rest IH]; simpl; [discriminate|].
  destruct (String.eqb k' k) eqn:E.
  - apply String.eqb_eq in E. intros [= ->]. left. now subst.
  - intros H. right. now apply IH.
Qed.

Lemma In_values (o : list (string * Z)) (k : string) (c : Z) :
  In (k, c) o -> In c (map snd o).
Proof. intros H. change c with (snd (k, c)). now apply in_map. Qed.

Lemma In_keys (o : list (string * Z)) (k : string) (c : Z) :
  In (k, c) o -> In k (keys o).
Proof. intros H. change k with (fst (k, c)). now apply in_map. Qed.

(** In a table without repeated values, a value determines its key. *)
Lemma NoDup_values_key (o : list (string * Z)) (k1 k2 : string) (c : Z) :
  NoDup (map snd o) -> In (k1, c) o -> In (k2, c) o -> k1 = k2.
Proof.
  induction o as [|[k v] rest IH]; simpl; [tauto|].
  intros Hnd [H1|H1] [H2|H2]; inversion Hnd as [|? ? Hnotin Hrest]; subst.
  - congruence.
  - inversion H1; subst. exfalso. apply Hnotin. eapply In_values; eauto.
  - inversion H2; subst. exfalso. apply Hnotin. eapply In_values; eauto.
  - now apply IH.
Qed.

Lemma ERROR_CODES_values_NoDup : NoDup (map snd ERROR_CODES).
Proof.
  unfold ERROR_CODES; simpl.
  repeat (constructor; [simpl; intuition discriminate|]).
  constructor.
Qed.

Lemma ERROR_CODES_keys_nonempty (k : string) :
  In k (keys ERROR_CODES) -> k <> "".
Proof.
  unfold keys, ERROR_CODES; simpl.
  intros H; repeat (destruct H as [<-|H]; [discriminate|]); contradiction.
Qed.

(** The table is injective: two names carrying the same code are the
    same name. *)
Lemma ERROR_CODES_injective (k1 k2 : string) (c : Z) :
  get ERROR_CODES k1 = Some c -> get ERROR_CODES k2 = Some c -> k1 = k2.
Proof.
  intros H1 H2.
  apply (NoDup_values_key ERROR_CODES k1 k2 c ERROR_CODES_values_NoDup);
    now apply get_In_pair.
Qed.

Lemma strict_eq_code_true (v : option Z) (c : Z) :
  strict_eq_code v c = true <-> v = Some c.
Proof.
  destruct v as [c'|]; simpl.
  - rewrite Z.eqb_eq. split; congruence.
  - split; discriminate.
Qed.

Lemma or_empty_nonempty (k : string) : k <> "" -> Js.or_empty (Some k) = k.
Proof. destruct k; simpl; congruence. Qed.

(** The [type] computed by the constructor, when the code is in the
    table under [k]. *)
Lemma type_of_known_code (method0 message0 k : string) (code0 : Z) :
  get ERROR_CODES k = Some code0 ->
  type (new_TransportError method0 code0 message0) = k.
Proof.
  intros Hk. unfold new_TransportError; cbn [type]. unfold Js.array_find.
  match goal with
  | |- context [find ?p ?l] => destruct (find p l) as [k'|] eqn:F
  end.
  - apply find_some in F as [Hin Hp].
    apply strict_eq_code_true in Hp.
    rewrite (ERROR_CODES_injective k' k code0 Hp Hk).
    apply or_empty_nonempty, ERROR_CODES_keys_nonempty.
    eapply In_keys, get_In_pair; eauto.
  - exfalso.
    assert (In k (keys ERROR_CODES)) as Hin
      by (eapply In_keys, get_In_pair; eauto).
    pose proof (find_none _ _ F k Hin) as Hn. cbv beta in Hn.
    rewrite Hk in Hn. cbn [strict_eq_code] in Hn.
    rewrite Z.eqb_refl in Hn. discriminate.
Qed.

(** The decimal found by [shortest] reads back as the double it was
    computed for. *)
Lemma shortest_reads_back (fuel : nat) (m e p : Z) :
  0 <= e ->
  let '(s, p') := Js.shortest fuel m e p in
  Js.rounds_to m e (s * 10 ^ p') = true.
Proof.
  intros He. revert p. induction fuel as [|fuel IH]; intros p.
  - cbn [Js.shortest]. unfold Js.rounds_to.
    assert (0 < 2 ^ e) by (apply Z.pow_pos_nonneg; lia).
    assert (0 < 2 ^ (e + 1)) by (apply Z.pow_pos_nonneg; lia).
    rewrite Z.pow_0_r, Z.mul_1_r.
    destruct (m =? 2 ^ 52), (Z.even m); apply andb_true_iff; split;
      first [apply Z.leb_le | apply Z.ltb_lt]; lia.
  - cbn [Js.shortest].
    destruct ((1 <=? m * 2 ^ e / 10 ^ p) &&
              Js.rounds_to m e (m * 2 ^ e / 10 ^ p * 10 ^ p)) eqn:E0;
      destruct ((1 <=? m * 2 ^ e / 10 ^ p + 1) &&
                Js.rounds_to m e ((m * 2 ^ e / 10 ^ p + 1) * 10 ^ p)) eqn:E1.
    + apply andb_true_iff in E0 as [_ E0]. apply andb_true_iff in E1 as [_ E1].
      destruct (_ <? _); [exact E0|].
      destruct (_ <? _); [exact E1|].
      destruct (Z.even _); [exact E0|exact E1].
    + apply andb_true_iff in E0 as [_ E0]. exact E0.
    + apply andb_true_iff in E1 as [_ E1]. exact E1.
    + apply IH.
Qed.

(** The rendering at and beyond [10^21], and between [2^53] and there. *)
Lemma template_number_large :
  Js.template_number (10 ^ 21) = "1e+21" /\
  Js.template_number (- 10 ^ 23) = "-1e+23" /\
  Js.template_number 12345678901234567890123 = "1.2345678901234568e+22" /\
  Js.template_number (2 ^ 60) = "1152921504606847000" /\
  Js.template_number (2 ^ 53 + 1) = "9007199254740992" /\
  message (new_TransportError "eth_call" (10 ^ 21) "boom")
  = "eth_call: 1e+21: boom".
Proof. repeat split; vm_compute; reflexivity. Qed.

(** C2.  A [TransportError] built from a method, a code and a message
    exposes the code, the method and the message text; its [message]
    is the concatenation "method: code: message", the code rendered as
    a template literal renders a number (by its plain digits whenever
    it is below [2^53] in absolute value, which every listed code is);
    its [type] is the name under which [ERROR_CODES] lists the code,
    and that name is unique because the table is injective. *)
Theorem TransportError_fields_round_trip :
  forall (method0 message0 : string) (code0 : Z),
    let e := new_TransportError method0 code0 message0 in
    code e = code0 /\
    method e = method0 /\
    text e = message0 /\
    message e
      = method0 ++ ": " ++ Js.template_number code0 ++ ": " ++ message0 /\
    (Z.abs code0 < 2 ^ 53 ->
     message e
       = method0 ++ ": " ++ Js.number_to_string code0 ++ ": " ++ message0) /\
    (forall k, get ERROR_CODES k = Some code0 -> type e = k) /\
    (forall k, In k (keys ERROR_CODES) ->
       exists c, get ERROR_CODES k = Some c /\
                 type (new_TransportError method0 c message0) = k) /\
    (forall k1 k2 c,
       get ERROR_CODES k1 = Some c -> get ERROR_CODES k2 = Some c -> k1 = k2).
Proof.
  intros method0 message0 code0 e. subst e.
  repeat split; try reflexivity.
  - intros Hsafe. unfold new_TransportError; cbn [message].
    unfold Js.template_number.
    destruct (Z.ltb_spec (Z.abs code0) (2 ^ 53)); [reflexivity|lia].
  - intros k Hk. now apply type_of_known_code.
  - intros k Hin.
    assert (exists c, get ERROR_CODES k = Some c) as [c Hc].
    { revert Hin. unfold keys, ERROR_CODES; simpl.
      intros H.
      repeat (destruct H as [<-|H]; [eexists; reflexivity|]).
      contradiction. }
    exists c. split; [exact Hc|]. now apply type_of_known_code.
  - intros k1 k2 c. apply ERROR_CODES_injective.
Qed.

(** The round trip at a concrete entry and a concrete message. *)
Lemma TransportError_fields_round_trip_witness :
  type (new_TransportError "personal_signTransaction" (-32020) "locked")
    = "ACCOUNT_LOCKED" /\
  message (new_TransportError "personal_signTransaction" (-32020) "locked")
    = "personal_signTransaction: -32020: locked".
Proof.
  split.
  - apply (proj1 (proj2 (proj2 (proj2 (proj2 (proj2
             (TransportError_fields_round_trip
                "personal_signTransaction" "locked" (-32020)))))))).
    reflexivity.
  - apply (proj1 (proj2 (proj2 (proj2 (proj2
             (TransportError_fields_round_trip
                "personal_signTransaction" "locked" (-32020))))))).
    reflexivity.
Defined.

(** C8.  For a code that is not a value of [ERROR_CODES] the
    constructor still yields an error object; its [type] is the empty
    string and [code], [method] and [text] are populated. *)
Theorem TransportError_unknown_code :
  forall (method0 message0 : string) (code0 : Z),
    ~ In code0 (map snd ERROR_CODES) ->
    let e := new_TransportError method0 code0 message0 in
    type e = "" /\ code e = code0 /\ method e = method0 /\ text e = message0.
Proof.
  intros method0 message0 code0 Hnot e. subst e.
  repeat split; try reflexivity.
  unfold new_TransportError; cbn [type]. unfold Js.array_find.
  match goal with
  | |- context [find ?p ?l] => destruct (find p l) as [k'|] eqn:F
  end; [|reflexivity].
  exfalso. apply Hnot.
  apply find_some in F as [_ Hp].
  apply strict_eq_code_true in Hp.
  eapply In_values, get_In_pair; eauto.
Qed.

Lemma TransportError_unknown_code_witness :
  ~ In 0 (map snd ERROR_CODES) /\
  type (new_TransportError "eth_call" 0 "boom") = "".
Proof.
  assert (~ In 0 (map snd ERROR_CODES)) as H
    by (unfold ERROR_CODES; simpl; intuition discriminate).
  split; [exact H|].
  exact (proj1 (TransportError_unknown_code "eth_call" "boom" 0 H)).
Defined.

End TransportFacts.

(* ----------------------------------------------------------------- *)
(** ** Dapp-registry write helpers *)

Section DappregFacts.

Import Dappreg.

(** *** Arithmetic of the gas margin *)

Lemma mul_1_2_of_Z (g : Z) :
  BigNumber.mul (BigNumber.of_Z g) BigNumber.of_1_2
  = {| BigNumber.unscaled := g * 12; BigNumber.scale := 1 |}.
Proof. reflexivity. Qed.

(** Rounding [g * 1.2] half-up is [nearest_1_2 g], for [g >= 0]. *)
Lemma round0_mul_1_2 (g : Z) :
  0 <= g ->
  BigNumber.round0 (BigNumber.mul (BigNumber.of_Z g) BigNumber.of_1_2)
  = nearest_1_2 g.
Proof.
  intros Hg. unfold BigNumber.round0, BigNumber.round_div, nearest_1_2.
  rewrite mul_1_2_of_Z. cbn [BigNumber.unscaled BigNumber.scale].
  change (10 ^ Z.of_nat 1) with 10. cbn [BigNumber.ROUNDING_MODE].
  destruct (Z.eqb_spec ((g * 12) mod 10) 0) as [Hr|Hr].
  - Z.to_euclidean_division_equations; lia.
  - destruct (Z.compare_spec (2 * ((g * 12) mod 10)) 10) as [Hc|Hc|Hc].
    + exfalso. Z.to_euclidean_division_equations; lia.
    + Z.to_euclidean_division_equations; lia.
    + Z.to_euclidean_division_equations; lia.
Qed.

Lemma toFixed0_mul_1_2 (g : Z) :
  0 <= g ->
  BigNumber.toFixed0 (BigNumber.mul (BigNumber.of_Z g) BigNumber.of_1_2)
  = Js.number_to_string (nearest_1_2 g).
Proof.
  intros Hg. unfold BigNumber.toFixed0.
  rewrite round0_mul_1_2 by assumption.
  rewrite mul_1_2_of_Z. cbn [BigNumber.unscaled].
  destruct (g * 12 <? 0) eqn:E; [apply Z.ltb_lt in E; lia|reflexivity].
Qed.

(** [nearest_1_2 g] is the integer within one half of [g * 1.2]. *)
Lemma nearest_1_2_spec (g : Z) :
  12 * g - 5 < 10 * nearest_1_2 g <= 12 * g + 5.
Proof.
  unfold nearest_1_2.
  pose proof (Z.div_mod (12 * g + 5) 10 ltac:(lia)).
  pose proof (Z.mod_pos_bound (12 * g + 5) 10 ltac:(lia)). lia.
Qed.

(** [ceil_1_2 g] is the least integer at or above [g * 1.2]. *)
Lemma ceil_1_2_spec (g : Z) :
  12 * g <= 10 * ceil_1_2 g < 12 * g + 10.
Proof.
  unfold ceil_1_2.
  pose proof (Z.div_mod (- (12 * g)) 10 ltac:(lia)).
  pose proof (Z.mod_pos_bound (- (12 * g)) 10 ltac:(lia)). lia.
Qed.

(** The submitted limit never exceeds the ceiling and is at most one
    below it. *)
Lemma nearest_vs_ceil (g : Z) :
  nearest_1_2 g <= ceil_1_2 g <= nearest_1_2 g + 1.
Proof.
  pose proof (nearest_1_2_spec g). pose proof (ceil_1_2_spec g). lia.
Qed.

(** The two roundings agree exactly when [g * 1.2] is an integer or has
    a fractional part of .6 or .8. *)
Lemma nearest_eq_ceil_iff (g : Z) :
  nearest_1_2 g = ceil_1_2 g <-> (g mod 5 = 0 \/ g mod 5 = 3 \/ g mod 5 = 4).
Proof.
  unfold nearest_1_2, ceil_1_2.
  split; intros H; Z.to_euclidean_division_equations; lia.
Qed.

(** *** Shape of the traces *)

Lemma cons_eq_app_cons {A : Type} (a x : A) (l pre post : list A) :
  a :: l = (pre ++ x :: post)%list ->
  (pre = [] /\ x = a /\ post = l) \/
  (exists pre', pre = a :: pre' /\ l = (pre' ++ x :: post)%list).
Proof.
  destruct pre as [|b pre']; cbn [app]; intros [= -> ->].
  - left. repeat split.
  - right. exists pre'. split; reflexivity.
Qed.

Lemma nil_eq_app_cons {A : Type} (x : A) (pre post : list A) :
  [] = (pre ++ x :: post)%list -> False.
Proof. apply app_cons_not_nil. Qed.

(** Locate an event inside a trace given as an explicit list. *)
Ltac locate H Hx Hp :=
  repeat match type of H with
  | [] = (_ ++ _ :: _)%list => exfalso; exact (nil_eq_app_cons _ _ _ H)
  | _ :: _ = (_ ++ _ :: _)%list =>
    let pre' := fresh "pre" in
    apply cons_eq_app_cons in H;
    destruct H as [(-> & Hx & Hp) | (pre' & -> & H)]
  end.

Variable World : Type.
Variable respond : World -> Call -> World * (Rejection + Value).

(** Unfold one helper run down to the answers of the backend. *)
Ltac settle :=
  repeat match goal with
  | |- context [respond ?w ?c] =>
    let w1 := fresh "w" in
    let e := fresh "e" in
    let v := fresh "v" in
    let b := fresh "b" in
    let str := fresh "str" in
    destruct (respond w c) as [w1 [e | [b | str]]]; cbn
  end.

Ltac unfold_helpers :=
  unfold trace, outcome, promise_of, registerGHH, registerDapp, deleteDapp,
    updateDappOwner, invoke; cbn.

(** Split a concrete trace as [pre' ++ [last]]. *)
Ltac close_before :=
  first [ exists []; do 2 eexists; repeat split; reflexivity
        | eexists [_]; do 2 eexists; repeat split; reflexivity ].

Ltac no_submission :=
  let c := fresh "c" in
  let r := fresh "r" in
  let Hin := fresh "Hin" in
  intros c r Hin; cbn [In] in Hin;
  repeat (destruct Hin as [Hin | Hin];
          [ injection Hin as <- <-; cbn; discriminate | ]);
  contradiction.

Lemma helper_estimate_before_submit (h : WriteHelper) (w : World) :
  estimate_before_submit (trace World respond (promise_of h) w).
Proof.
  destruct h; unfold estimate_before_submit; unfold_helpers; settle;
    intros pre c r post H Hk; locate H Hx Hp;
    injection Hx as -> ->; cbn in Hk; try discriminate;
    close_before.
Qed.

Lemma helper_failed_estimate_stops (h : WriteHelper) (w : World) :
  failed_estimate_stops (trace World respond (promise_of h) w)
                        (outcome World respond (promise_of h) w).
Proof.
  destruct h; unfold failed_estimate_stops; unfold_helpers; settle;
    intros pre ce err post H Hk; locate H Hx Hp; try discriminate Hx;
    injection Hx as -> ->; subst post; cbn in Hk; try discriminate;
    (split; [reflexivity | split; [reflexivity | no_submission]]).
Qed.

(** C5.  In every run of a write helper, against any backend, a
    [postTransaction] is issued only right after the [estimateGas] of
    the same contract function has resolved; and when an [estimateGas]
    is rejected no further call is made, so nothing is submitted, and
    the helper's promise is rejected with the estimation error. *)
Theorem submit_only_after_estimate :
  forall (h : WriteHelper) (w : World),
    estimate_before_submit (trace World respond (promise_of h) w) /\
    failed_estimate_stops (trace World respond (promise_of h) w)
                          (outcome World respond (promise_of h) w).
Proof.
  intros h w. split.
  - apply helper_estimate_before_submit.
  - apply helper_failed_estimate_stops.
Qed.

(** Find the resolved estimate in the trace and exhibit the submission
    that follows it, leaving the relation between estimate and limit. *)
Ltac follow_estimate :=
  let H := fresh "H" in
  let Hk := fresh "Hk" in
  let Hx := fresh "Hx" in
  let Hp := fresh "Hp" in
  unfold gas_limit_rule; unfold_helpers; settle;
  intros ? ? ? ? H Hk ?; locate H Hx Hp; try discriminate Hx;
  injection Hx as -> <-; cbn in Hk; try discriminate; subst;
  do 3 eexists; (split; [reflexivity|]); repeat split;
  eexists; (split; [reflexivity|]).

Lemma registerGHH_rounded (i : string) (url hash owner : Value) (w : World) :
  gas_limit_rule rounded_limit
    (trace World respond (registerGHH i url hash owner) w).
Proof.
  unfold rounded_limit; follow_estimate; now rewrite toFixed0_mul_1_2.
Qed.

Lemma registerDapp_rounded (dappId : Value) (i : string) (w : World) :
  gas_limit_rule rounded_limit (trace World respond (registerDapp dappId i) w).
Proof.
  unfold rounded_limit; follow_estimate; now rewrite toFixed0_mul_1_2.
Qed.

Lemma deleteDapp_rounded (dappId dappOwner : Value) (i : string) (w : World) :
  gas_limit_rule rounded_limit
    (trace World respond (deleteDapp dappId dappOwner i) w).
Proof.
  unfold rounded_limit; follow_estimate; now rewrite toFixed0_mul_1_2.
Qed.

(** [updateDappOwner] hands the product over as it is. *)
Lemma updateDappOwner_unrounded (dappId dappOwner next : Value) (i : string)
      (w : World) :
  gas_limit_rule unrounded_limit
    (trace World respond (updateDappOwner dappId dappOwner next i) w).
Proof.
  unfold unrounded_limit; follow_estimate; reflexivity.
Qed.

(** C1, as amended.  For every non-negative integer gas estimate [g]
    that [estimateGas] resolves with, [registerGHH], [registerDapp] and
    [deleteDapp] next submit the transaction with a gas limit that is
    the decimal rendering of [g * 1.2] rounded to the nearest integer,
    that is of [(12 g + 5) / 10]; this integer is within one half of
    [g * 1.2], never above [ceil(g * 1.2)] and at most one below it. *)
Theorem gas_limit_is_rounded_estimate :
  forall w : World,
    (forall i url hash owner,
        gas_limit_rule rounded_limit
          (trace World respond (registerGHH i url hash owner) w)) /\
    (forall dappId i,
        gas_limit_rule rounded_limit
          (trace World respond (registerDapp dappId i) w)) /\
    (forall dappId dappOwner i,
        gas_limit_rule rounded_limit
          (trace World respond (deleteDapp dappId dappOwner i) w)) /\
    (forall g,
        12 * g - 5 < 10 * nearest_1_2 g <= 12 * g + 5 /\
        nearest_1_2 g <= ceil_1_2 g <= nearest_1_2 g + 1).
Proof.
  intros w. repeat split;
    try (intros; first [ apply registerGHH_rounded
                       | apply registerDapp_rounded
                       | apply deleteDapp_rounded ]);
    try apply nearest_1_2_spec; apply nearest_vs_ceil.
Qed.

End DappregFacts.

(** The rule at work: an estimate of 7 gives 8.4, submitted as "8". *)
Lemma gas_limit_is_rounded_estimate_witness :
  exists c r,
    nth_error
      (Dappreg.trace unit (Dappreg.resolve_estimates 7 (Dappreg.VString "0x01"))
         (Dappreg.registerGHH "githubhint" (Dappreg.VString "https://parity.io")
            (Dappreg.VString "0xab") (Dappreg.VString "0x00a3"))
         tt) 1 = Some (c, r) /\
    Dappreg.kind c = Dappreg.postTransaction /\
    Dappreg.gas (Dappreg.options c) = Some (Dappreg.VString "8").
Proof.
  destruct (proj1 (gas_limit_is_rounded_estimate unit
                     (Dappreg.resolve_estimates 7 (Dappreg.VString "0x01")) tt)
              "githubhint" (Dappreg.VString "https://parity.io")
              (Dappreg.VString "0xab") (Dappreg.VString "0x00a3")
              [] _ 7 _ eq_refl eq_refl ltac:(discriminate))
    as (c & r & post' & Hpost & Hk & _ & _ & v & Hv & Hr).
  exists c, r. injection Hpost as <- <- _.
  split; [reflexivity | split; [exact Hk |]].
  rewrite Hv, Hr. reflexivity.
Defined.

(** C1, as stated, fails: for an estimate of 1 [registerGHH] submits the
    gas limit "1" (1.2 rounded to the nearest integer), while
    [ceil(1 * 1.2)] is 2. *)
Lemma gas_limit_is_not_ceiling :
  let tr :=
    Dappreg.trace unit (Dappreg.resolve_estimates 1 (Dappreg.VString "0x01"))
      (Dappreg.promise_of
         (Dappreg.RegisterGHH "githubhint" (Dappreg.VString "https://parity.io")
            (Dappreg.VString "0xab") (Dappreg.VString "0x00a3")))
      tt in
  (exists c r,
      nth_error tr 1 = Some (c, r) /\
      Dappreg.kind c = Dappreg.postTransaction /\
      Dappreg.gas (Dappreg.options c) = Some (Dappreg.VString "1")) /\
  Dappreg.ceil_1_2 1 = 2 /\
  ~ Dappreg.gas_limit_rule Dappreg.ceil_limit tr.
Proof.
  cbv zeta. split; [|split].
  - do 2 eexists. repeat split.
  - reflexivity.
  - intros H.
    destruct (H [] _ 1 _ eq_refl eq_refl ltac:(discriminate))
      as (c & r & post' & Hpost & _ & _ & _ & v & Hv & Hr).
    injection Hpost as <- <- _. cbn in Hv. injection Hv as <-.
    cbn in Hr. discriminate Hr.
Qed.

(** [updateDappOwner] on an estimate of 1: the submitted limit is the
    decimal 1.2, which stands for no integer. *)
Lemma updateDappOwner_submits_fraction :
  let tr :=
    Dappreg.trace unit (Dappreg.resolve_estimates 1 (Dappreg.VString "0x01"))
      (Dappreg.updateDappOwner (Dappreg.VString "0xd1")
         (Dappreg.VString "0x00a3") (Dappreg.VString "0x00b4") "dappreg")
      tt in
  exists c r,
    nth_error tr 1 = Some (c, r) /\
    Dappreg.kind c = Dappreg.postTransaction /\
    Dappreg.gas (Dappreg.options c)
    = Some (Dappreg.VBigNumber (BigNumber.mk 12 1)) /\
    forall n, ~ Dappreg.denotes_integer
                  (Dappreg.VBigNumber (BigNumber.mk 12 1)) n.
Proof.
  cbv zeta. do 2 eexists. repeat split.
  intros n H. cbn in H. lia.
Qed.

(** The ordering at work: a rejected estimate leaves a one-call trace
    and a rejected promise. *)
Lemma submit_only_after_estimate_witness :
  let respond := Dappreg.reject_estimates (-32015) (Dappreg.VString "0x01") in
  let h := Dappreg.DeleteDapp (Dappreg.VString "0xd1") (Dappreg.VString "0x00a3")
                              "dappreg" in
  length (Dappreg.trace unit respond (Dappreg.promise_of h) tt) = 1%nat /\
  forall c r,
    In (c, r) (Dappreg.trace unit respond (Dappreg.promise_of h) tt) ->
    Dappreg.kind c <> Dappreg.postTransaction.
Proof.
  cbv zeta. split; [reflexivity|].
  exact (proj2 (proj2
    (proj2 (submit_only_after_estimate unit
              (Dappreg.reject_estimates (-32015) (Dappreg.VString "0x01"))
              (Dappreg.DeleteDapp (Dappreg.VString "0xd1")
                                  (Dappreg.VString "0x00a3") "dappreg") tt)
       [] _ _ [] eq_refl eq_refl))).
Defined.

(* ----------------------------------------------------------------- *)
(** ** The transfer wizard *)

Section TransferFacts.

Import Transfer.

(** The four shapes of the action row. *)
Lemma renderDialogActions_cases (p : Props) (s : Store) :
  (stage s = 0 /\ extras s = true /\
   renderDialogActions p s = [cancelBtn; nextBtn s]) \/
  (stage s = 0 /\ extras s = false /\
   renderDialogActions p s = [cancelBtn; sendBtn p s]) \/
  (stage s = 1 /\ extras s = true /\
   renderDialogActions p s = [cancelBtn; prevBtn; sendBtn p s]) \/
  (stage s <> 0 /\ (stage s <> 1 \/ extras s = false) /\
   renderDialogActions p s = [doneBtn]).
Proof.
  unfold renderDialogActions.
  destruct (stage s) as [|[q|q|]|q]; destruct (extras s); intuition (auto; lia).
Qed.

(** Case analysis on the action row, with the buttons made explicit. *)
Ltac by_action_row p s :=
  destruct (renderDialogActions_cases p s)
    as [(Hst & Hex & Hrow) | [(Hst & Hex & Hrow) | [(Hst & Hex & Hrow)
                                                   | (Hst & Hex & Hrow)]]];
  rewrite Hrow in *; clear Hrow.

Ltac pick_button H :=
  cbn [In] in H;
  repeat (destruct H as [<- | H]; [ | ]); try contradiction.




(** Where Back is offered. *)
Lemma prev_offered_iff (p : Props) (s : Store) :
  In onPrev (map onClick (renderDialogActions p s)) <->
  stage s = 1 /\ extras s = true.
Proof.
  by_action_row p s; cbn; split; intros H; try tauto;
    try (destruct H as [H|[H|[]]]; discriminate H);
    try (destruct H as [H|[H|[H|[]]]]; discriminate H);
    try (destruct H as [H|[]]; discriminate H);
    try (destruct H as [H1 H2]; congruence);
    destruct H as [H1 H2]; destruct Hex; congruence.
Qed.

(** C4.  Every action offered by the wizard either closes it or moves
    the stage strictly forward, except Back, which is offered exactly
    once and only on the Extras stage (stage 1 with extras enabled),
    where it returns to stage 0.  From stage 2 on, and more generally
    whenever the completion page is shown, the only action is Close; no
    offered action leads from there back to Details. *)
Theorem transitions_forward_except_back :
  forall (p : Props) (s : Store),
    (forall b, In b (renderDialogActions p s) ->
       stage_after (onClick b) (stage s) = None \/
       (exists n, stage_after (onClick b) (stage s) = Some n /\ stage s < n) \/
       (onClick b = onPrev /\ stage s = 1 /\ extras s = true /\
        stage_after (onClick b) (stage s) = Some 0)) /\
    (In onPrev (map onClick (renderDialogActions p s)) <->
       stage s = 1 /\ extras s = true) /\
    (count_occ Bool.bool_dec
       (map (fun b => match onClick b with onPrev => true | _ => false end)
            (renderDialogActions p s)) true <= 1)%nat /\
    (2 <= stage s -> renderDialogActions p s = [doneBtn]) /\
    (stage s <> 0 -> stage s <> 1 \/ extras s = false ->
       renderDialogActions p s = [doneBtn]) /\
    (renderDialogActions p s = [doneBtn] ->
       forall b, In b (renderDialogActions p s) ->
         label b = "Close" /\ onClick b = handleClose /\
         stage_after (onClick b) (stage s) <> Some 0).
Proof.
  intros p s. split; [|split; [|split; [|split; [|split]]]].
  - intros b Hb. by_action_row p s; pick_button Hb; cbn; rewrite ?Hst;
      first [ left; reflexivity
            | right; left; eexists; split; [reflexivity | lia]
            | right; right; repeat split; assumption ].
  - apply prev_offered_iff.
  - by_action_row p s; cbn; lia.
  - intros Hge. by_action_row p s; try lia; reflexivity.
  - intros H0 H1. by_action_row p s; try reflexivity; try contradiction.
    destruct H1; congruence.
  - intros Hrow b Hb. rewrite Hrow in Hb. pick_button Hb.
    cbn. repeat split; discriminate.
Qed.

Lemma transitions_forward_except_back_witness :
  let s := blank_store 2 true true false true None None in
  renderDialogActions some_account s = [doneBtn] /\
  ~ In onPrev (map onClick (renderDialogActions some_account s)).
Proof.
  cbv zeta.
  pose proof (transitions_forward_except_back some_account
                (blank_store 2 true true false true None None))
    as (_ & Hprev & _ & Hclose & _).
  split.
  - apply Hclose. cbn. lia.
  - intros Hin. apply Hprev in Hin. cbn in Hin. destruct Hin as [Hin _].
    discriminate Hin.
Defined.

(** C6.  Once the store is neither rejected nor sending, the
    completion page is a [CompletedStep] whose first child is the hash
    display, given the store's [txhash] as it is; when the store holds a
    (non-empty) multi-owner operation hash, a second child shows exactly
    that hash, and otherwise there is no second child. *)
Theorem completion_page_exposes_hashes :
  forall s : Store,
    rejected s = false ->
    sending s = false ->
    exists rest,
      renderCompletePage s = Some (CompletedStep (TxHash (txhash s) :: rest)) /\
      (forall h, txhash s = Some h ->
         renderCompletePage s = Some (CompletedStep (TxHash (Some h) :: rest))) /\
      (forall op, operation s = Some op -> op <> "" ->
         rest = [ OperationNotice
                    "This transaction needs confirmation from other owners."
                    op "operation hash" ]) /\
      (Js.truthy (operation s) = false -> rest = []).
Proof.
  intros s Hr Hs. unfold renderCompletePage. rewrite Hr, Hs.
  eexists. split; [reflexivity|]. split; [|split].
  - intros h Hh. rewrite Hh. reflexivity.
  - intros op Hop Hne. rewrite Hop. destruct op; [contradiction|reflexivity].
  - intros Hf. destruct (operation s) as [[|a op]|]; cbn in Hf;
      try discriminate; reflexivity.
Qed.

Lemma completion_page_exposes_hashes_witness :
  renderCompletePage
    (blank_store 2 true false false true (Some "0x5c1d") (Some "0x77af"))
  = Some (CompletedStep
            [ TxHash (Some "0x5c1d");
              OperationNotice
                "This transaction needs confirmation from other owners."
                "0x77af" "operation hash" ]).
Proof.
  destruct (completion_page_exposes_hashes
              (blank_store 2 true false false true (Some "0x5c1d")
                 (Some "0x77af")) eq_refl eq_refl)
    as (rest & Hpage & _ & Hop & _).
  rewrite Hpage. rewrite (Hop "0x77af" eq_refl ltac:(discriminate)).
  reflexivity.
Defined.

(** The three page renderers never produce the same tree. *)
Lemma pages_distinct (p : Props) (s : Store) :
  renderDetailsPage p s <> renderExtrasPage s /\
  renderDetailsPage p s <> renderCompletePage s /\
  renderExtrasPage s <> renderCompletePage s.
Proof.
  unfold renderDetailsPage, renderExtrasPage, renderCompletePage.
  destruct (histogram (gasStore s)), (rejected s), (sending s);
    repeat split; discriminate.
Qed.

(** Which renderer [renderPage] hands over to. *)
Lemma renderPage_cases (p : Props) (s : Store) :
  (stage s = 0 /\ renderPage p s = renderDetailsPage p s) \/
  (stage s = 1 /\ extras s = true /\ renderPage p s = renderExtrasPage s) \/
  (stage s <> 0 /\ (stage s <> 1 \/ extras s = false) /\
   renderPage p s = renderCompletePage s).
Proof.
  unfold renderPage.
  destruct (Z.eqb_spec (stage s) 0) as [H0|H0]; [left; tauto|].
  destruct (Z.eqb_spec (stage s) 1) as [H1|H1]; destruct (extras s); cbn;
    intuition auto.
Qed.

(** C9, as amended.  Without extras the Details stage offers Cancel and
    Send (no Next, no Back), stage 1 already shows the completion page,
    and the Extras page is never shown.  For every stage and extras flag
    [renderPage] hands over to exactly one page: Details on stage 0,
    with the store's fields; Extras on stage 1 with extras, with the
    store's fields and gas store; the completion page otherwise.  That
    page is rendered, except the Extras page while the gas price
    histogram is not loaded: then, and only then, nothing is
    rendered. *)
Theorem extras_stage_skipped :
  forall (p : Props) (s : Store),
    (extras s = false -> stage s = 0 ->
       renderDialogActions p s = [cancelBtn; sendBtn p s] /\
       ~ In onNext (map onClick (renderDialogActions p s))) /\
    (extras s = false -> stage s = 1 ->
       renderPage p s = renderCompletePage s /\
       renderDialogActions p s = [doneBtn]) /\
    (extras s = false ->
       (forall e, renderPage p s = Some e ->
                  TransferPages.kind_of e <> TransferPages.ExtrasPage) /\
       ~ In onNext (map onClick (renderDialogActions p s)) /\
       ~ In onPrev (map onClick (renderDialogActions p s))) /\
    (stage s = 0 ->
       renderPage p s
       = Some (Details
                 {| d_address := address p; d_all := valueAll s;
                    d_extras := extras s; d_recipient := recipient s;
                    d_recipientError := recipientError s;
                    d_sender := sender s; d_senderError := senderError s;
                    d_tag := tag s; d_total := total s;
                    d_totalError := totalError s; d_value := value s;
                    d_valueError := valueError s |})) /\
    (stage s = 1 -> extras s = true ->
       match histogram (gasStore s) with
       | Some _ =>
         renderPage p s
         = Some (Extras
                   {| e_isEth := isEth s; e_data := data s;
                      e_dataError := dataError s; e_total := total s;
                      e_totalError := totalError s;
                      e_gasStore := gasStore s |})
       | None => renderPage p s = None
       end) /\
    (stage s <> 0 -> stage s <> 1 \/ extras s = false ->
       renderPage p s = renderCompletePage s /\
       exists e, renderPage p s = Some e /\
                 TransferPages.kind_of e = TransferPages.CompletionPage) /\
    (forall e, renderPage p s = Some e ->
       TransferPages.kind_of e
       = TransferPages.page_of_stage (stage s) (extras s)) /\
    ((exists e, renderPage p s = Some e) <->
     ~ (stage s = 1 /\ extras s = true /\ histogram (gasStore s) = None)) /\
    (extras s = false -> renderPage p s <> renderExtrasPage s) /\
    exactly_one (renderPage p s = renderDetailsPage p s)
                (renderPage p s = renderExtrasPage s)
                (renderPage p s = renderCompletePage s).
Proof.
  intros p s.
  destruct (pages_distinct p s) as (Hde & Hdc & Hec).
  assert (Hcomplete : exists e, renderCompletePage s = Some e /\
            TransferPages.kind_of e = TransferPages.CompletionPage).
  { unfold renderCompletePage. destruct (rejected s), (sending s);
      eexists; split; reflexivity. }
  assert (Hkind : forall e, renderPage p s = Some e ->
            TransferPages.kind_of e
            = TransferPages.page_of_stage (stage s) (extras s)).
  { intros e. unfold renderPage, TransferPages.page_of_stage.
    destruct (stage s) as [|[q|q|]|q]; cbn [Z.eqb Pos.eqb andb].
    - unfold renderDetailsPage. intros [= <-]. reflexivity.
    - destruct Hcomplete as (c & -> & Hc). intros [= <-].
      destruct (extras s); exact Hc.
    - destruct Hcomplete as (c & -> & Hc). intros [= <-].
      destruct (extras s); exact Hc.
    - destruct (extras s).
      + unfold renderExtrasPage. destruct (histogram (gasStore s));
          [intros [= <-]; reflexivity | discriminate].
      + destruct Hcomplete as (c & -> & Hc). intros [= <-]. exact Hc.
    - destruct Hcomplete as (c & -> & Hc). intros [= <-].
      destruct (extras s); exact Hc. }
  split; [|split; [|split; [|split; [|split; [|split; [|split;
    [|split; [|split]]]]]]]].
  - intros Hx H0. by_action_row p s; try congruence.
    split; [reflexivity|]. cbn. intuition congruence.
  - intros Hx H1.
    destruct (renderPage_cases p s) as [(H & _)|[(_ & H & _)|(_ & _ & H)]];
      try congruence.
    split; [exact H|]. by_action_row p s; congruence.
  - intros Hx. split.
    + intros e He. rewrite (Hkind e He), Hx.
      unfold TransferPages.page_of_stage.
      destruct (stage s) as [|[q|q|]|q]; discriminate.
    + by_action_row p s; try congruence; cbn; intuition congruence.
  - intros H0. unfold renderPage. rewrite H0. reflexivity.
  - intros H1 Hx. unfold renderPage, renderExtrasPage. rewrite H1, Hx.
    cbn [Z.eqb Pos.eqb andb]. destruct (histogram (gasStore s)); reflexivity.
  - intros H0 H1.
    destruct (renderPage_cases p s) as [(H & _)|[(Hs & Hx & _)|(_ & _ & H)]].
    + contradiction.
    + destruct H1; congruence.
    + split; [exact H|]. rewrite H. exact Hcomplete.
  - exact Hkind.
  - destruct (renderPage_cases p s) as [(H0 & H)|[(H1 & Hx & H)|(H0 & H1 & H)]];
      rewrite H.
    + unfold renderDetailsPage. split.
      * intros _ (Hs & _). congruence.
      * intros _. eexists. reflexivity.
    + unfold renderExtrasPage. destruct (histogram (gasStore s)) eqn:Eh; split.
      * intros _ (_ & _ & Hn). discriminate.
      * intros _. eexists. reflexivity.
      * intros [e He]. discriminate.
      * intros Hn. exfalso. apply Hn. repeat split; assumption.
    + split.
      * intros _ (Hs & Hx & _). destruct H1; congruence.
      * intros _. destruct Hcomplete as (c & Hc & _). exists c. exact Hc.
  - intros Hx.
    destruct (renderPage_cases p s) as [(_ & H)|[(_ & H & _)|(_ & _ & H)]];
      try congruence; rewrite H; auto.
  - unfold exactly_one.
    destruct (renderPage_cases p s) as [(_ & H)|[(_ & _ & H)|(_ & _ & H)]];
      rewrite H.
    + left. auto.
    + right; left. repeat split; auto.
    + right; right. repeat split; auto.
Qed.

Lemma extras_stage_skipped_witness :
  let s := blank_store 1 false true false true None None in
  renderPage some_account s = renderCompletePage s /\
  renderDialogActions some_account s = [doneBtn].
Proof.
  cbv zeta.
  pose proof (extras_stage_skipped some_account
                (blank_store 1 false true false true None None))
    as (_ & H & _).
  apply H; reflexivity.
Defined.

(** C9, as stated, fails: on the Extras stage, with extras enabled and
    the gas price histogram not loaded, [renderPage] renders nothing, so
    none of the three pages is rendered. *)
Lemma no_page_without_histogram :
  let s := TransferPages.store_without_histogram in
  stage s = 1 /\ extras s = true /\
  renderPage some_account s = None /\
  ~ (exists e, renderPage some_account s = Some e).
Proof.
  cbv zeta. repeat split. intros [e He]. discriminate He.
Qed.

End TransferFacts.

(* ----------------------------------------------------------------- *)
(** ** The step indicator *)

Section StepsFacts.

Import StepsView.

Lemma map_indexed_length {A B : Type} (f : A -> Z -> B) (from : Z) (xs : list A) :
  length (map_indexed f from xs) = length xs.
Proof.
  revert from. induction xs as [|x rest IH]; intros from; cbn; [reflexivity|].
  now rewrite IH.
Qed.

(** The element at position [i] is built from the [i]-th label and the
    index [from + i]. *)
Lemma map_indexed_nth {A B : Type} (f : A -> Z -> B) (from : Z) (xs : list A)
      (i : nat) :
  nth_error (map_indexed f from xs) i
  = option_map (fun x => f x (from + Z.of_nat i)) (nth_error xs i).
Proof.
  revert from i. induction xs as [|x rest IH]; intros from [|i]; cbn [map_indexed nth_error option_map];
    try reflexivity.
  - now rewrite Z.add_0_r.
  - rewrite IH. destruct (nth_error rest i); cbn; [|reflexivity].
    f_equal. f_equal. lia.
Qed.

(** The indicator is rendered exactly for lists of two or more labels. *)
Lemma Steps_rendered_iff (activeStep : Z) (steps : option (list Label)) :
  (exists group, Steps activeStep steps = Some group) <->
  (exists labels, steps = Some labels /\ (2 <= length labels)%nat).
Proof.
  unfold Steps. destruct steps as [labels|].
  - destruct (Nat.ltb_spec (length labels) 2) as [Hlt|Hge]; split.
    + intros [g Hg]. discriminate.
    + intros [l [[= <-] Hl]]. lia.
    + intros _. exists labels. split; [reflexivity|lia].
    + intros _. eexists. reflexivity.
  - split; [intros [g Hg]; discriminate | intros [l [Hl _]]; discriminate].
Qed.

(** The flags of the rendered step at position [i]. *)
Lemma Steps_flags (activeStep : Z) (steps : option (list Label))
      (group : list Step) (i : nat) (step : Step) :
  Steps activeStep steps = Some group ->
  nth_error group i = Some step ->
  active step = (activeStep =? Z.of_nat i) /\
  completed step = (activeStep >? Z.of_nat i) /\
  exists labels, steps = Some labels /\ nth_error labels i = Some (title step).
Proof.
  unfold Steps. destruct steps as [labels|]; [|discriminate].
  destruct (length labels <? 2)%nat; [discriminate|].
  intros [= <-]. rewrite map_indexed_nth.
  destruct (nth_error labels i) as [l|] eqn:E; cbn; [|discriminate].
  intros [= <-]. cbn. repeat split. exists labels. split; [reflexivity|exact E].
Qed.

(** C7.  In a rendered step indicator: a step is marked active exactly
    when its index equals [activeStep], so at most one step is active,
    and the step at index [activeStep] is active when that index is in
    range; every step with a smaller index is marked completed; a step
    with a larger index is neither active nor completed.  One step is
    rendered per label. *)
Theorem Steps_marks :
  forall (activeStep : Z) (steps : option (list Label)) (group : list Step),
    Steps activeStep steps = Some group ->
    (exists labels, steps = Some labels /\ length group = length labels) /\
    (forall i step, nth_error group i = Some step ->
       (active step = true <-> activeStep = Z.of_nat i)) /\
    (forall i j si sj,
       nth_error group i = Some si -> nth_error group j = Some sj ->
       active si = true -> active sj = true -> i = j) /\
    (0 <= activeStep < Z.of_nat (length group) ->
       exists step, nth_error group (Z.to_nat activeStep) = Some step /\
                    active step = true) /\
    (forall i step, nth_error group i = Some step ->
       Z.of_nat i < activeStep -> completed step = true) /\
    (forall i step, nth_error group i = Some step ->
       activeStep < Z.of_nat i -> active step = false /\ completed step = false).
Proof.
  intros activeStep steps group HS.
  assert (Hact : forall i step, nth_error group i = Some step ->
                   (active step = true <-> activeStep = Z.of_nat i)).
  { intros i step Hi. destruct (Steps_flags _ _ _ _ _ HS Hi) as (-> & _).
    apply Z.eqb_eq. }
  split; [|split; [|split; [|split; [|split]]]].
  - revert HS. unfold Steps. destruct steps as [labels|]; [|discriminate].
    destruct (length labels <? 2)%nat; [discriminate|].
    intros [= <-]. exists labels. split; [reflexivity|apply map_indexed_length].
  - exact Hact.
  - intros i j si sj Hi Hj Ai Aj.
    apply (Hact i si Hi) in Ai. apply (Hact j sj Hj) in Aj. lia.
  - intros Hrange.
    destruct (nth_error group (Z.to_nat activeStep)) as [step|] eqn:E.
    + exists step. split; [reflexivity|]. apply (Hact _ _ E). lia.
    + apply nth_error_None in E. lia.
  - intros i step Hi Hlt. destruct (Steps_flags _ _ _ _ _ HS Hi) as (_ & -> & _).
    apply Z.gtb_lt. exact Hlt.
  - intros i step Hi Hgt.
    destruct (Steps_flags _ _ _ _ _ HS Hi) as (-> & -> & _). split.
    + apply Z.eqb_neq. lia.
    + destruct (Z.gtb_spec activeStep (Z.of_nat i)); [lia|reflexivity].
Qed.

End StepsFacts.

Lemma Steps_marks_witness :
  let labels :=
    [ StepsView.mkLabel None "transfer"; StepsView.mkLabel None "extras";
      StepsView.mkLabel (Some "done") "complete" ] in
  exists group,
    StepsView.Steps 1 (Some labels) = Some group /\
    map StepsView.active group = [false; true; false] /\
    map StepsView.completed group = [true; false; false] /\
    (forall i j si sj,
       nth_error group i = Some si -> nth_error group j = Some sj ->
       StepsView.active si = true -> StepsView.active sj = true -> i = j).
Proof.
  cbv zeta. eexists. split; [reflexivity|]. split; [reflexivity|].
  split; [reflexivity|].
  exact (proj1 (proj2 (proj2
    (Steps_marks 1
       (Some [ StepsView.mkLabel None "transfer";
               StepsView.mkLabel None "extras";
               StepsView.mkLabel (Some "done") "complete" ])
       _ eq_refl)))).
Defined.

(* ----------------------------------------------------------------- *)
(** ** The dapp-registry root reducer *)

Section RegistryFacts.

Import Registry.

Variables Accounts Lookup Events Register Payload : Type.
Variables null undefined : Payload.
Variable accountsReducer : option Accounts -> Action Payload -> Accounts.
Variable lookupReducer : option Lookup -> Action Payload -> Lookup.
Variable eventsReducer : option Events -> Action Payload -> Events.
Variable registerReducer : option Register -> Action Payload -> Register.

Local Abbreviation root :=
  (reducer Accounts Lookup Events Register Payload null undefined
           accountsReducer lookupReducer eventsReducer registerReducer).

(** Comparing the first [length p] characters with [p] is the prefix
    test. *)
Lemma slice0_eqb_prefix (p ty : string) :
  String.eqb (Js.slice0 (String.length p) ty) p = String.prefix p ty.
Proof.
  unfold Js.slice0.
  destruct (String.prefix p ty) eqn:E.
  - apply prefix_correct in E. rewrite E. apply String.eqb_refl.
  - apply String.eqb_neq. intros H. apply prefix_correct in H. congruence.
Qed.

Lemma eqb_false_of_neq (a b : string) : a <> b -> String.eqb a b = false.
Proof. apply String.eqb_neq. Qed.

(** C10.  An action whose type is none of 'set contract', 'set fee',
    'set owner' and starts with none of 'accounts', 'lookup', 'events',
    'register' leaves the state as it is; 'set contract', 'set fee' and
    'set owner' each replace their own field by the action's payload and
    keep the six other fields. *)
Theorem reducer_frame :
  forall (state : State Accounts Lookup Events Register Payload)
         (action : Action Payload),
    (type action <> "set contract" ->
     type action <> "set fee" ->
     type action <> "set owner" ->
     String.prefix "accounts" (type action) = false ->
     String.prefix "lookup" (type action) = false ->
     String.prefix "events" (type action) = false ->
     String.prefix "register" (type action) = false ->
     root (Some state) action = state) /\
    (type action = "set contract" ->
     root (Some state) action
     = {| accounts := accounts state; contract := contract_of action;
          fee := fee state; owner := owner state; lookup := lookup state;
          events := events state; register := register state |}) /\
    (type action = "set fee" ->
     root (Some state) action
     = {| accounts := accounts state; contract := contract state;
          fee := fee_of action; owner := owner state; lookup := lookup state;
          events := events state; register := register state |}) /\
    (type action = "set owner" ->
     root (Some state) action
     = {| accounts := accounts state; contract := contract state;
          fee := fee state; owner := owner_of action; lookup := lookup state;
          events := events state; register := register state |}).
Proof.
  intros state action. unfold reducer, reduce.
  change 8%nat with (String.length "accounts") at 1.
  change 8%nat with (String.length "register").
  change 6%nat with (String.length "lookup") at 1.
  change 6%nat with (String.length "events").
  rewrite !slice0_eqb_prefix.
  split; [|split; [|split]].
  - intros Hc Hf Ho Ha Hl He Hr.
    rewrite Ha, Hl, He, Hr.
    rewrite (eqb_false_of_neq _ _ Hc), (eqb_false_of_neq _ _ Hf),
      (eqb_false_of_neq _ _ Ho).
    reflexivity.
  - intros ->. reflexivity.
  - intros ->. reflexivity.
  - intros ->. reflexivity.
Qed.

End RegistryFacts.

Lemma reducer_frame_witness :
  let st :=
    {| Registry.accounts := 1%nat; Registry.contract := "0xc0";
       Registry.fee := "5"; Registry.owner := "0x0a";
       Registry.lookup := 2%nat; Registry.events := 3%nat;
       Registry.register := 4%nat |} in
  Registry.counting_reducer (Some st)
    (Registry.mkAction string "set fee" "undefined" "7" "undefined" [])
  = {| Registry.accounts := 1%nat; Registry.contract := "0xc0";
       Registry.fee := "7"; Registry.owner := "0x0a";
       Registry.lookup := 2%nat; Registry.events := 3%nat;
       Registry.register := 4%nat |} /\
  Registry.counting_reducer (Some st)
    (Registry.mkAction string "clear" "undefined" "undefined" "undefined" [])
  = st.
Proof.
  cbv zeta. unfold Registry.counting_reducer. split.
  - exact (proj1 (proj2 (proj2
      (reducer_frame nat nat nat nat string "null" "undefined"
         Registry.counting Registry.counting Registry.counting
         Registry.counting
         {| Registry.accounts := 1%nat; Registry.contract := "0xc0";
            Registry.fee := "5"; Registry.owner := "0x0a";
            Registry.lookup := 2%nat; Registry.events := 3%nat;
            Registry.register := 4%nat |}
         (Registry.mkAction string "set fee" "undefined" "7" "undefined" []))))
      eq_refl).
  - apply (proj1
      (reducer_frame nat nat nat nat string "null" "undefined"
         Registry.counting Registry.counting Registry.counting
         Registry.counting
         {| Registry.accounts := 1%nat; Registry.contract := "0xc0";
            Registry.fee := "5"; Registry.owner := "0x0a";
            Registry.lookup := 2%nat; Registry.events := 3%nat;
            Registry.register := 4%nat |}
         (Registry.mkAction string "clear" "undefined" "undefined"
            "undefined" []))); cbn; congruence.
Defined.

(* ----------------------------------------------------------------- *)
(** ** Transport errors: classification by type *)

Section TransportTypeFacts.

Import Transport.

(** The [type] computed for a code is empty or a key listing that code. *)
Lemma type_empty_or_listed (method0 message0 : string) (code0 : Z) :
  let t := type (new_TransportError method0 code0 message0) in
  t = "" \/ (t <> "" /\ get ERROR_CODES t = Some code0).
Proof.
  cbv zeta. unfold new_TransportError; cbn [type]. unfold Js.array_find.
  match goal with
  | |- context [find ?p ?l] => destruct (find p l) as [k|] eqn:F
  end; [|left; reflexivity].
  apply find_some in F as [Hin Hp]. apply strict_eq_code_true in Hp.
  pose proof (ERROR_CODES_keys_nonempty k Hin) as Hne.
  rewrite (or_empty_nonempty k Hne). right. split; assumption.
Qed.

(** X1.  The [type] of a transport error is either empty or a name of
    [ERROR_CODES] under which the error's own code is listed; it is empty
    exactly for the codes the table does not list; it does not depend on
    the method or the message; and two errors with the same non-empty
    type carry the same code. *)
Theorem TransportError_type_classifies :
  forall (m1 t1 m2 t2 : string) (c1 c2 : Z),
    let e1 := new_TransportError m1 c1 t1 in
    let e2 := new_TransportError m2 c2 t2 in
    (type e1 = "" \/ In (type e1) (keys ERROR_CODES)) /\
    (type e1 <> "" -> get ERROR_CODES (type e1) = Some c1) /\
    (type e1 = "" <-> ~ In c1 (map snd ERROR_CODES)) /\
    (c1 = c2 -> type e1 = type e2) /\
    (type e1 = type e2 -> type e1 <> "" -> c1 = c2).
Proof.
  intros m1 t1 m2 t2 c1 c2 e1 e2. subst e1 e2.
  destruct (type_empty_or_listed m1 t1 c1) as [H1|[H1 G1]];
    destruct (type_empty_or_listed m2 t2 c2) as [H2|[H2 G2]];
    cbv zeta in *.
  all: split; [|split; [|split; [|split]]].
  all: try (left; assumption).
  all: try (right; eapply In_keys, get_In_pair; eassumption).
  all: try (intros Hne; first [contradiction | assumption]).
  all: try (intros ->; reflexivity).
  all: try (intros Heq Hne; congruence).
  - split; [intros _ Hin | intros _; assumption].
    apply in_map_iff in Hin as [[k c] [Hc Hin]]. cbn in Hc. subst c.
    assert (get ERROR_CODES k = Some c1) as Hk.
    { revert Hin. unfold ERROR_CODES. cbn [In].
      intros H; repeat (destruct H as [[= <- <-]|H]; [reflexivity|]).
      contradiction. }
    rewrite (type_of_known_code m1 t1 k c1 Hk) in H1.
    apply (ERROR_CODES_keys_nonempty k); [|assumption].
    eapply In_keys, get_In_pair; eassumption.
  - split; [intros _ Hin | intros _; assumption].
    apply in_map_iff in Hin as [[k c] [Hc Hin]]. cbn in Hc. subst c.
    assert (get ERROR_CODES k = Some c1) as Hk.
    { revert Hin. unfold ERROR_CODES. cbn [In].
      intros H; repeat (destruct H as [[= <- <-]|H]; [reflexivity|]).
      contradiction. }
    rewrite (type_of_known_code m1 t1 k c1 Hk) in H1.
    apply (ERROR_CODES_keys_nonempty k); [|assumption].
    eapply In_keys, get_In_pair; eassumption.
  - split; [intros Hc; contradiction | intros Hn; exfalso; apply Hn].
    eapply In_values, get_In_pair; eassumption.
  - split; [intros Hc; contradiction | intros Hn; exfalso; apply Hn].
    eapply In_values, get_In_pair; eassumption.
Qed.

(** X2.  Every listed code lies between -32602 and -32000, so an error
    whose code is outside that range (every non-negative code, for one)
    has the empty type. *)
Theorem TransportError_code_range :
  forall (method0 message0 : string) (code0 : Z),
    (forall k c, get ERROR_CODES k = Some c -> -32602 <= c <= -32000) /\
    (code0 < -32602 \/ -32000 < code0 ->
     type (new_TransportError method0 code0 message0) = "").
Proof.
  intros method0 message0 code0.
  assert (Hrange : forall k c, get ERROR_CODES k = Some c ->
                               -32602 <= c <= -32000).
  { intros k c Hk. apply get_In_pair in Hk. revert Hk.
    unfold ERROR_CODES. cbn [In].
    intros H; repeat (destruct H as [[= <- <-]|H]; [lia|]). contradiction. }
  split; [exact Hrange|].
  intros Hout.
  destruct (type_empty_or_listed method0 message0 code0) as [H|[_ H]];
    [exact H|].
  cbv zeta in H. apply Hrange in H. lia.
Qed.

Lemma TransportError_code_range_witness :
  type (new_TransportError "eth_sendTransaction" 3 "execution reverted") = "".
Proof.
  apply (proj2 (TransportError_code_range "eth_sendTransaction"
                  "execution reverted" 3)).
  right. lia.
Defined.

End TransportTypeFacts.

(* ----------------------------------------------------------------- *)
(** ** The environment module *)

Section EnvironmentFacts.

Import Environment.

Lemma or_else_truthy (v : option string) (d : string) :
  Js.truthy v = true -> exists u, v = Some u /\ u <> "" /\ or_else v d = u.
Proof.
  destruct v as [[|a s]|]; cbn; try discriminate.
  intros _. eexists. repeat split. discriminate.
Qed.

Lemma or_else_falsy (v : option string) (d : string) :
  Js.truthy v = false -> or_else v d = d.
Proof. destruct v as [[|a s]|]; cbn; try discriminate; reflexivity. Qed.

(** X3.  A non-empty [PARITY_URL] overrides both endpoints, whatever
    [NODE_ENV] is; an undefined or empty one counts as unset.  Unset, a
    production build uses 127.0.0.1:8080 for dapps and the page's host
    for the node, any other build the empty string and 127.0.0.1:8180.
    So the dapps endpoint is empty exactly in a non-production build
    without override, and the two endpoints coincide exactly under an
    override or when a production page is served from 127.0.0.1:8080. *)
Theorem endpoints_by_environment :
  forall e : Env,
    (forall u, PARITY_URL e = Some u -> u <> "" ->
       parityDapps e = u /\ parityUrl e = u) /\
    (Js.truthy (PARITY_URL e) = false -> NODE_ENV e = Some "production" ->
       parityDapps e = "127.0.0.1:8080" /\ parityUrl e = location_host e) /\
    (Js.truthy (PARITY_URL e) = false -> NODE_ENV e <> Some "production" ->
       parityDapps e = "" /\ parityUrl e = "127.0.0.1:8180") /\
    (parityDapps e = "" <->
       Js.truthy (PARITY_URL e) = false /\ NODE_ENV e <> Some "production") /\
    (parityDapps e = parityUrl e <->
       Js.truthy (PARITY_URL e) = true \/
       (NODE_ENV e = Some "production" /\ location_host e = "127.0.0.1:8080")).
Proof.
  intros e. unfold parityDapps, parityUrl.
  assert (Hprod : strict_eq (NODE_ENV e) "production" = true <->
                  NODE_ENV e = Some "production").
  { destruct (NODE_ENV e) as [x|]; cbn; [|split; discriminate].
    rewrite String.eqb_eq. split; congruence. }
  destruct (Js.truthy (PARITY_URL e)) eqn:T.
  - destruct (or_else_truthy _ "" T) as (u & Hu & Hne & _).
    rewrite Hu in *. destruct u as [|a u]; [contradiction|]. cbn [or_else].
    split; [|split; [|split; [|split]]].
    + intros u' [= <-] _. split; reflexivity.
    + discriminate.
    + discriminate.
    + split; [discriminate | intros [H _]; discriminate].
    + split; [intros _; left; reflexivity | reflexivity].
  - rewrite !(or_else_falsy _ _ T).
    destruct (strict_eq (NODE_ENV e) "production") eqn:P.
    + clear P. pose proof (proj1 Hprod eq_refl) as P.
      split; [|split; [|split; [|split]]].
      * intros u Hu Hne. rewrite Hu in T. destruct u; [contradiction|discriminate].
      * intros _ _. split; reflexivity.
      * intros _ Hn. contradiction.
      * split; [discriminate | intros [_ Hn]; contradiction].
      * split; [intros H; right; split; [exact P | now symmetry]
               | intros [H|[_ H]]; [discriminate | now symmetry]].
    + assert (NODE_ENV e <> Some "production") as Hn
        by (intros H; apply Hprod in H; discriminate).
      split; [|split; [|split; [|split]]].
      * intros u Hu Hne. rewrite Hu in T. destruct u; [contradiction|discriminate].
      * intros _ H. contradiction.
      * intros _ _. split; reflexivity.
      * split; [intros _; split; [reflexivity|exact Hn] | reflexivity].
      * split; [discriminate | intros [H|[H _]]; [discriminate|contradiction]].
Qed.

Lemma endpoints_by_environment_witness :
  let e := {| PARITY_URL := Some ""; NODE_ENV := Some "production";
              location_host := "wallet.example:443" |} in
  parityDapps e = "127.0.0.1:8080" /\ parityUrl e = "wallet.example:443".
Proof.
  cbv zeta.
  apply (proj1 (proj2 (endpoints_by_environment
    {| PARITY_URL := Some ""; NODE_ENV := Some "production";
       location_host := "wallet.example:443" |}))); reflexivity.
Defined.

End EnvironmentFacts.

(* ----------------------------------------------------------------- *)
(** ** The step indicator: what is rendered, and in which order *)

Section StepsOrderFacts.

Import StepsView.

(** X4.  Nothing is rendered exactly when the list of steps is missing
    or has fewer than two labels, whatever the active step is. *)
Theorem Steps_null_iff :
  forall (activeStep : Z) (steps : option (list Label)),
    Steps activeStep steps = None <->
    steps = None \/ (exists labels, steps = Some labels /\ (length labels < 2)%nat).
Proof.
  intros activeStep steps. unfold Steps. destruct steps as [labels|].
  - destruct (Nat.ltb_spec (length labels) 2) as [Hlt|Hge]; split.
    + intros _. right. exists labels. split; [reflexivity|exact Hlt].
    + reflexivity.
    + discriminate.
    + intros [H|[l [[= <-] Hl]]]; [discriminate|lia].
  - split; [intros _; left; reflexivity | reflexivity].
Qed.

Lemma map_indexed_titles (f : Label -> Z -> Step) (from : Z) (xs : list Label) :
  (forall l i, title (f l i) = l) ->
  map title (map_indexed f from xs) = xs.
Proof.
  intros Hf. revert from. induction xs as [|x rest IH]; intros from; cbn;
    [reflexivity|]. now rewrite Hf, IH.
Qed.

(** The number of completed steps among [n] steps numbered from [from]. *)
Lemma map_indexed_completed (f : Label -> Z -> Step) (a from : Z)
      (xs : list Label) :
  (forall l i, completed (f l i) = (a >? i)) ->
  let k := Z.to_nat (Z.min (Z.max (a - from) 0) (Z.of_nat (length xs))) in
  map completed (map_indexed f from xs)
  = (repeat true k ++ repeat false (length xs - k))%list.
Proof.
  intros Hf. revert from. induction xs as [|x rest IH]; intros from; cbn zeta.
  - cbn [map_indexed map length].
    replace (Z.to_nat (Z.min (Z.max (a - from) 0) (Z.of_nat 0)))
      with 0%nat by lia.
    reflexivity.
  - cbn [map_indexed map length]. rewrite Hf.
    specialize (IH (from + 1)). cbn zeta in IH. rewrite IH.
    destruct (Z.gtb_spec a from) as [Hgt|Hle].
    + replace (Z.to_nat (Z.min (Z.max (a - from) 0)
                                (Z.of_nat (S (length rest)))))
        with (S (Z.to_nat (Z.min (Z.max (a - (from + 1)) 0)
                                 (Z.of_nat (length rest))))) by lia.
      reflexivity.
    + replace (Z.to_nat (Z.min (Z.max (a - from) 0)
                                (Z.of_nat (S (length rest))))) with 0%nat by lia.
      replace (Z.to_nat (Z.min (Z.max (a - (from + 1)) 0)
                               (Z.of_nat (length rest)))) with 0%nat by lia.
      cbn. now rewrite Nat.sub_0_r.
Qed.

(** X5.  A rendered indicator shows the labels it was given, one step
    per label and in the same order. *)
Theorem Steps_titles_in_order :
  forall (activeStep : Z) (labels : list Label) (group : list Step),
    Steps activeStep (Some labels) = Some group ->
    map title group = labels.
Proof.
  intros activeStep labels group. unfold Steps.
  destruct (length labels <? 2)%nat; [discriminate|].
  intros [= <-]. apply map_indexed_titles. reflexivity.
Qed.

Lemma Steps_titles_in_order_witness :
  exists group,
    Steps 0 (Some [mkLabel None "details"; mkLabel None "done"]) = Some group /\
    map title group = [mkLabel None "details"; mkLabel None "done"].
Proof.
  eexists. split; [reflexivity|].
  apply (Steps_titles_in_order 0 [mkLabel None "details"; mkLabel None "done"]).
  reflexivity.
Defined.

(** X6.  In a rendered indicator the completed steps form a prefix: the
    first [k] steps are completed and the others are not, where [k] is
    [activeStep] clamped to the range from 0 to the number of steps.  In
    particular no step is completed for [activeStep <= 0] and all are for
    an [activeStep] at or past the end. *)
Theorem Steps_completed_prefix :
  forall (activeStep : Z) (labels : list Label) (group : list Step),
    Steps activeStep (Some labels) = Some group ->
    let n := length labels in
    let k := Z.to_nat (Z.min (Z.max activeStep 0) (Z.of_nat n)) in
    map completed group = (repeat true k ++ repeat false (n - k))%list /\
    (activeStep <= 0 -> map completed group = repeat false n) /\
    (Z.of_nat n <= activeStep -> map completed group = repeat true n).
Proof.
  intros activeStep labels group. unfold Steps.
  destruct (length labels <? 2)%nat; [discriminate|].
  intros [= <-]. cbv zeta.
  match goal with
  | |- context [map_indexed ?f 0 labels] =>
    pose proof (map_indexed_completed f activeStep 0 labels
                  (fun _ _ => eq_refl)) as H
  end.
  cbv zeta in H. rewrite Z.sub_0_r in H. rewrite H.
  split; [reflexivity|]. split; intros Hb.
  - replace (Z.to_nat (Z.min (Z.max activeStep 0) (Z.of_nat (length labels))))
      with 0%nat by lia.
    cbn. now rewrite Nat.sub_0_r.
  - replace (Z.to_nat (Z.min (Z.max activeStep 0) (Z.of_nat (length labels))))
      with (length labels) by lia.
    rewrite Nat.sub_diag. cbn. apply app_nil_r.
Qed.

Lemma Steps_completed_prefix_witness :
  exists group,
    Steps 2 (Some [mkLabel None "a"; mkLabel None "b"; mkLabel None "c"])
    = Some group /\
    map completed group = [true; true; false].
Proof.
  eexists. split; [reflexivity|].
  apply (proj1 (Steps_completed_prefix 2
                  [mkLabel None "a"; mkLabel None "b"; mkLabel None "c"]
                  _ eq_refl)).
Defined.

End StepsOrderFacts.

(* ----------------------------------------------------------------- *)
(** ** Dapp-registry write helpers: requests, settlement, margins *)

Section DappregMoreFacts.

Import Dappreg DappregRules.

Variable World : Type.
Variable respond : World -> Call -> World * (Rejection + Value).

Ltac settle_all :=
  repeat match goal with
  | |- context [respond ?w ?c] =>
    let w1 := fresh "w" in
    let e := fresh "e" in
    let b := fresh "b" in
    let str := fresh "str" in
    destruct (respond w c) as [w1 [e | [b | str]]]; cbn
  end.

Ltac unfold_runs :=
  unfold trace, outcome, promise_of, registerGHH, registerDapp, deleteDapp,
    updateDappOwner, invoke; cbn.

Ltac find_event H Hx Hp :=
  repeat match type of H with
  | [] = (_ ++ _ :: _)%list => exfalso; exact (nil_eq_app_cons _ _ _ H)
  | _ :: _ = (_ ++ _ :: _)%list =>
    let pre' := fresh "pre" in
    apply cons_eq_app_cons in H;
    destruct H as [(-> & Hx & Hp) | (pre' & -> & H)]
  end.

(** X7.  In every run of a write helper the submission asks for exactly
    what was estimated: same contract instance, function, values, sender
    and value; the estimate is made without a [gas] option and the
    submission adds one. *)
Theorem submission_repeats_estimate :
  forall (h : WriteHelper) (w : World),
    same_request_but_gas (trace World respond (promise_of h) w).
Proof.
  intros h w. destruct h; unfold same_request_but_gas; unfold_runs;
    settle_all; intros pre ce g cp r post H Hke Hkp;
    find_event H Hx Hp; try discriminate Hx; try discriminate Hp;
    injection Hx as -> _; injection Hp as -> _ _;
    cbn in Hke, Hkp; try discriminate;
    cbn; repeat split; discriminate.
Qed.

(** X8.  A write helper submits at most once per run; the submission is
    its last call, and the helper's promise settles exactly as the
    submission does: resolved with the same request id or rejected with
    the same error.  No run makes more than three calls. *)
Theorem submission_decides_outcome :
  forall (h : WriteHelper) (w : World),
    submission_settles (trace World respond (promise_of h) w)
                       (outcome World respond (promise_of h) w) /\
    (submissions (trace World respond (promise_of h) w) <= 1)%nat /\
    (length (trace World respond (promise_of h) w) <= 3)%nat.
Proof.
  intros h w. split; [|split].
  - destruct h; unfold submission_settles; unfold_runs; settle_all;
      intros pre c r post H Hk; find_event H Hx Hp;
      injection Hx as -> ->; cbn in Hk; try discriminate;
      subst post; split; reflexivity.
  - destruct h; unfold submissions; unfold_runs; settle_all; lia.
  - destruct h; unfold_runs; settle_all; lia.
Qed.

(** X9.  When a gas estimate resolves with a value that has no [mul]
    method, the helper makes no further call, so nothing is submitted,
    and its promise is rejected with the error thrown in the callback. *)
Theorem unusable_estimate_rejects :
  forall (h : WriteHelper) (w : World),
    unusable_estimate_stops (trace World respond (promise_of h) w)
                            (outcome World respond (promise_of h) w).
Proof.
  intros h w. destruct h; unfold unusable_estimate_stops; unfold_runs;
    settle_all; intros pre ce s post H Hk; find_event H Hx Hp;
    try discriminate Hx; injection Hx as -> ->; cbn in Hk; try discriminate;
    subst post; (split; [reflexivity | eexists; reflexivity]).
Qed.

(** X10.  [registerDapp] first reads the fee, with empty options and no
    argument.  If that read is rejected nothing else is called and the
    promise is rejected with the same error.  Otherwise every later call
    is made on the [register] function of the same instance with the
    dapp id as only argument, carries the fee that was read, unchanged,
    as its [value], and never names a sender. *)
Theorem registerDapp_pays_the_fee :
  forall (dappId : Value) (i : string) (w : World),
    let tr := trace World respond (registerDapp dappId i) w in
    let res := outcome World respond (registerDapp dappId i) w in
    (exists r rest, tr = (fee_call i, r) :: rest) /\
    (forall e rest, tr = (fee_call i, inl e) :: rest ->
       rest = [] /\ res = inl e) /\
    (forall fee rest c r, tr = (fee_call i, inr fee) :: rest ->
       In (c, r) rest ->
       instance c = i /\ fn c = "register" /\ values c = [dappId] /\
       from (options c) = None /\ value (options c) = Some fee).
Proof.
  intros dappId i w. cbv zeta. unfold fee_call. unfold_runs. settle_all.
  all: split; [do 2 eexists; reflexivity|].
  all: split; [intros err rest [= <- <-]; split; reflexivity|].
  all: intros fee rest c r [= <- <-] Hin; cbn [In] in Hin.
  all: repeat (destruct Hin as [[= <- <-]|Hin]; [repeat split|]).
  all: contradiction.
Qed.

Lemma gas_limit_rule_weaken (R R' : Z -> Value -> Prop) (tr : list Event) :
  (forall g v, 0 <= g -> R g v -> R' g v) ->
  gas_limit_rule R tr -> gas_limit_rule R' tr.
Proof.
  intros HR H pre c g post Htr Hk Hg.
  destruct (H pre c g post Htr Hk Hg)
    as (c' & r & post' & Hp & Hk' & Hi & Hf & v & Hv & Hr).
  exists c', r, post'. repeat split; try assumption.
  exists v. split; [assumption|]. now apply HR.
Qed.

Lemma rounded_has_margin (g : Z) (v : Value) :
  0 <= g -> rounded_limit g v -> margin_limit g v.
Proof.
  intros Hg ->. exists (nearest_1_2 g). split; [reflexivity|].
  pose proof (nearest_1_2_spec g). lia.
Qed.

(** X11.  The gas limit that [registerGHH], [registerDapp] and
    [deleteDapp] submit for an estimate [g] is never below [g]; it is
    above [g] for every estimate of 3 or more (for 1 and 2 the margin is
    rounded away) and never more than half a unit above [g * 1.2]. *)
Theorem gas_limit_keeps_margin :
  forall w : World,
    (forall i url hash owner,
        gas_limit_rule margin_limit
          (trace World respond (registerGHH i url hash owner) w)) /\
    (forall dappId i,
        gas_limit_rule margin_limit
          (trace World respond (registerDapp dappId i) w)) /\
    (forall dappId dappOwner i,
        gas_limit_rule margin_limit
          (trace World respond (deleteDapp dappId dappOwner i) w)).
Proof.
  intros w. repeat split; intros;
    apply (gas_limit_rule_weaken rounded_limit); try apply rounded_has_margin;
    first [ apply registerGHH_rounded
          | apply registerDapp_rounded
          | apply deleteDapp_rounded ].
Qed.

Lemma unrounded_is_fractional (g : Z) (v : Value) :
  0 <= g -> unrounded_limit g v -> fractional_limit g v.
Proof.
  intros Hg ->. unfold fractional_limit. rewrite mul_1_2_of_Z.
  split; [reflexivity|]. cbn. split.
  - intros [n Hn]. Z.to_euclidean_division_equations; lia.
  - intros H5. exists (6 * (g / 5)).
    Z.to_euclidean_division_equations; lia.
Qed.

(** X12.  [updateDappOwner] submits the product [g * 1.2] itself, as a
    decimal number and not as a rounded string; that limit is an integer
    only when the estimate is a multiple of 5. *)
Theorem updateDappOwner_limit_is_fractional :
  forall (dappId dappOwner next : Value) (i : string) (w : World),
    gas_limit_rule fractional_limit
      (trace World respond (updateDappOwner dappId dappOwner next i) w).
Proof.
  intros. apply (gas_limit_rule_weaken unrounded_limit);
    [apply unrounded_is_fractional | apply updateDappOwner_unrounded].
Qed.

End DappregMoreFacts.

Section DappregMoreWitnesses.

Import Dappreg DappregRules.

Lemma submission_repeats_estimate_witness :
  let tr := trace unit (resolve_estimates 21000 (VString "0x01"))
              (registerDapp (VString "0xd1") "dappreg") tt in
  exists ce g cp r,
    tr = [(fee_call "dappreg", inr (VString "0x01")); (ce, inr g); (cp, r)] /\
    values cp = values ce /\ value (options cp) = value (options ce).
Proof.
  cbv zeta. do 4 eexists. split; [reflexivity|].
  destruct (submission_repeats_estimate unit
              (resolve_estimates 21000 (VString "0x01"))
              (RegisterDapp (VString "0xd1") "dappreg") tt
              [_] _ _ _ _ [] eq_refl eq_refl eq_refl)
    as (_ & _ & Hv & _ & Hval & _).
  split; [exact Hv | exact Hval].
Defined.

Lemma submission_decides_outcome_witness :
  outcome unit (resolve_estimates 50000 (VString "0x2a"))
    (deleteDapp (VString "0xd1") (VString "0x00a3") "dappreg") tt
  = inr (VString "0x2a").
Proof.
  destruct (proj1 (submission_decides_outcome unit
                     (resolve_estimates 50000 (VString "0x2a"))
                     (DeleteDapp (VString "0xd1") (VString "0x00a3") "dappreg")
                     tt)
              [_] _ _ [] eq_refl eq_refl) as [_ H].
  exact H.
Defined.

Lemma unusable_estimate_rejects_witness :
  exists what,
    outcome unit (always_string "21000")
      (updateDappOwner (VString "0xd1") (VString "0x00a3") (VString "0x00b4")
         "dappreg") tt
    = inl (Thrown what).
Proof.
  destruct (unusable_estimate_rejects unit (always_string "21000")
              (UpdateDappOwner (VString "0xd1") (VString "0x00a3")
                 (VString "0x00b4") "dappreg") tt
              [] _ "21000" [] eq_refl eq_refl) as [_ H].
  exact H.
Defined.

Lemma registerDapp_pays_the_fee_witness :
  let tr := trace unit (resolve_estimates 21000 (VString "1000000000000000000"))
              (registerDapp (VString "0xd1") "dappreg") tt in
  exists c r, nth_error tr 2 = Some (c, r) /\
              kind c = postTransaction /\
              value (options c) = Some (VString "1000000000000000000").
Proof.
  cbv zeta. do 2 eexists. split; [reflexivity|]. split; [reflexivity|].
  refine (proj2 (proj2 (proj2 (proj2
    (proj2 (proj2 (registerDapp_pays_the_fee unit
                     (resolve_estimates 21000 (VString "1000000000000000000"))
                     (VString "0xd1") "dappreg" tt))
       (VString "1000000000000000000") _ _ _ eq_refl _))))).
  right. left. reflexivity.
Defined.

Lemma gas_limit_keeps_margin_witness :
  exists c r n,
    nth_error
      (trace unit (resolve_estimates 2 (VString "0x01"))
         (deleteDapp (VString "0xd1") (VString "0x00a3") "dappreg") tt) 1
    = Some (c, r) /\
    gas (options c) = Some (VString (Js.number_to_string n)) /\ 2 <= n.
Proof.
  destruct (proj2 (proj2 (gas_limit_keeps_margin unit
                     (resolve_estimates 2 (VString "0x01")) tt))
              (VString "0xd1") (VString "0x00a3") "dappreg"
              [] _ 2 _ eq_refl eq_refl ltac:(discriminate))
    as (c & r & post' & Hpost & _ & _ & _ & v & Hv & n & Hn & Hge & _).
  exists c, r, n. injection Hpost as <- <- _.
  split; [reflexivity|]. split; [rewrite Hv, Hn; reflexivity | exact Hge].
Defined.

Lemma updateDappOwner_limit_is_fractional_witness :
  exists c r,
    nth_error
      (trace unit (resolve_estimates 5 (VString "0x01"))
         (updateDappOwner (VString "0xd1") (VString "0x00a3")
            (VString "0x00b4") "dappreg") tt) 1
    = Some (c, r) /\
    gas (options c) = Some (VBigNumber (BigNumber.mk 60 1)) /\
    denotes_integer (VBigNumber (BigNumber.mk 60 1)) 6.
Proof.
  destruct (updateDappOwner_limit_is_fractional unit
              (resolve_estimates 5 (VString "0x01"))
              (VString "0xd1") (VString "0x00a3") (VString "0x00b4") "dappreg"
              tt [] _ 5 _ eq_refl eq_refl ltac:(discriminate))
    as (c & r & post' & Hpost & _ & _ & _ & v & Hv & Hfrac & _).
  exists c, r. injection Hpost as <- <- _.
  split; [reflexivity|]. split; [rewrite Hv, Hfrac; reflexivity | reflexivity].
Defined.

End DappregMoreWitnesses.

(* ----------------------------------------------------------------- *)
(** ** The transfer wizard: dismissal, what the pages show, waiting *)

Section TransferMoreFacts.

Import Transfer TransferView.

Ltac by_row p s :=
  destruct (renderDialogActions_cases p s)
    as [(Hst & Hex & Hrow) | [(Hst & Hex & Hrow) | [(Hst & Hex & Hrow)
                                                   | (Hst & Hex & Hrow)]]];
  rewrite Hrow in *; clear Hrow.

(** X13.  Whatever the stage and the state of the store, the action row
    has one to three buttons and its first button closes the wizard and
    is not disabled: Cancel while the Details or the Extras page is
    shown, Close otherwise.  The wizard can always be dismissed. *)
Theorem wizard_always_dismissable :
  forall (p : Props) (s : Store),
    (1 <= length (renderDialogActions p s) <= 3)%nat /\
    (exists b rest, renderDialogActions p s = b :: rest /\
                    onClick b = handleClose /\ disabled b = false /\
                    (b = cancelBtn <->
                     stage s = 0 \/ (stage s = 1 /\ extras s = true)) /\
                    (b = doneBtn <->
                     ~ (stage s = 0 \/ (stage s = 1 /\ extras s = true)))) /\
    In handleClose (enabled_handlers p s).
Proof.
  intros p s. unfold enabled_handlers. by_row p s.
  all: split; [cbn; lia|].
  all: split; [do 2 eexists; split; [reflexivity|]; split; [reflexivity|];
               split; [reflexivity|]; split; split;
               try discriminate; try reflexivity; intuition congruence
              | cbn; left; reflexivity].
Qed.

(** X14.  The completion page displays a transaction hash only when the
    store is neither rejected nor sending.  A rejected store shows the
    rejection notice whether or not it is still sending; a sending store
    that is not rejected shows the progress notice with the store's busy
    state. *)
Theorem completion_page_by_state :
  forall s : Store,
    ((exists children, renderCompletePage s = Some (CompletedStep children)) <->
     rejected s = false /\ sending s = false) /\
    (rejected s = true ->
     renderCompletePage s
     = Some (BusyStep "The transaction has been rejected"
               (Some "You can safely close this window, the transfer will not occur."))) /\
    (rejected s = false -> sending s = true ->
     renderCompletePage s
     = Some (BusyStep "The transaction is in progress" (busyState s))).
Proof.
  intros s. unfold renderCompletePage.
  destruct (rejected s), (sending s);
    (split; [split; [intros [c Hc]; first [discriminate Hc | split; reflexivity]
                    | intros [H1 H2]; first [discriminate | eexists; reflexivity]]
            | split; intros; first [discriminate | reflexivity]]).
Qed.

Lemma completion_page_by_state_witness :
  renderCompletePage
    (blank_store 2 true true true true (Some "0x5c1d") None)
  = Some (BusyStep "The transaction has been rejected"
            (Some "You can safely close this window, the transfer will not occur.")).
Proof.
  apply (proj1 (proj2 (completion_page_by_state
                         (blank_store 2 true true true true (Some "0x5c1d")
                            None)))).
  reflexivity.
Defined.

(** X15.  The wizard's body is empty in exactly one situation: on the
    Extras stage while the gas price histogram is not loaded.  The
    action row is not affected: Cancel, Back and Send are offered all
    the same. *)
Theorem page_missing_iff :
  forall (p : Props) (s : Store),
    (renderPage p s = None <->
     stage s = 1 /\ extras s = true /\ histogram (gasStore s) = None) /\
    (renderPage p s = None ->
     renderDialogActions p s = [cancelBtn; prevBtn; sendBtn p s]).
Proof.
  intros p s.
  assert (H : renderPage p s = None <->
              stage s = 1 /\ extras s = true /\ histogram (gasStore s) = None).
  { destruct (renderPage_cases p s) as [(H0 & ->)|[(H1 & Hx & ->)|(H0 & H1 & ->)]].
    - unfold renderDetailsPage. split; [discriminate|]. intros (Hc & _). lia.
    - unfold renderExtrasPage. destruct (histogram (gasStore s));
        split; try discriminate; try tauto. intros (_ & _ & Hc). discriminate.
    - unfold renderCompletePage. destruct (rejected s), (sending s);
        (split; [discriminate|]); intros (Hs & Hx & _);
        destruct H1; congruence. }
  split; [exact H|].
  intros Hn. apply H in Hn as (Hs & Hx & _).
  by_row p s; try congruence; try lia. destruct Hex; congruence.
Qed.

Lemma page_missing_iff_witness :
  let s := {| stage := 1; extras := true; sending := false; rejected := false;
              isValid := true; txhash := None; busyState := None;
              operation := None;
              gasStore := {| histogram := None; errorEstimated := None |};
              recipient := ""; recipientError := None; sender := "";
              senderError := None; valueAll := false; tag := "ETH";
              total := "0"; totalError := None; value := "0";
              valueError := None; isEth := true; data := "";
              dataError := None |} in
  renderPage some_account s = None /\
  In onSend (enabled_handlers some_account s).
Proof.
  cbv zeta. split.
  - apply (proj1 (page_missing_iff some_account _)). repeat split.
  - cbn. tauto.
Defined.

(** X16.  [render] declares one waiting stage: 2 with extras, 1
    without.  Send is offered on exactly the stage before it, Next only
    on stage 0 with extras; and on the waiting stage itself the page is
    the completion page and the only action is Close. *)
Theorem waiting_stage_follows_send :
  forall (steps0 : list string) (p : Props) (s : Store),
    let m := render steps0 p s in
    exists w,
      waiting m = [w] /\ w = (if extras s then 2 else 1) /\
      current m = stage s /\
      (In onSend (map onClick (actions m)) <-> stage s + 1 = w) /\
      (In onNext (map onClick (actions m)) <->
       stage s = 0 /\ extras s = true) /\
      (stage s = w ->
       page m = renderCompletePage s /\ actions m = [doneBtn]).
Proof.
  intros steps0 p s. cbv zeta. unfold render. cbn [waiting current actions page].
  exists (if extras s then 2 else 1).
  split; [destruct (extras s); reflexivity|]. split; [reflexivity|].
  split; [reflexivity|].
  split; [|split].
  - by_row p s; rewrite ?Hex; cbn; split; intros H; try lia;
      try (destruct H as [H|[H|H]]; try discriminate H; contradiction);
      try (destruct H as [H|[H|[H|H]]]; try discriminate H; contradiction);
      try (destruct H as [H|H]; try discriminate H; contradiction);
      try tauto.
    + destruct Hex as [Hex|Hex]; rewrite ?Hex in H; try lia.
      destruct (extras s); lia.
  - by_row p s; cbn; split; intros H; try tauto;
      try (destruct H as [H1 H2]; congruence);
      try (destruct H as [H|[H|H]]; try discriminate H; contradiction);
      try (destruct H as [H|[H|[H|H]]]; try discriminate H; contradiction);
      try (destruct H as [H|H]; try discriminate H; contradiction).
  - intros Hw.
    destruct (renderPage_cases p s) as [(H0 & Hp)|[(H1 & Hx & Hp)|(H0 & H1 & Hp)]].
    + destruct (extras s); lia.
    + rewrite Hx in Hw. lia.
    + split; [exact Hp|]. by_row p s; try congruence; try lia.
      rewrite Hex in Hw. lia.
Qed.

End TransferMoreFacts.

(* ----------------------------------------------------------------- *)
(** ** Objects: reading back what was written *)

Section JsObjectFacts.

Import JsObject.

Context {A : Type}.

Lemma get_set (o : Obj A) (k k' : string) (v : A) :
  get (set o k v) k' = if String.eqb k k' then Some v else get o k'.
Proof.
  induction o as [|[k0 v0] rest IH]; cbn.
  - reflexivity.
  - destruct (String.eqb_spec k0 k) as [->|Hne]; cbn.
    + destruct (String.eqb k k'); reflexivity.
    + rewrite IH. destruct (String.eqb_spec k0 k') as [->|Hne'].
      * destruct (String.eqb_spec k k'); [congruence|reflexivity].
      * reflexivity.
Qed.

Lemma keys_set (o : Obj A) (k k' : string) (v : A) :
  In k' (keys (set o k v)) <-> k' = k \/ In k' (keys o).
Proof.
  unfold keys. induction o as [|[k0 v0] rest IH]; cbn.
  - intuition.
  - destruct (String.eqb_spec k0 k) as [->|Hne]; cbn; [intuition|].
    rewrite IH. intuition.
Qed.

Lemma NoDup_keys_set (o : Obj A) (k : string) (v : A) :
  NoDup (keys o) -> NoDup (keys (set o k v)).
Proof.
  unfold keys. induction o as [|[k0 v0] rest IH]; cbn; intros Hnd.
  - constructor; [tauto|constructor].
  - inversion Hnd as [|? ? Hnotin Hrest]; subst.
    destruct (String.eqb_spec k0 k) as [->|Hne]; cbn.
    + constructor; assumption.
    + constructor; [|now apply IH].
      intros Hin. apply (keys_set rest k k0 v) in Hin. intuition.
Qed.

Lemma get_Some_keys (o : Obj A) (k : string) (v : A) :
  get o k = Some v -> In k (keys o).
Proof.
  unfold keys. induction o as [|[k0 v0] rest IH]; cbn; [discriminate|].
  destruct (String.eqb_spec k0 k) as [->|Hne]; [tauto|]. intros H. right. auto.
Qed.

Lemma get_Some_values (o : Obj A) (k : string) (v : A) :
  get o k = Some v -> In v (values o).
Proof.
  unfold values. induction o as [|[k0 v0] rest IH]; cbn; [discriminate|].
  destruct (String.eqb k0 k); [intros [= ->]; tauto|]. intros H. right. auto.
Qed.

Lemma includes_In (xs : list string) (x : string) :
  includes xs x = true <-> In x xs.
Proof.
  unfold includes. rewrite existsb_exists. split.
  - intros [y [Hy He]]. apply String.eqb_eq in He. now subst.
  - intros H. exists x. split; [exact H|apply String.eqb_refl].
Qed.

(** What [pick] leaves in the accumulator it folds over. *)
Lemma pick_fold (o acc : Obj A) (ks : list string) :
  (forall k b, get acc k = Some b -> get o k = Some b) ->
  NoDup (keys acc) ->
  let r := fold_left (fun acc0 k => match get o k with
                                    | Some v => set acc0 k v
                                    | None => acc0
                                    end) ks acc in
  NoDup (keys r) /\
  forall k b, get r k = Some b <->
              get acc k = Some b \/ (In k ks /\ get o k = Some b).
Proof.
  revert acc. induction ks as [|k0 rest IH]; intros acc Hagree Hnd; cbn zeta.
  - cbn. split; [exact Hnd|]. intuition.
  - cbn [fold_left].
    destruct (get o k0) as [v0|] eqn:E0.
    + assert (Hagree' : forall k b, get (set acc k0 v0) k = Some b ->
                                    get o k = Some b).
      { intros k b. rewrite get_set.
        destruct (String.eqb_spec k0 k) as [<-|Hne]; [congruence|apply Hagree]. }
      destruct (IH (set acc k0 v0) Hagree' (NoDup_keys_set acc k0 v0 Hnd))
        as [Hnd' Hget].
      split; [exact Hnd'|]. intros k b. rewrite Hget, get_set.
      destruct (String.eqb_spec k0 k) as [<-|Hne]; cbn [In].
      * split.
        -- intros [[= <-]|[Hin Ho]]; right; split; auto.
        -- intros [Ha|[_ Ho]]; left; [apply Hagree in Ha|]; congruence.
      * intuition congruence.
    + destruct (IH acc Hagree Hnd) as [Hnd' Hget].
      split; [exact Hnd'|]. intros k b. rewrite Hget. cbn [In].
      intuition congruence.
Qed.

(** [pick] keeps exactly the requested properties that exist. *)
Lemma get_pick (o : Obj A) (ks : list string) (k : string) (b : A) :
  get (pick o ks) k = Some b <-> In k ks /\ get o k = Some b.
Proof.
  unfold pick.
  destruct (pick_fold o empty ks) as [_ H]; [discriminate|constructor|].
  rewrite H. cbn. intuition discriminate.
Qed.

Lemma NoDup_keys_pick (o : Obj A) (ks : list string) :
  NoDup (keys (pick o ks)).
Proof.
  unfold pick.
  destruct (pick_fold o empty ks) as [H _]; [discriminate|constructor|exact H].
Qed.

End JsObjectFacts.

(* ----------------------------------------------------------------- *)
(** ** The transfer wizard: the props computed from the state *)

Section TransferPropsFacts.

Import JsObject TransferProps.

Variables GasLimit Balance : Type.

Local Abbreviation mapProps := (mapStateToProps GasLimit Balance).

Lemma filter_throwing_owned (w : Wallet) (xs : list PersonalAccount) :
  filter_throwing (is_owner (Some w)) xs
  = inr (filter (fun a => includes (owners w) (pa_address a)) xs).
Proof.
  induction xs as [|x rest IH]; cbn; [reflexivity|]. rewrite IH. reflexivity.
Qed.

Lemma filter_throwing_no_wallet (xs : list PersonalAccount) :
  xs <> [] -> exists e, filter_throwing (is_owner None) xs = inl e.
Proof. destruct xs; [congruence|]. intros _. eexists. reflexivity. Qed.

(** What keying by address leaves in the accumulator. *)
Lemma by_address_fold (xs : list PersonalAccount) (acc : Obj PersonalAccount) :
  NoDup (keys acc) ->
  let r := fold_left (fun accs a => set accs (pa_address a) a) xs acc in
  NoDup (keys r) /\
  (forall k, In k (keys r) <->
             In k (keys acc) \/ exists a, In a xs /\ pa_address a = k) /\
  (forall k a, get r k = Some a ->
               get acc k = Some a \/ (In a xs /\ pa_address a = k)).
Proof.
  revert acc. induction xs as [|x rest IH]; intros acc Hnd; cbn zeta.
  - cbn. split; [exact Hnd|]. split; [|auto].
    intros k. split; [auto|]. intros [H|[a [[] _]]]. exact H.
  - cbn [fold_left].
    destruct (IH (set acc (pa_address x) x) (NoDup_keys_set _ _ _ Hnd))
      as (Hnd' & Hkeys & Hget).
    split; [exact Hnd'|]. split.
    + intros k. rewrite Hkeys, keys_set. cbn [In]. split.
      * intros [[->|H]|[a [Ha Hk]]]; eauto.
      * intros [H|[a [[<-|Ha] Hk]]]; eauto.
    + intros k a Hr. apply Hget in Hr as [Hs|[Ha Hk]].
      * rewrite get_set in Hs.
        destruct (String.eqb_spec (pa_address x) k) as [Hk|Hne].
        -- injection Hs as <-. right. split; [left; reflexivity|exact Hk].
        -- left. exact Hs.
      * right. split; [right; exact Ha|exact Hk].
Qed.

(** X17.  For a wallet account whose wallet is in the state, the senders
    are keyed by address without repetition; an address is among them
    exactly when it is an owner of the wallet and the address of one of
    the user's accounts; and every entry is one of the user's accounts,
    stored under its own address.  The wallet and the senders do not
    depend on the later state. *)
Theorem senders_are_owned_accounts :
  forall (initState : InitState) (acc : Account) (w : Wallet),
    wallet acc = true ->
    get (wallets initState) (address acc) = Some w ->
    exists f ss,
      mapProps initState (Some acc) = inr f /\
      (forall st, p_wallet (f st) = Some w /\ p_senders (f st) = Some ss) /\
      NoDup (keys ss) /\
      (forall k, In k (keys ss) <->
         In k (owners w) /\
         exists a, In a (values (accounts initState)) /\ pa_address a = k) /\
      (forall k a, get ss k = Some a ->
         pa_address a = k /\ In a (values (accounts initState)) /\
         In k (owners w)).
Proof.
  intros initState acc w Hw Hget. unfold mapStateToProps.
  rewrite Hw, Hget, filter_throwing_owned.
  set (owned := filter _ (values (accounts initState))).
  destruct (by_address_fold owned empty ltac:(constructor))
    as (Hnd & Hkeys & Hval).
  do 2 eexists. split; [reflexivity|]. split; [intros st; split; reflexivity|].
  split; [exact Hnd|]. split.
  - intros k. unfold by_address. rewrite Hkeys. cbn [keys empty map In].
    split.
    + intros [[]|[a [Ha Hk]]]. apply filter_In in Ha as [Ha Hin].
      apply includes_In in Hin. subst k. eauto.
    + intros [Ho [a [Ha Hk]]]. right. exists a. split; [|exact Hk].
      apply filter_In. split; [exact Ha|]. apply includes_In. now rewrite Hk.
  - intros k a Hk. apply Hval in Hk as [Hk|[Ha Hk]]; [discriminate|].
    apply filter_In in Ha as [Ha Hin]. apply includes_In in Hin.
    subst k. auto.
Qed.

(** X18.  The balances handed to the component are those of the senders
    and of nobody else: a balance is passed for an address exactly when
    the address is one of the senders and the state has a balance for
    it, and it is that balance; for an account that is not a wallet no
    balances are passed at all. *)
Theorem balances_only_for_senders :
  forall (initState : InitState) (acc : Account)
         (f : State GasLimit Balance -> StateProps GasLimit Balance)
         (st : State GasLimit Balance),
    mapProps initState (Some acc) = inr f ->
    match p_senders (f st), p_sendersBalances (f st) with
    | Some ss, Some bs =>
      wallet acc = true /\ NoDup (keys bs) /\
      forall k b, get bs k = Some b <->
                  In k (keys ss) /\ get (balances st) k = Some b
    | None, None => wallet acc = false
    | _, _ => False
    end.
Proof.
  intros initState acc f st. unfold mapStateToProps.
  destruct (wallet acc).
  - destruct (filter_throwing _ _) as [e|owned]; [discriminate|].
    intros [= <-]. cbn. split; [reflexivity|]. split.
    + apply NoDup_keys_pick.
    + intros k b. apply get_pick.
  - intros [= <-]. reflexivity.
Qed.

(** X19.  The edges of [mapStateToProps].  Without an account it throws.
    For an account that is not a wallet the wallet, the senders and
    their balances are all null, for every later state.  For a wallet
    account whose wallet is not in the state it throws as soon as the
    user has one account, and yields an empty set of senders when the
    user has none.  Whenever it returns, the gas limit of each later
    state is passed on as it is. *)
Theorem mapStateToProps_edges :
  forall (initState : InitState),
    (exists e, mapProps initState None = inl e) /\
    (forall acc, wallet acc = false ->
       exists f, mapProps initState (Some acc) = inr f /\
                 forall st, p_wallet (f st) = None /\
                            p_senders (f st) = None /\
                            p_sendersBalances (f st) = None) /\
    (forall acc, wallet acc = true ->
       get (wallets initState) (address acc) = None ->
       accounts initState <> [] ->
       exists e, mapProps initState (Some acc) = inl e) /\
    (forall acc, wallet acc = true ->
       get (wallets initState) (address acc) = None ->
       accounts initState = [] ->
       exists f, mapProps initState (Some acc) = inr f /\
                 forall st, p_wallet (f st) = None /\
                            p_senders (f st) = Some empty /\
                            p_sendersBalances (f st) = Some empty) /\
    (forall acc f, mapProps initState (Some acc) = inr f ->
       forall st, p_gasLimit (f st) = gasLimit st).
Proof.
  intros initState. split; [|split; [|split; [|split]]].
  - eexists. reflexivity.
  - intros acc Hw. unfold mapStateToProps. rewrite Hw.
    eexists. split; [reflexivity|]. intros st. repeat split.
  - intros acc Hw Hg Hne. unfold mapStateToProps. rewrite Hw, Hg.
    destruct (filter_throwing_no_wallet (values (accounts initState)))
      as [e He].
    + unfold values. destruct (accounts initState); [congruence|discriminate].
    + rewrite He. eexists. reflexivity.
  - intros acc Hw Hg He. unfold mapStateToProps. rewrite Hw, Hg, He. cbn.
    eexists. split; [reflexivity|]. intros st. repeat split.
  - intros acc f. unfold mapStateToProps.
    destruct (wallet acc).
    + destruct (filter_throwing _ _) as [e|owned]; [discriminate|].
      intros [= <-] st. reflexivity.
    + intros [= <-] st. reflexivity.
Qed.

End TransferPropsFacts.

Section TransferPropsWitnesses.

Import JsObject TransferProps.

Lemma senders_are_owned_accounts_witness :
  let initState :=
    {| wallets := [("0x77", {| owners := ["0x0a"; "0x0b"] |})];
       accounts := [("0x0a", mkPersonalAccount "0x0a" "savings");
                    ("0x0c", mkPersonalAccount "0x0c" "spending")] |} in
  exists f ss,
    mapStateToProps Z Z initState (Some (mkAccount "0x77" true)) = inr f /\
    (forall st, p_senders (f st) = Some ss) /\
    In "0x0a" (keys ss) /\ ~ In "0x0c" (keys ss).
Proof.
  cbv zeta.
  destruct (senders_are_owned_accounts Z Z
              {| wallets := [("0x77", {| owners := ["0x0a"; "0x0b"] |})];
                 accounts := [("0x0a", mkPersonalAccount "0x0a" "savings");
                              ("0x0c", mkPersonalAccount "0x0c" "spending")] |}
              (mkAccount "0x77" true) {| owners := ["0x0a"; "0x0b"] |}
              eq_refl eq_refl)
    as (f & ss & Hf & Hst & _ & Hkeys & _).
  exists f, ss. split; [exact Hf|]. split; [intros st; apply Hst|]. split.
  - apply Hkeys. split; [cbn; tauto|].
    exists (mkPersonalAccount "0x0a" "savings"). split; [cbn; tauto|reflexivity].
  - intros Hin. apply Hkeys in Hin as [Ho _]. cbn in Ho.
    destruct Ho as [Ho|[Ho|[]]]; discriminate Ho.
Defined.

Lemma balances_only_for_senders_witness :
  let initState :=
    {| wallets := [("0x77", {| owners := ["0x0a"] |})];
       accounts := [("0x0a", mkPersonalAccount "0x0a" "savings")] |} in
  let st := {| gasLimit := 4700000;
               balances := [("0x0c", 9); ("0x0a", 5)] |} in
  exists f bs,
    mapStateToProps Z Z initState (Some (mkAccount "0x77" true)) = inr f /\
    p_sendersBalances (f st) = Some bs /\
    get bs "0x0a" = Some 5 /\ get bs "0x0c" = None.
Proof.
  cbv zeta. eexists. eexists. split; [reflexivity|].
  split; [reflexivity|].
  pose proof (balances_only_for_senders Z Z
    {| wallets := [("0x77", {| owners := ["0x0a"] |})];
       accounts := [("0x0a", mkPersonalAccount "0x0a" "savings")] |}
    (mkAccount "0x77" true) _
    {| gasLimit := 4700000; balances := [("0x0c", 9); ("0x0a", 5)] |}
    eq_refl) as H.
  hnf in H. destruct H as (_ & _ & H). split.
  - apply H. split; [cbn; tauto|reflexivity].
  - reflexivity.
Defined.

Lemma mapStateToProps_edges_witness :
  exists e,
    mapStateToProps Z Z
      {| wallets := []; accounts := [("0x0a", mkPersonalAccount "0x0a" "x")] |}
      (Some (mkAccount "0x77" true)) = inl e.
Proof.
  apply (proj1 (proj2 (proj2 (mapStateToProps_edges Z Z
    {| wallets := []; accounts := [("0x0a", mkPersonalAccount "0x0a" "x")] |})))
    (mkAccount "0x77" true) eq_refl eq_refl).
  discriminate.
Defined.

End TransferPropsWitnesses.

(* ----------------------------------------------------------------- *)
(** ** The dapp-registry root reducer: routing and composition *)

Section RegistryMoreFacts.

Import Registry.

Variables Accounts Lookup Events Register Payload : Type.
Variables null undefined : Payload.
Variable accountsReducer : option Accounts -> Action Payload -> Accounts.
Variable lookupReducer : option Lookup -> Action Payload -> Lookup.
Variable eventsReducer : option Events -> Action Payload -> Events.
Variable registerReducer : option Register -> Action Payload -> Register.

Local Abbreviation root :=
  (reducer Accounts Lookup Events Register Payload null undefined
           accountsReducer lookupReducer eventsReducer registerReducer).

Local Abbreviation St := (State Accounts Lookup Events Register Payload).

(** A string with a non-empty prefix starts with the prefix's first
    character. *)
Lemma prefix_head (c : ascii) (p s : string) :
  String.prefix (String c p) s = true -> exists rest, s = String c rest.
Proof.
  destruct s as [|c' rest]; cbn; [discriminate|].
  destruct (ascii_dec c c') as [->|]; [|discriminate].
  intros _. eexists. reflexivity.
Qed.

(** X20.  An action whose type starts with 'accounts', 'lookup',
    'events' or 'register' is handed to the sub-reducer of that name
    together with that slice of the state; the result replaces the slice
    and the six other fields are kept.  This holds for 'register' and
    'events' although they are tested last: the seven tests of the
    reducer exclude one another. *)
Theorem reducer_routes_by_prefix :
  forall (state : St) (action : Action Payload),
    (String.prefix "accounts" (type action) = true ->
     root (Some state) action
     = {| accounts := accountsReducer (Some (accounts state)) action;
          contract := contract state; fee := fee state; owner := owner state;
          lookup := lookup state; events := events state;
          register := register state |}) /\
    (String.prefix "lookup" (type action) = true ->
     root (Some state) action
     = {| accounts := accounts state;
          contract := contract state; fee := fee state; owner := owner state;
          lookup := lookupReducer (Some (lookup state)) action;
          events := events state; register := register state |}) /\
    (String.prefix "events" (type action) = true ->
     root (Some state) action
     = {| accounts := accounts state;
          contract := contract state; fee := fee state; owner := owner state;
          lookup := lookup state;
          events := eventsReducer (Some (events state)) action;
          register := register state |}) /\
    (String.prefix "register" (type action) = true ->
     root (Some state) action
     = {| accounts := accounts state;
          contract := contract state; fee := fee state; owner := owner state;
          lookup := lookup state; events := events state;
          register := registerReducer (Some (register state)) action |}).
Proof.
  intros state action.
  pose proof (slice0_eqb_prefix "accounts" (type action)) as Pa.
  pose proof (slice0_eqb_prefix "lookup" (type action)) as Pl.
  pose proof (slice0_eqb_prefix "events" (type action)) as Pe.
  pose proof (slice0_eqb_prefix "register" (type action)) as Pr.
  cbn [String.length] in Pa, Pl, Pe, Pr.
  split; [|split; [|split]]; intros H; unfold reducer, reduce.
  - rewrite Pa, H. reflexivity.
  - rewrite Pa, Pl, H. apply prefix_head in H as [rest Hty].
    rewrite Hty. reflexivity.
  - rewrite Pa, Pl, Pe, H. apply prefix_head in H as [rest Hty].
    rewrite Hty. reflexivity.
  - rewrite Pa, Pl, Pe, Pr, H. apply prefix_head in H as [rest Hty].
    rewrite Hty. reflexivity.
Qed.

(** What each of the three 'set' actions does to a state. *)
Lemma set_contract_step (state : St) (a : Action Payload) :
  type a = "set contract" ->
  root (Some state) a
  = {| accounts := accounts state; contract := contract_of a;
       fee := fee state; owner := owner state; lookup := lookup state;
       events := events state; register := register state |}.
Proof. intros H. unfold reducer, reduce. rewrite H. reflexivity. Qed.

Lemma set_fee_step (state : St) (a : Action Payload) :
  type a = "set fee" ->
  root (Some state) a
  = {| accounts := accounts state; contract := contract state;
       fee := fee_of a; owner := owner state; lookup := lookup state;
       events := events state; register := register state |}.
Proof. intros H. unfold reducer, reduce. rewrite H. reflexivity. Qed.

Lemma set_owner_step (state : St) (a : Action Payload) :
  type a = "set owner" ->
  root (Some state) a
  = {| accounts := accounts state; contract := contract state;
       fee := fee state; owner := owner_of a; lookup := lookup state;
       events := events state; register := register state |}.
Proof. intros H. unfold reducer, reduce. rewrite H. reflexivity. Qed.

Lemma reducer_undefined (a : Action Payload) :
  root None a
  = root (Some (initialState Accounts Lookup Events Register Payload null
                  undefined accountsReducer lookupReducer eventsReducer
                  registerReducer)) a.
Proof. reflexivity. Qed.

(** X21.  Called without a state, the reducer starts from the initial
    state: the contract, fee and owner are null until set, and each of
    the four slices (accounts, lookup, events, register) is what the
    sub-reducer of that name returns for an undefined slice and the
    empty action.  After 'set contract', 'set fee' and 'set owner' the
    three fields hold the payloads and the four slices are still those
    initial ones: both states are determined field by field. *)
Theorem reducer_from_undefined :
  forall (a1 a2 a3 : Action Payload),
    type a1 = "set contract" -> type a2 = "set fee" -> type a3 = "set owner" ->
    let s0 := root None (empty_action Payload undefined) in
    let s3 := root (Some (root (Some (root None a1)) a2)) a3 in
    contract s0 = null /\ fee s0 = null /\ owner s0 = null /\
    contract s3 = contract_of a1 /\ fee s3 = fee_of a2 /\
    owner s3 = owner_of a3 /\
    accounts s3 = accounts s0 /\ lookup s3 = lookup s0 /\
    events s3 = events s0 /\ register s3 = register s0 /\
    accounts s0 = accountsReducer None (empty_action Payload undefined) /\
    lookup s0 = lookupReducer None (empty_action Payload undefined) /\
    events s0 = eventsReducer None (empty_action Payload undefined) /\
    register s0 = registerReducer None (empty_action Payload undefined) /\
    s0 = {| accounts := accountsReducer None (empty_action Payload undefined);
            contract := null; fee := null; owner := null;
            lookup := lookupReducer None (empty_action Payload undefined);
            events := eventsReducer None (empty_action Payload undefined);
            register :=
              registerReducer None (empty_action Payload undefined) |} /\
    s3 = {| accounts := accountsReducer None (empty_action Payload undefined);
            contract := contract_of a1; fee := fee_of a2;
            owner := owner_of a3;
            lookup := lookupReducer None (empty_action Payload undefined);
            events := eventsReducer None (empty_action Payload undefined);
            register :=
              registerReducer None (empty_action Payload undefined) |}.
Proof.
  intros a1 a2 a3 H1 H2 H3. cbv zeta.
  rewrite (set_owner_step _ a3 H3), (set_fee_step _ a2 H2),
    (reducer_undefined a1), (set_contract_step _ a1 H1).
  repeat split.
Qed.

(** X22.  The three 'set' actions compose as independent writes: the
    later of two actions of the same type wins, and two actions of
    different types commute. *)
Theorem set_actions_compose :
  forall (state : St) (a b : Action Payload),
    (type a = "set contract" \/ type a = "set fee" \/ type a = "set owner") ->
    (type b = "set contract" \/ type b = "set fee" \/ type b = "set owner") ->
    (type a = type b ->
     root (Some (root (Some state) a)) b = root (Some state) b) /\
    (type a <> type b ->
     root (Some (root (Some state) a)) b
     = root (Some (root (Some state) b)) a).
Proof.
  intros state a b Ha Hb.
  destruct Ha as [Ha|[Ha|Ha]], Hb as [Hb|[Hb|Hb]];
    (split; intros H; [try (rewrite Ha, Hb in H; discriminate H)
                      | try (rewrite Ha, Hb in H; contradiction)]);
    rewrite ?(set_contract_step _ a Ha), ?(set_fee_step _ a Ha),
      ?(set_owner_step _ a Ha), ?(set_contract_step _ b Hb),
      ?(set_fee_step _ b Hb), ?(set_owner_step _ b Hb);
    rewrite ?(set_contract_step _ a Ha), ?(set_fee_step _ a Ha),
      ?(set_owner_step _ a Ha), ?(set_contract_step _ b Hb),
      ?(set_fee_step _ b Hb), ?(set_owner_step _ b Hb);
    reflexivity.
Qed.

End RegistryMoreFacts.

Section RegistryMoreWitnesses.

Import Registry.

Lemma reducer_routes_by_prefix_witness :
  let st :=
    {| accounts := 1%nat; contract := "0xc0"; fee := "5"; owner := "0x0a";
       lookup := 2%nat; events := 3%nat; register := 4%nat |} in
  counting_reducer (Some st)
    (mkAction string "register reserve" "undefined" "undefined" "undefined" [])
  = {| accounts := 1%nat; contract := "0xc0"; fee := "5"; owner := "0x0a";
       lookup := 2%nat; events := 3%nat; register := 5%nat |}.
Proof.
  cbv zeta. unfold counting_reducer.
  exact (proj2 (proj2 (proj2
    (reducer_routes_by_prefix nat nat nat nat string "null" "undefined"
       counting counting counting counting
       {| accounts := 1%nat; contract := "0xc0"; fee := "5"; owner := "0x0a";
          lookup := 2%nat; events := 3%nat; register := 4%nat |}
       (mkAction string "register reserve" "undefined" "undefined"
          "undefined" [])))) eq_refl).
Defined.

Lemma reducer_from_undefined_witness :
  counting_reducer
    (Some (counting_reducer
             (Some (counting_reducer None
                      (mkAction string "set contract" "0xc0" "undefined"
                         "undefined" [])))
             (mkAction string "set fee" "undefined" "7" "undefined" [])))
    (mkAction string "set owner" "undefined" "undefined" "0x0a" [])
  = {| accounts := 0%nat; contract := "0xc0"; fee := "7"; owner := "0x0a";
       lookup := 0%nat; events := 0%nat; register := 0%nat |}.
Proof.
  unfold counting_reducer.
  pose proof
    (reducer_from_undefined nat nat nat nat string "null" "undefined"
       counting counting counting counting
       (mkAction string "set contract" "0xc0" "undefined" "undefined" [])
       (mkAction string "set fee" "undefined" "7" "undefined" [])
       (mkAction string "set owner" "undefined" "undefined" "0x0a" [])
       eq_refl eq_refl eq_refl) as H.
  cbv zeta in H.
  exact (proj2 (proj2 (proj2 (proj2 (proj2 (proj2 (proj2 (proj2 (proj2
          (proj2 (proj2 (proj2 (proj2 (proj2 (proj2 H))))))))))))))).
Defined.

Lemma set_actions_compose_witness :
  let st :=
    {| accounts := 1%nat; contract := "0xc0"; fee := "5"; owner := "0x0a";
       lookup := 2%nat; events := 3%nat; register := 4%nat |} in
  let a := mkAction string "set fee" "undefined" "7" "undefined" [] in
  let b := mkAction string "set owner" "undefined" "undefined" "0x0b" [] in
  counting_reducer (Some (counting_reducer (Some st) a)) b
  = counting_reducer (Some (counting_reducer (Some st) b)) a.
Proof.
  cbv zeta. unfold counting_reducer.
  apply (proj2 (set_actions_compose nat nat nat nat string "null" "undefined"
                  counting counting counting counting
                  {| accounts := 1%nat; contract := "0xc0"; fee := "5";
                     owner := "0x0a"; lookup := 2%nat; events := 3%nat;
                     register := 4%nat |}
                  (mkAction string "set fee" "undefined" "7" "undefined" [])
                  (mkAction string "set owner" "undefined" "undefined" "0x0b" [])
                  (or_intror (or_introl eq_refl))
                  (or_intror (or_intror eq_refl)))).
  discriminate.
Defined.

End RegistryMoreWitnesses.

(* ----------------------------------------------------------------- *)
(** ** The chain middleware *)

Section ChainMiddlewareFacts.

Import ChainMiddleware.

Variable DEFAULT_NETCHAIN : string.

Local Abbreviation mw := (middleware DEFAULT_NETCHAIN).

(** The network switch the middleware reacts to. *)
Lemma middleware_cases (ns : NodeStatus) (a : Action) :
  (exists newChain,
      type a = "statusCollection" /\
      (exists c, collection a = Some c /\ netChain c = Some newChain) /\
      newChain <> "" /\ newChain <> currentChain ns /\
      currentChain ns <> DEFAULT_NETCHAIN /\
      mw ns a
      = [ DispatchSnackbar
            ("Switched to " ++ newChain
             ++ ". The UI will reload in 5 seconds...") 5000;
          ScheduleReload 4750;
          FetchAllBalances true;
          Next a ]) \/
  (~ (exists newChain c,
        type a = "statusCollection" /\
        collection a = Some c /\ netChain c = Some newChain /\
        newChain <> "" /\ newChain <> currentChain ns /\
        currentChain ns <> DEFAULT_NETCHAIN) /\
   mw ns a = [ Next a ]).
Proof.
  unfold middleware.
  destruct (String.eqb_spec (type a) "statusCollection") as [Ht|Ht].
  2: { right. split; [|reflexivity]. intros (n & c & H & _). contradiction. }
  destruct (collection a) as [c|] eqn:Ec.
  2: { right. split; [|reflexivity]. intros (n & c & _ & H & _). discriminate. }
  destruct (netChain c) as [[|ch rest]|] eqn:En.
  - right. split; [|reflexivity].
    intros (n & c' & _ & [= <-] & Hn & Hne & _). congruence.
  - set (newChain := String ch rest) in *.
    destruct (String.eqb_spec newChain (currentChain ns)) as [Hsame|Hdiff].
    + right. split; [|reflexivity].
      intros (n & c' & _ & [= <-] & Hn & _ & Hne & _). congruence.
    + destruct (String.eqb_spec (currentChain ns) DEFAULT_NETCHAIN) as [Hd|Hd].
      * right. split; [|reflexivity].
        intros (n & c' & _ & _ & _ & _ & _ & Hne). contradiction.
      * left. exists newChain. split; [exact Ht|].
        split; [exists c; split; [reflexivity|exact En]|].
        split; [discriminate|]. split; [exact Hdiff|]. split; [exact Hd|].
        reflexivity.
  - right. split; [|reflexivity].
    intros (n & c' & _ & [= <-] & Hn & _). congruence.
Qed.

(** X23.  The middleware never swallows, duplicates or alters an action:
    whatever the action and the state, the action itself is passed to
    [next] exactly once, after everything else the middleware does. *)
Theorem middleware_forwards_every_action :
  forall (ns : NodeStatus) (a : Action),
    exists before,
      mw ns a = (before ++ [Next a])%list /\
      (forall b, ~ In (Next b) before) /\
      (length before = 0 \/ length before = 3)%nat.
Proof.
  intros ns a.
  destruct (middleware_cases ns a) as [(n & _ & _ & _ & _ & _ & ->)|[_ ->]].
  - eexists [_; _; _]. split; [reflexivity|]. split; [|right; reflexivity].
    intros b [H|[H|[H|[]]]]; discriminate H.
  - exists []. split; [reflexivity|]. split; [intros b []|left; reflexivity].
Qed.

(** X24.  A page reload is scheduled exactly when a 'statusCollection'
    action carries a non-empty chain name that differs from the current
    one while the current one is not the default: never for another
    action type, an unchanged chain, or the first chain seen after the
    default.  When it is, the user is told first, in a snackbar naming
    the new chain and lasting 5000 ms, the reload is set 4750 ms ahead,
    within the snackbar's life, and the balances are fetched again. *)
Theorem reload_only_on_network_switch :
  forall (ns : NodeStatus) (a : Action),
    ((exists d, In (ScheduleReload d) (mw ns a)) <->
     (exists newChain c,
        type a = "statusCollection" /\
        collection a = Some c /\ netChain c = Some newChain /\
        newChain <> "" /\ newChain <> currentChain ns /\
        currentChain ns <> DEFAULT_NETCHAIN)) /\
    (forall d, In (ScheduleReload d) (mw ns a) ->
       exists newChain c,
         collection a = Some c /\ netChain c = Some newChain /\
         d = 4750 /\
         mw ns a
         = [ DispatchSnackbar
               ("Switched to " ++ newChain
                ++ ". The UI will reload in 5 seconds...") 5000;
             ScheduleReload d;
             FetchAllBalances true;
             Next a ]).
Proof.
  intros ns a.
  destruct (middleware_cases ns a)
    as [(n & Ht & (c & Hc & Hn) & Hne & Hd & Hdef & ->)|[Hnot ->]].
  - split.
    + split.
      * intros _. exists n, c. repeat split; assumption.
      * intros _. exists 4750. cbn. tauto.
    + intros d [H|[H|[H|[H|[]]]]]; try discriminate H.
      injection H as <-. exists n, c. repeat split; assumption.
  - split.
    + split.
      * intros [d [H|[]]]. discriminate H.
      * intros H. contradiction.
    + intros d [H|[]]. discriminate H.
Qed.

End ChainMiddlewareFacts.

Section ChainMiddlewareWitnesses.

Import ChainMiddleware.

Lemma reload_only_on_network_switch_witness :
  middleware "(unknown)" (mkNodeStatus "kovan")
    (mkAction "statusCollection" (Some (mkCollection (Some "foundation"))))
  = [ DispatchSnackbar
        "Switched to foundation. The UI will reload in 5 seconds..." 5000;
      ScheduleReload 4750;
      FetchAllBalances true;
      Next (mkAction "statusCollection"
              (Some (mkCollection (Some "foundation")))) ].
Proof.
  destruct (proj2 (reload_only_on_network_switch "(unknown)"
                     (mkNodeStatus "kovan")
                     (mkAction "statusCollection"
                        (Some (mkCollection (Some "foundation")))))
              4750 ltac:(cbn; tauto))
    as (n & c & Hc & Hn & _ & H).
  cbn in Hc. injection Hc as <-. cbn in Hn. injection Hn as <-.
  exact H.
Defined.

End ChainMiddlewareWitnesses.

(* ----------------------------------------------------------------- *)
(** ** [urlToHash] and [updateDapp] *)

Section DappregUpdateFacts.

Import Dappreg DappregUpdate.

Variable World : Type.
Variable respondHash : World -> string -> World * (Rejection + string).
Variable respondEntries
  : World -> string -> string -> World * (Rejection + list Value).
Variable respond : World -> Call -> World * (Rejection + Value).
Variable interfere : World -> option Value.

Local Abbreviation trace_of :=
  (trace World respondHash respondEntries respond interfere).
Local Abbreviation outcome_of :=
  (outcome World respondHash respondEntries respond interfere).
Local Abbreviation disturbed_by :=
  (disturbed World interfere).

#[local] Arguments disturbed : simpl never.

Lemma from_disturbed (o : Options) (w : World) :
  from (disturbed_by o w) = from o.
Proof. unfold disturbed. destruct (interfere w); reflexivity. Qed.

Lemma value_disturbed (o : Options) (w : World) :
  value (disturbed_by o w) = value o.
Proof. unfold disturbed. destruct (interfere w); reflexivity. Qed.

(** Unfold a run down to the answers of the backend. *)
Ltac answers :=
  repeat match goal with
  | |- context [respondHash ?w ?u] =>
    let w1 := fresh "w" in
    let e := fresh "e" in
    let h := fresh "h" in
    destruct (respondHash w u) as [w1 [e | h]]; cbn
  | |- context [String.eqb ?h INVALID_URL_HASH] =>
    let E := fresh "Einvalid" in
    destruct (String.eqb_spec h INVALID_URL_HASH) as [E|E]; cbn
  | |- context [respondEntries ?w ?i ?h] =>
    let w1 := fresh "w" in
    let e := fresh "e" in
    let items := fresh "items" in
    destruct (respondEntries w i h) as [w1 [e | items]]; cbn
  | |- context [is_registered ?items] =>
    let E := fresh "Ereg" in
    destruct (is_registered items) eqn:E; cbn
  | |- context [respond ?w ?c] =>
    let w1 := fresh "w" in
    let e := fresh "e" in
    let b := fresh "b" in
    let str := fresh "str" in
    destruct (respond w c) as [w1 [e | [b | str]]]; cbn
  end.

(** X25.  The failures of [urlToHash].  Without a URL (undefined or
    empty) it resolves with null and asks nothing.  When the node
    answers with the hash that marks an invalid URL, it is rejected with
    the message naming the URL and the GithubHint entries are never
    read.  When the node or the contract rejects a question, the promise
    is rejected with that error and nothing more is asked. *)
Theorem urlToHash_failures :
  forall (i : string) (w : World) (o : Options),
    (forall url, Js.truthy url = false ->
       trace_of (urlToHash i url) w o = [] /\
       outcome_of (urlToHash i url) w o = inr None) /\
    (forall url w1, url <> "" ->
       respondHash w url = (w1, inr INVALID_URL_HASH) ->
       trace_of (urlToHash i (Some url)) w o
       = [EvHash url (inr INVALID_URL_HASH)] /\
       outcome_of (urlToHash i (Some url)) w o
       = inl (Thrown (dquote ++ url ++ dquote ++ " is not a valid URL"))) /\
    (forall url e, url <> "" ->
       In (EvHash url (inl e)) (trace_of (urlToHash i (Some url)) w o) ->
       trace_of (urlToHash i (Some url)) w o = [EvHash url (inl e)] /\
       outcome_of (urlToHash i (Some url)) w o = inl e) /\
    (forall url h e, url <> "" ->
       In (EvEntries i h (inl e)) (trace_of (urlToHash i (Some url)) w o) ->
       trace_of (urlToHash i (Some url)) w o
       = [EvHash url (inr h); EvEntries i h (inl e)] /\
       outcome_of (urlToHash i (Some url)) w o = inl e).
Proof.
  intros i w o. split; [|split; [|split]].
  - intros [[|a u]|] Hf; try discriminate Hf; split; reflexivity.
  - intros [|a u] w1 Hne Hr; [contradiction|].
    unfold trace, outcome, urlToHash; cbn. rewrite Hr. cbn. split; reflexivity.
  - intros [|a u] e Hne; [contradiction|].
    unfold trace, outcome, urlToHash; cbn. answers; cbn [In]; intros Hin;
      repeat (destruct Hin as [Hin|Hin]; try discriminate Hin);
      try contradiction.
    injection Hin as <-. split; reflexivity.
  - intros [|a u] h e Hne; [contradiction|].
    unfold trace, outcome, urlToHash; cbn. answers; cbn [In]; intros Hin;
      repeat (destruct Hin as [Hin|Hin]; try discriminate Hin);
      try contradiction.
    injection Hin as <- <-. split; reflexivity.
Qed.

(** X26.  When [urlToHash] resolves for a URL, it has asked exactly two
    questions: the node for the content hash of that URL, then the given
    instance for the entry of that hash.  The result carries the hash as
    the node returned it, which is not the invalid-URL hash, and counts
    the hash as registered unless the third item of the entry is the
    zero address; an entry without a third item counts as registered. *)
Theorem urlToHash_result :
  forall (i url : string) (w : World) (o : Options) (res : option HashResult),
    url <> "" ->
    outcome_of (urlToHash i (Some url)) w o = inr res ->
    exists r items,
      res = Some r /\
      trace_of (urlToHash i (Some url)) w o
      = [EvHash url (inr (hash r)); EvEntries i (hash r) (inr items)] /\
      hash r <> INVALID_URL_HASH /\
      (registered r = false <->
       nth_error items 2 = Some (VString ZERO_ADDRESS)) /\
      ((length items < 3)%nat -> registered r = true).
Proof.
  intros i [|a u] w o res Hne; [contradiction|].
  unfold trace, outcome, urlToHash; cbn. answers; intros [= <-].
  all: do 2 eexists; split; [reflexivity|]; split; [reflexivity|];
    split; [assumption|]; cbn [registered].
  - split.
    + split; [discriminate|]. intros H3.
      change (nth_error items 2 = Some (VString ZERO_ADDRESS)) in H3.
      unfold is_registered in Ereg.
      rewrite H3 in Ereg. rewrite String.eqb_refl in Ereg. discriminate.
    + reflexivity.
  - split.
    + split; [intros _|reflexivity].
      change (nth_error items 2 = Some (VString ZERO_ADDRESS)).
      unfold is_registered in Ereg.
      destruct (nth_error items 2) as [[b|owner0]|]; try discriminate Ereg.
      destruct (String.eqb owner0 ZERO_ADDRESS) eqn:E;
        [apply String.eqb_eq in E; now subst | discriminate Ereg].
    + intros Hlen. unfold is_registered in Ereg.
      assert (nth_error items 2 <> None) as E3
        by (destruct (nth_error items 2); [discriminate|discriminate Ereg]).
      apply nth_error_Some in E3. lia.
Qed.

(** X27.  [updateDapp] starts one chain for each of 'content', 'image'
    and 'manifest' that the updates give (with a non-empty URL), in that
    order, and no other.  It never returns a promise for an owner
    update: when the updates name an owner, the call of
    [updateDappOwner] with a single argument throws, after the chains
    have been started; otherwise the started chains are returned. *)
Theorem updateDapp_starts_chains :
  forall (dappId : string) (dappOwner : Value) (updates : JsObject.Obj string)
         (reg ghh : string),
    let st := updateDapp dappId dappOwner updates reg ghh in
    let chain type0 key :=
      update_chain dappId dappOwner reg ghh type0 key
                   (JsObject.get updates type0) in
    promises st
    = ((if given updates "content" then [chain "content" "CONTENT"] else [])
       ++ (if given updates "image" then [chain "image" "IMG"] else [])
       ++ (if given updates "manifest" then [chain "manifest" "MANIFEST"]
           else []))%list /\
    (length (promises st) <= 3)%nat /\
    (given updates "owner" = true -> exists what, thrown st = Some (Thrown what)) /\
    (given updates "owner" = false -> thrown st = None).
Proof.
  intros dappId dappOwner updates reg ghh. cbv zeta.
  assert (Hp : promises (updateDapp dappId dappOwner updates reg ghh)
               = map (fun '(type0, key) =>
                        update_chain dappId dappOwner reg ghh type0 key
                                     (JsObject.get updates type0))
                     (filter (fun '(type0, _) => given updates type0) types)).
  { unfold updateDapp. destruct (given updates "owner"); [|reflexivity].
    destruct (JsObject.get updates "owner"); reflexivity. }
  rewrite Hp. unfold types. cbn [filter].
  split; [|split; [|split]].
  - destruct (given updates "content"), (given updates "image"),
      (given updates "manifest"); reflexivity.
  - destruct (given updates "content"), (given updates "image"),
      (given updates "manifest"); cbn; lia.
  - intros Ho. unfold updateDapp. rewrite Ho.
    unfold given, Js.truthy in Ho.
    destruct (JsObject.get updates "owner") as [[|a x]|]; try discriminate Ho.
    eexists. reflexivity.
  - intros Ho. unfold updateDapp. rewrite Ho. reflexivity.
Qed.

#[local] Arguments String.eqb : simpl never.
#[local] Arguments String.append : simpl never.
#[local] Arguments BigNumber.toFixed0 : simpl never.
#[local] Arguments BigNumber.mul : simpl never.
#[local] Arguments is_registered : simpl never.

Ltac unfold_chain :=
  unfold trace, outcome, update_chain, urlToHash, registerGHH, invoke,
    initial_options; cbn.

Ltac find_ev H Hx Hp :=
  repeat match type of H with
  | [] = (_ ++ _ :: _)%list => exfalso; exact (nil_eq_app_cons _ _ _ H)
  | _ :: _ = (_ ++ _ :: _)%list =>
    let pre' := fresh "pre" in
    apply cons_eq_app_cons in H;
    destruct H as [(-> & Hx & Hp) | (pre' & -> & H)]
  end.

Ltac split_before :=
  first [ exists []; do 3 eexists; split; [reflexivity|]
        | eexists [_]; do 3 eexists; split; [reflexivity|]
        | eexists [_; _]; do 3 eexists; split; [reflexivity|]
        | eexists [_; _; _]; do 3 eexists; split; [reflexivity|]
        | eexists [_; _; _; _]; do 3 eexists; split; [reflexivity|]
        | eexists [_; _; _; _; _]; do 3 eexists; split; [reflexivity|] ].

(** X28.  In a chain of [updateDapp], whatever the backend answers and
    whatever gas limits the sibling chains write into the shared options
    meanwhile: the [setMeta] transaction is submitted last, right after
    its own gas estimate has resolved with a number; it carries the dapp
    id, the key of the metadata kind and the content hash the node
    returned for the URL; its sender is the dapp owner, it sends no
    value, and its gas limit is the rounding of its own estimate times
    1.2, not a limit left by a sibling. *)
Theorem update_chain_submission :
  forall (dappId : string) (dappOwner : Value) (reg ghh type0 key url : string)
         (w : World),
    let tr := trace_of (update_chain dappId dappOwner reg ghh type0 key
                                     (Some url))
                       w (initial_options dappOwner) in
    forall pre c r post,
      tr = (pre ++ EvContract c r :: post)%list ->
      fn c = "setMeta" -> kind c = postTransaction ->
      post = [] /\
      exists pre' ce g h,
        pre = (pre' ++ [EvContract ce (inr (VBigNumber g))])%list /\
        In (EvHash url (inr h)) pre' /\
        instance ce = reg /\ fn ce = "setMeta" /\ kind ce = estimateGas /\
        from (options ce) = Some dappOwner /\
        values ce = [VString dappId; VString key; VString h] /\
        instance c = reg /\ values c = values ce /\
        from (options c) = Some dappOwner /\
        value (options c) = None /\
        gas (options c)
        = Some (VString (BigNumber.toFixed0 (BigNumber.mul g BigNumber.of_1_2))).
Proof.
  intros dappId dappOwner reg ghh type0 key [|a u] w; cbv zeta;
    unfold_chain; [intros pre c r post H; find_ev H Hx Hp|].
  answers.
  all: intros pre c r post H Hfn Hkind; find_ev H Hx Hp;
    try discriminate Hx; injection Hx as -> ->; cbn in Hfn, Hkind;
    try discriminate Hfn; try discriminate Hkind; subst post.
  all: split; [reflexivity|].
  all: split_before.
  all: cbn [In instance fn kind options values from value gas set_gas].
  all: rewrite ?from_disturbed, ?value_disturbed.
  all: repeat split; auto.
Qed.

Local Abbreviation chain_trace dappId dappOwner reg ghh type0 key url w :=
  (trace_of (update_chain dappId dappOwner reg ghh type0 key (Some url))
            w (initial_options dappOwner)).

Ltac pick_event Hin :=
  cbn [In] in Hin;
  repeat (destruct Hin as [Hin|Hin];
          [ try discriminate Hin; try (injection Hin as <- <-) | ]);
  try contradiction.

Lemma chain_hint_then_unregistered
      (dappId : string) (dappOwner : Value) (reg ghh type0 key url : string)
      (w : World) (c : Call) (r : Rejection + Value) :
  In (EvContract c r) (chain_trace dappId dappOwner reg ghh type0 key url w) ->
  fn c = "hintURL" ->
  exists h items,
    In (EvEntries ghh h (inr items))
       (chain_trace dappId dappOwner reg ghh type0 key url w) /\
    is_registered items = false.
Proof.
  destruct url as [|a u]; unfold_chain; [intros []|].
  answers; intros Hin Hfn; pick_event Hin; cbn in Hfn; try discriminate Hfn.
  all: do 2 eexists; split; [cbn; eauto | assumption].
Qed.

Lemma chain_unregistered_then_hint
      (dappId : string) (dappOwner : Value) (reg ghh type0 key url : string)
      (w : World) (h : string) (items : list Value) :
  In (EvEntries ghh h (inr items))
     (chain_trace dappId dappOwner reg ghh type0 key url w) ->
  is_registered items = false ->
  exists c r,
    In (EvContract c r) (chain_trace dappId dappOwner reg ghh type0 key url w) /\
    fn c = "hintURL".
Proof.
  destruct url as [|a u]; unfold_chain; [intros []|].
  answers; intros Hin Hreg; pick_event Hin; try congruence.
  all: do 2 eexists; split; [cbn; eauto | reflexivity].
Qed.

Lemma chain_hint_request
      (dappId : string) (dappOwner : Value) (reg ghh type0 key url : string)
      (w : World) (c : Call) (r : Rejection + Value) :
  In (EvContract c r) (chain_trace dappId dappOwner reg ghh type0 key url w) ->
  fn c = "hintURL" ->
  instance c = ghh /\ from (options c) = Some dappOwner /\
  exists h,
    In (EvHash url (inr h))
       (chain_trace dappId dappOwner reg ghh type0 key url w) /\
    values c = [VString h; VString url].
Proof.
  destruct url as [|a u]; unfold_chain; [intros []|].
  answers; intros Hin Hfn; pick_event Hin; cbn in Hfn; try discriminate Hfn.
  all: split; [reflexivity|]; split; [reflexivity|];
    eexists; split; [cbn; left; reflexivity | reflexivity].
Qed.

Lemma chain_hint_comes_first
      (dappId : string) (dappOwner : Value) (reg ghh type0 key url : string)
      (w : World) (pre post : list Event) (c c' : Call)
      (r r' : Rejection + Value) :
  chain_trace dappId dappOwner reg ghh type0 key url w
  = (pre ++ EvContract c r :: post)%list ->
  fn c = "hintURL" ->
  In (EvContract c' r') pre -> fn c' = "hintURL".
Proof.
  destruct url as [|a u]; unfold_chain;
    [intros H; find_ev H Hx Hp|].
  answers; intros H Hfn; find_ev H Hx Hp; try discriminate Hx;
    injection Hx as -> ->; cbn in Hfn; try discriminate Hfn;
    intros Hin; pick_event Hin; reflexivity.
Qed.

(** X29.  A chain of [updateDapp] calls the GithubHint [hintURL]
    function exactly when the entry it has read for the content hash is
    not registered.  When it does, it asks for the URL and its hash to be
    registered by the dapp owner, before anything is asked of the dapp
    registry. *)
Theorem update_chain_registers_when_needed :
  forall (dappId : string) (dappOwner : Value) (reg ghh type0 key url : string)
         (w : World),
    let tr := chain_trace dappId dappOwner reg ghh type0 key url w in
    ((exists c r, In (EvContract c r) tr /\ fn c = "hintURL") <->
     (exists h items, In (EvEntries ghh h (inr items)) tr /\
                      is_registered items = false)) /\
    (forall c r, In (EvContract c r) tr -> fn c = "hintURL" ->
       instance c = ghh /\ from (options c) = Some dappOwner /\
       exists h, In (EvHash url (inr h)) tr /\
                 values c = [VString h; VString url]) /\
    (forall pre c r post, tr = (pre ++ EvContract c r :: post)%list ->
       fn c = "hintURL" ->
       forall c' r', In (EvContract c' r') pre -> fn c' = "hintURL").
Proof.
  intros dappId dappOwner reg ghh type0 key url w. cbv zeta.
  split; [split|split].
  - intros (c & r & Hin & Hfn). eapply chain_hint_then_unregistered; eauto.
  - intros (h & items & Hin & Hreg).
    eapply chain_unregistered_then_hint; eauto.
  - intros c r. apply chain_hint_request.
  - intros pre c r post Htr Hfn c' r'.
    eapply chain_hint_comes_first; eauto.
Qed.

(** A resolved chain has asked for one hash and read one entry; what
    follows depends on that entry alone. *)
Lemma chain_result_shape
      (dappId : string) (dappOwner : Value) (reg ghh type0 key url : string)
      (w : World) (ghhRequest : option Request) (request : Request) :
  outcome_of (update_chain dappId dappOwner reg ghh type0 key (Some url))
             w (initial_options dappOwner)
  = inr (ghhRequest, request) ->
  exists h items rest,
    chain_trace dappId dappOwner reg ghh type0 key url w
    = (EvHash url (inr h) :: EvEntries ghh h (inr items) :: rest)%list /\
    (ghhRequest = None <-> is_registered items = true) /\
    if is_registered items then
      ghhRequest = None /\
      exists ce g c,
        rest = [EvContract ce (inr (VBigNumber g));
                EvContract c (inr (id request))] /\
        instance ce = reg /\ fn ce = "setMeta" /\ kind ce = estimateGas /\
        instance c = reg /\ fn c = "setMeta" /\ kind c = postTransaction
    else
      exists he gh hp rid ce g c,
        ghhRequest = Some {| id := rid; name := "Registering " ++ url |} /\
        rest = [EvContract he (inr (VBigNumber gh)); EvContract hp (inr rid);
                EvContract ce (inr (VBigNumber g));
                EvContract c (inr (id request))] /\
        instance he = ghh /\ fn he = "hintURL" /\ kind he = estimateGas /\
        instance hp = ghh /\ fn hp = "hintURL" /\
        kind hp = postTransaction /\
        values hp = [VString h; VString url] /\
        instance ce = reg /\ fn ce = "setMeta" /\ kind ce = estimateGas /\
        instance c = reg /\ fn c = "setMeta" /\ kind c = postTransaction.
Proof.
  destruct url as [|a u]; unfold_chain; [discriminate|].
  answers; intros [= <- <-].
  all: do 3 eexists; split; [reflexivity|]; rewrite Ereg.
  all: split; [split; intros; congruence|].
  all: try (split; [reflexivity|]; do 3 eexists; split; [reflexivity|];
            cbn [instance fn kind]; repeat split; fail).
  all: do 7 eexists; split; [reflexivity|]; split; [reflexivity|];
    cbn [instance fn kind values]; repeat split.
Qed.

(** A resolved chain ends with the [setMeta] submission, and its result
    describes the submissions made. *)
Lemma chain_result_requests
      (dappId : string) (dappOwner : Value) (reg ghh type0 key url : string)
      (w : World) (ghhRequest : option Request) (request : Request) :
  outcome_of (update_chain dappId dappOwner reg ghh type0 key (Some url))
             w (initial_options dappOwner)
  = inr (ghhRequest, request) ->
  (exists pre c,
      chain_trace dappId dappOwner reg ghh type0 key url w
      = (pre ++ [EvContract c (inr (id request))])%list /\
      instance c = reg /\ fn c = "setMeta" /\ kind c = postTransaction) /\
  name request = "Updating " ++ type0 ++ " of " ++ dappId /\
  match ghhRequest with
  | None =>
    exists h items,
      In (EvEntries ghh h (inr items))
         (chain_trace dappId dappOwner reg ghh type0 key url w) /\
      is_registered items = true
  | Some g =>
    name g = "Registering " ++ url /\
    exists c,
      In (EvContract c (inr (id g)))
         (chain_trace dappId dappOwner reg ghh type0 key url w) /\
      instance c = ghh /\ fn c = "hintURL" /\ kind c = postTransaction
  end.
Proof.
  destruct url as [|a u]; unfold_chain; [discriminate|].
  answers; intros [= <- <-].
  all: split; [|split; [reflexivity|]].
  all: try (first [ eexists [_; _; _]; eexists; split; [reflexivity|]
                  | eexists [_; _; _; _; _]; eexists; split; [reflexivity|] ];
            repeat split).
  all: cbn [name id].
  all: try (do 2 eexists; split; [cbn; eauto | assumption]).
  all: split; [reflexivity|]; eexists; split; [cbn; eauto 7|]; repeat split.
Qed.

(** X30.  When a chain of [updateDapp] resolves, its last question was
    the [setMeta] submission and the second component of the result
    describes it: the id the submission resolved with, under the name
    'Updating <kind> of <dapp id>'.  The chain has asked the node for
    one hash and read one GithubHint entry, that of this hash.  The
    first component is null exactly when that entry is registered, and
    then the chain has only estimated and submitted [setMeta].
    Otherwise it has first estimated and submitted [hintURL] for the
    hash and the URL, and the first component describes that
    submission: its id, under the name 'Registering <url>'. *)
Theorem update_chain_result :
  forall (dappId : string) (dappOwner : Value) (reg ghh type0 key url : string)
         (w : World) (ghhRequest : option Request) (request : Request),
    let p := update_chain dappId dappOwner reg ghh type0 key (Some url) in
    let tr := trace_of p w (initial_options dappOwner) in
    outcome_of p w (initial_options dappOwner) = inr (ghhRequest, request) ->
    (exists pre c,
        tr = (pre ++ [EvContract c (inr (id request))])%list /\
        instance c = reg /\ fn c = "setMeta" /\ kind c = postTransaction) /\
    name request = "Updating " ++ type0 ++ " of " ++ dappId /\
    match ghhRequest with
    | None =>
      exists h items, In (EvEntries ghh h (inr items)) tr /\
                      is_registered items = true
    | Some g =>
      name g = "Registering " ++ url /\
      exists c, In (EvContract c (inr (id g))) tr /\
                instance c = ghh /\ fn c = "hintURL" /\
                kind c = postTransaction
    end /\
    exists h items rest,
      tr = (EvHash url (inr h) :: EvEntries ghh h (inr items) :: rest)%list /\
      (ghhRequest = None <-> is_registered items = true) /\
      if is_registered items then
        ghhRequest = None /\
        exists ce g c,
          rest = [EvContract ce (inr (VBigNumber g));
                  EvContract c (inr (id request))] /\
          instance ce = reg /\ fn ce = "setMeta" /\ kind ce = estimateGas /\
          instance c = reg /\ fn c = "setMeta" /\ kind c = postTransaction
      else
        exists he gh hp rid ce g c,
          ghhRequest = Some {| id := rid; name := "Registering " ++ url |} /\
          rest = [EvContract he (inr (VBigNumber gh)); EvContract hp (inr rid);
                  EvContract ce (inr (VBigNumber g));
                  EvContract c (inr (id request))] /\
          instance he = ghh /\ fn he = "hintURL" /\ kind he = estimateGas /\
          instance hp = ghh /\ fn hp = "hintURL" /\
          kind hp = postTransaction /\
          values hp = [VString h; VString url] /\
          instance ce = reg /\ fn ce = "setMeta" /\ kind ce = estimateGas /\
          instance c = reg /\ fn c = "setMeta" /\ kind c = postTransaction.
Proof.
  intros dappId dappOwner reg ghh type0 key url w ghhRequest request;
    cbv zeta; intros Hout.
  destruct (chain_result_requests dappId dappOwner reg ghh type0 key url w
              ghhRequest request Hout) as (Hlast & Hname & Hfirst).
  split; [exact Hlast|]. split; [exact Hname|]. split; [exact Hfirst|].
  exact (chain_result_shape dappId dappOwner reg ghh type0 key url w
           ghhRequest request Hout).
Qed.

End DappregUpdateFacts.

Section DappregUpdateWitnesses.

Import Dappreg DappregUpdate.

Lemma urlToHash_failures_witness :
  outcome unit (node_hash INVALID_URL_HASH) (ghh_entries [])
    (resolve_estimates 1 (VString "0x01")) no_sibling
    (urlToHash "githubhint" (Some "not a url")) tt empty_options
  = inl (Thrown (dquote ++ "not a url" ++ dquote ++ " is not a valid URL")).
Proof.
  apply (proj1 (proj2 (urlToHash_failures unit (node_hash INVALID_URL_HASH)
                         (ghh_entries []) (resolve_estimates 1 (VString "0x01"))
                         no_sibling "githubhint" tt empty_options))
           "not a url" tt).
  - discriminate.
  - reflexivity.
Defined.

Lemma urlToHash_result_witness :
  exists r,
    outcome unit (node_hash "0xab")
      (ghh_entries [VString "parity/dapp"; VString "0x00c0";
                    VString ZERO_ADDRESS])
      (resolve_estimates 1 (VString "0x01")) no_sibling
      (urlToHash "githubhint" (Some "https://parity.io")) tt empty_options
    = inr (Some r) /\
    hash r = "0xab" /\ registered r = false.
Proof.
  destruct (urlToHash_result unit (node_hash "0xab")
              (ghh_entries [VString "parity/dapp"; VString "0x00c0";
                            VString ZERO_ADDRESS])
              (resolve_estimates 1 (VString "0x01")) no_sibling
              "githubhint" "https://parity.io" tt empty_options _
              ltac:(discriminate) eq_refl)
    as (r & items & Hres & Htr & _ & Hreg & _).
  exists r. injection Hres as <-. split; [reflexivity|].
  split; [reflexivity|]. reflexivity.
Defined.

Lemma update_chain_submission_witness :
  let tr :=
    trace unit (node_hash "0xab")
      (ghh_entries [VString "parity/dapp"; VString "0x00c0"; VString "0x00a3"])
      (resolve_estimates 21000 (VString "0x2a"))
      (sibling_gas (VString "999999"))
      (update_chain "0xd1" (VString "0x00a3") "dappreg" "githubhint"
                    "image" "IMG" (Some "https://parity.io/logo.png"))
      tt (initial_options (VString "0x00a3")) in
  exists ce re c r,
    nth_error tr 2 = Some (EvContract ce re) /\
    gas (options ce) = Some (VString "999999") /\
    nth_error tr 3 = Some (EvContract c r) /\
    gas (options c) = Some (VString "25200").
Proof.
  cbv zeta. do 4 eexists. split; [reflexivity|]. split; [reflexivity|].
  split; [reflexivity|].
  destruct (update_chain_submission unit (node_hash "0xab")
              (ghh_entries [VString "parity/dapp"; VString "0x00c0";
                            VString "0x00a3"])
              (resolve_estimates 21000 (VString "0x2a"))
              (sibling_gas (VString "999999"))
              "0xd1" (VString "0x00a3") "dappreg" "githubhint"
              "image" "IMG" "https://parity.io/logo.png" tt
              [_; _; _] _ _ [] eq_refl eq_refl eq_refl)
    as (_ & pre' & ce & g & h & Hpre & _ & _ & _ & _ & _ & _ & _ & _ & _ & _
        & Hgas).
  apply (app_inj_tail [_; _] pre') in Hpre as [_ Hce]. injection Hce as _ <-.
  rewrite Hgas. reflexivity.
Defined.

Lemma update_chain_result_witness :
  exists g request,
    outcome unit (node_hash "0xab")
      (ghh_entries [VString "parity/dapp"; VString "0x00c0";
                    VString ZERO_ADDRESS])
      (resolve_estimates 21000 (VString "0x2a")) no_sibling
      (update_chain "0xd1" (VString "0x00a3") "dappreg" "githubhint"
                    "content" "CONTENT" (Some "https://parity.io"))
      tt (initial_options (VString "0x00a3"))
    = inr (Some g, request) /\
    name g = "Registering https://parity.io" /\
    name request = "Updating content of 0xd1".
Proof.
  do 2 eexists. split; [reflexivity|].
  destruct (update_chain_result unit (node_hash "0xab")
              (ghh_entries [VString "parity/dapp"; VString "0x00c0";
                            VString ZERO_ADDRESS])
              (resolve_estimates 21000 (VString "0x2a")) no_sibling
              "0xd1" (VString "0x00a3") "dappreg" "githubhint"
              "content" "CONTENT" "https://parity.io" tt _ _ eq_refl)
    as (_ & Hname & (Hg & _) & _).
  split; [exact Hg | exact Hname].
Defined.

End DappregUpdateWitnesses.
